(** * A shallow embedding of the experiment-simulation notebook

    The notebook [rpy2.py] simulates a participant table with NumPy, hands it
    to pandas / scikit-learn for preprocessing and to statsmodels, rpy2 and
    semopy for model fitting.  This file embeds the notebook's own functions

      - [simulate_data]                 (lines 186-289)
      - [preprocess_data]               (lines 292-310)
      - [perform_regression_analysis]   (lines 336-352)
      - [run_IPMA_in_r]                 (lines 50-112, with the set-up 36-48)
      - [perform_sem_ipma]              (lines 118-143)
      - [perform_statistical_analysis]  (lines 313-333)
      - [analyze_prompts]               (lines 355-401)
      - [analyze_interviews]            (lines 404-435)
      - the output block of [run_IPMA_on_click] (lines 606-655)

    and proves or refutes the statements of the specification about them,
    followed by further properties read off the code (X1, X2, ...).

    Conventions.
      - A Python [int] is a [Z]; an index produced by [range] is a [nat].
      - A NumPy [float64] is a [spec_float] evaluated at precision 53 and
        maximal exponent 1024 (IEEE 754 binary64, round to nearest even).
      - A call that may raise returns a [pyres]; the seeded global generator
        of [numpy.random] is threaded explicitly through [Rand].
      - Third-party routines whose code is not part of the notebook (the
        Mersenne-Twister draws, Python's [random.choice], [StandardScaler],
        [OLS.fit], [describe], [corr], [ttest_ind], the R routine, semopy,
        Plotly) are Section variables or record fields: every theorem holds
        for all of their possible behaviours unless a hypothesis says
        otherwise. *)

From Stdlib Require Import ZArith Lia Bool.
From Stdlib Require Import Strings.String Strings.Ascii.
From Stdlib Require Import Floats.PrimFloat Floats.SpecFloat Floats.FloatOps.
From Stdlib Require Import Sorting.Sorted.
From stdpp Require Import base tactics option list strings pretty gmap.

#[local] Open Scope string_scope.

(* ===================================================================== *)
(** * Python exceptions and fallible results                             *)
(* ===================================================================== *)

(** The exception classes that can reach the notebook's functions.  The last
    two derive from [BaseException] only, so [except Exception] lets them
    through. *)
Inductive exn_class : Set :=
  | ValueError | IndexError | KeyError | TypeError | SyntaxError
  | LinAlgError | PatsyError | RRuntimeError | RuntimeError
  | KeyboardInterrupt | SystemExit.

Record pyexn : Set := PyExn { exn_cls : exn_class; exn_msg : string }.

(** [isinstance(e, Exception)]. *)
Definition is_Exception (e : pyexn) : bool :=
  match exn_cls e with
  | KeyboardInterrupt | SystemExit => false
  | _ => true
  end.

Inductive pyres (A : Type) : Type :=
  | Ok (a : A)
  | Raise (e : pyexn).
Arguments Ok {A} a.
Arguments Raise {A} e.

#[global] Instance pyres_ret : MRet pyres := fun _ a => Ok a.
#[global] Instance pyres_bind : MBind pyres := fun _ _ k m =>
  match m with
  | Ok a => k a
  | Raise e => Raise e
  end.

Definition raises {A} (c : exn_class) (r : pyres A) : Prop :=
  exists e, r = Raise e /\ exn_cls e = c.

Definition returns {A} (r : pyres A) : Prop := exists a, r = Ok a.

(** [a[i]] on a one-dimensional array, for an index [i >= 0]. *)
Definition out_of_bounds (i size : nat) : pyexn :=
  PyExn IndexError
    ("index " ++ pretty i ++ " is out of bounds for axis 0 with size " ++ pretty size).

Definition getitem {A} (a : list A) (i : nat) : pyres A :=
  match a !! i with
  | Some x => Ok x
  | None => Raise (out_of_bounds i (length a))
  end.

(** [a[i] = f(a[i])], the shape of [a[i] += c] and [a[i] -= c]. *)
Definition iupdate {A} (f : A -> A) (a : list A) (i : nat) : pyres (list A) :=
  x ← getitem a i; Ok (<[i := f x]> a).

(** [for i in range(n): st = body(i, st)], stopping at the first raise. *)
Fixpoint for_each {S} (body : nat -> S -> pyres S) (idx : list nat) (st : S)
  : pyres S :=
  match idx with
  | [] => Ok st
  | i :: rest => st' ← body i st; for_each body rest st'
  end.

Definition range (n : Z) : list nat := seq 0 (Z.to_nat n).

Definition for_range {S} (n : Z) (body : nat -> S -> pyres S) (st : S) : pyres S :=
  for_each body (range n) st.

(** [lst * k] on a Python list: no copy at all when [k <= 0]. *)
Definition list_times {A} (lst : list A) (k : Z) : list A :=
  mjoin (replicate (Z.to_nat k) lst).

(* ===================================================================== *)
(** * State threaded through fallible steps                              *)
(* ===================================================================== *)

(** A computation that reads and writes a state [S] (the global random
    generator, or the console) and may raise.  The state reached when an
    exception is raised is kept. *)
Definition StateErr (S A : Type) : Type := S -> pyres A * S.

Definition se_ret {S A} (a : A) : StateErr S A := fun s => (Ok a, s).

Definition se_bind {S A B} (m : StateErr S A) (k : A -> StateErr S B) : StateErr S B :=
  fun s =>
    match (m s).1 with
    | Ok a => k a (m s).2
    | Raise e => (Raise e, (m s).2)
    end.

(** A pure fallible step. *)
Definition lift {S A} (r : pyres A) : StateErr S A := fun s => (r, s).

(** [try: m  except <classes caught by [catch]> as e: handler e]. *)
Definition try_except {S A} (catch : pyexn -> bool) (m : StateErr S A)
    (handler : pyexn -> StateErr S A) : StateErr S A :=
  fun s =>
    match (m s).1 with
    | Ok a => (Ok a, (m s).2)
    | Raise e => if catch e then handler e (m s).2 else (Raise e, (m s).2)
    end.

Declare Scope se_scope.
Delimit Scope se_scope with se.
Notation "x <~ m ;; k" := (se_bind m (fun x => k))
  (at level 100, m at next level, right associativity) : se_scope.
Notation "m ;;; k" := (se_bind m (fun _ => k))
  (at level 100, right associativity) : se_scope.

(* ===================================================================== *)
(** * float64                                                            *)
(* ===================================================================== *)

Module F64.

Definition t := spec_float.

Definition add : t -> t -> t := SFadd prec emax.
Definition sub : t -> t -> t := SFsub prec emax.
Definition mul : t -> t -> t := SFmul prec emax.
Definition div : t -> t -> t := SFdiv prec emax.

(** Conversion of an [int64] element to [float64]. *)
Definition of_Z (z : Z) : t := binary_normalize prec emax z 0 false.

Definition is_nan (x : t) : bool :=
  match x with S754_nan => true | _ => false end.

(** [x <= y]; false as soon as one side is NaN. *)
Definition leb : t -> t -> bool := SFleb.

(** [np.maximum(x, y)]: [x] when [x >= y] or [x] is NaN, else [y]. *)
Definition maximum (x y : t) : t := if leb y x || is_nan x then x else y.

(** [np.minimum(x, y)]: [x] when [x <= y] or [x] is NaN, else [y]. *)
Definition minimum (x y : t) : t := if leb x y || is_nan x then x else y.

(** [np.clip(a, a_min, a_max)], which NumPy documents as
    [np.minimum(a_max, np.maximum(a, a_min))]. *)
Definition clip (a a_min a_max : t) : t := minimum a_max (maximum a a_min).

(** Neither NaN nor an infinity. *)
Definition is_finite (x : t) : bool :=
  match x with S754_zero _ | S754_finite _ _ _ => true | _ => false end.

(** [lo <= x <= hi]. *)
Definition within (lo hi x : t) : Prop := leb lo x = true /\ leb x hi = true.

(** The literals of the notebook, rounded to binary64 as Python does. *)
Definition c0_1 : t := Eval vm_compute in Prim2SF 0x1.999999999999ap-4%float.
Definition c0_2 : t := Eval vm_compute in Prim2SF 0x1.999999999999ap-3%float.
Definition c0_3 : t := Eval vm_compute in Prim2SF 0x1.3333333333333p-2%float.
Definition c0_4 : t := Eval vm_compute in Prim2SF 0x1.999999999999ap-2%float.
Definition c0_5 : t := Eval vm_compute in Prim2SF 0.5%float.
Definition c0_6 : t := Eval vm_compute in Prim2SF 0x1.3333333333333p-1%float.
Definition c2_5 : t := Eval vm_compute in Prim2SF 2.5%float.
Definition c3_5 : t := Eval vm_compute in Prim2SF 3.5%float.

End F64.

(* ===================================================================== *)
(** * pandas tables                                                      *)
(* ===================================================================== *)

(** A column with its dtype: [int64], [float64], [object] (strings) or
    [bool]. *)
Inductive series : Type :=
  | IntCol (l : list Z)
  | FloatCol (l : list F64.t)
  | ObjCol (l : list string)
  | BoolCol (l : list bool).

Definition series_len (c : series) : nat :=
  match c with
  | IntCol l => length l
  | FloatCol l => length l
  | ObjCol l => length l
  | BoolCol l => length l
  end.

(** [dtype] is a subtype of [np.number]; [bool] and [object] are not. *)
Definition is_number (c : series) : bool :=
  match c with
  | IntCol _ | FloatCol _ => true
  | ObjCol _ | BoolCol _ => false
  end.

(** A DataFrame over the default [RangeIndex]: its columns in order. *)
Abbreviation DataFrame := (list (string * series)).

Definition column_names (df : DataFrame) : list string := df.*1.

(** [df[name]] as an option. *)
Fixpoint column (name : string) (df : DataFrame) : option series :=
  match df with
  | [] => None
  | (k, c) :: rest => if String.eqb k name then Some c else column name rest
  end.

(** [len(df)]. *)
Definition nrows (df : DataFrame) : nat :=
  match df with
  | [] => 0
  | (_, c) :: _ => series_len c
  end.

Definition same_length (cols : list (string * series)) : bool :=
  forallb (fun kc => Nat.eqb (series_len kc.2) (nrows cols)) cols.

(** [pd.DataFrame({...})] from a dict of one-dimensional arrays. *)
Definition pd_DataFrame (cols : list (string * series)) : pyres DataFrame :=
  if same_length cols then Ok cols
  else Raise (PyExn ValueError "All arrays must be of the same length").

(** [np.array(lst)] for a list of Python ints: [int64], except that the
    empty list gives an empty [float64] array. *)
Definition np_array (lst : list Z) : series :=
  match lst with
  | [] => FloatCol []
  | _ => IntCol lst
  end.

(* ===================================================================== *)
(** * The seeded generator of [numpy.random]                             *)
(* ===================================================================== *)

(** The legacy global [RandomState]: how a seed initialises it and how one
    element of each distribution is drawn from it.  NumPy's algorithms are
    not modelled; they are the fields of this record. *)
Record RandomState : Type := {
  rng_state : Type;
  rng_init : Z -> rng_state;
  rng_randint : Z -> Z -> rng_state -> Z * rng_state;
  rng_choice : list string -> rng_state -> string * rng_state;
  rng_normal : F64.t -> F64.t -> rng_state -> F64.t * rng_state;
  rng_uniform : F64.t -> F64.t -> rng_state -> F64.t * rng_state
}.

Section Generator.

Context (R : RandomState).

(** A computation over the global generator that may raise. *)
Definition Rand (A : Type) : Type := StateErr (rng_state R) A.

(** [size] elements drawn one after the other. *)
Fixpoint draws {A} (d : rng_state R -> A * rng_state R) (n : nat) (s : rng_state R)
  : list A * rng_state R :=
  match n with
  | O => ([], s)
  | S k => let r := d s in let rs := draws d k r.2 in (r.1 :: rs.1, rs.2)
  end.

(** A draw with [size=n]: NumPy refuses a negative dimension. *)
Definition sized {A} (d : rng_state R -> A * rng_state R) (size : Z) : Rand (list A) :=
  fun s =>
    if (size <? 0)%Z
    then (Raise (PyExn ValueError "negative dimensions are not allowed"), s)
    else let r := draws d (Z.to_nat size) s in (Ok r.1, r.2).

(** [np.random.seed(seed)]: resets the global state from the seed alone. *)
Definition np_random_seed (seed : Z) : Rand unit :=
  fun s =>
    if ((0 <=? seed) && (seed <? 2 ^ 32))%Z
    then (Ok tt, rng_init R seed)
    else (Raise (PyExn ValueError "Seed must be between 0 and 2**32 - 1"), s).

Definition randint (low high size : Z) : Rand (list Z) :=
  sized (rng_randint R low high) size.
Definition choice (a : list string) (size : Z) : Rand (list string) :=
  sized (rng_choice R a) size.
Definition normal (loc scale : F64.t) (size : Z) : Rand (list F64.t) :=
  sized (rng_normal R loc scale) size.
Definition uniform (low high : F64.t) (size : Z) : Rand (list F64.t) :=
  sized (rng_uniform R low high) size.

End Generator.

(* ===================================================================== *)
(** * [simulate_data]                                                    *)
(* ===================================================================== *)

(** The four arrays the first adjustment loop writes to. *)
Record measures : Type := Measures {
  m_final_self_efficacy : list F64.t;
  m_final_anxiety : list F64.t;
  m_errors_identified : list Z;
  m_completion_time : list F64.t
}.

(** The five arrays the second adjustment loop writes to. *)
Record signals : Type := Signals {
  s_eeg_beta : list F64.t;
  s_pog_fixations : list Z;
  s_pog_fixation_duration : list F64.t;
  s_ecg_hr : list F64.t;
  s_eda_scr : list F64.t
}.

(** Body of the loop at lines 223-231. *)
Definition adjust_measures (llm_usage herbal_blend : list Z) (i : nat) (m : measures)
  : pyres measures :=
  u ← getitem llm_usage i;
  m ← (if (u =? 1)%Z then
         fse ← iupdate (fun x => F64.add x F64.c0_5) (m_final_self_efficacy m) i;
         fa ← iupdate (fun x => F64.sub x F64.c0_4) (m_final_anxiety m) i;
         ei ← iupdate (fun e => (e + 3)%Z) (m_errors_identified m) i;
         ct ← iupdate (fun x => F64.sub x (F64.of_Z 15)) (m_completion_time m) i;
         Ok (Measures fse fa ei ct)
       else Ok m);
  h ← getitem herbal_blend i;
  if (h =? 1)%Z then
    fa ← iupdate (fun x => F64.sub x F64.c0_3) (m_final_anxiety m) i;
    ei ← iupdate (fun e => (e + 1)%Z) (m_errors_identified m) i;
    Ok (Measures (m_final_self_efficacy m) fa ei (m_completion_time m))
  else Ok m.

(** Body of the loop at lines 255-262. *)
Definition adjust_signals (llm_usage herbal_blend : list Z) (i : nat) (g : signals)
  : pyres signals :=
  u ← getitem llm_usage i;
  g ← (if (u =? 1)%Z then
         eb ← iupdate (fun x => F64.add x (F64.of_Z 2)) (s_eeg_beta g) i;
         pf ← iupdate (fun e => (e - 5)%Z) (s_pog_fixations g) i;
         pd ← iupdate (fun x => F64.add x (F64.of_Z 50)) (s_pog_fixation_duration g) i;
         Ok (Signals eb pf pd (s_ecg_hr g) (s_eda_scr g))
       else Ok g);
  h ← getitem herbal_blend i;
  if (h =? 1)%Z then
    hr ← iupdate (fun x => F64.sub x (F64.of_Z 5)) (s_ecg_hr g) i;
    sc ← iupdate (fun x => F64.sub x F64.c0_1) (s_eda_scr g) i;
    Ok (Signals (s_eeg_beta g) (s_pog_fixations g) (s_pog_fixation_duration g) hr sc)
  else Ok g.

(** Line 242: [(errors_identified + (500 - completion_time)/10) / 2]. *)
Definition performance_of (errors : Z) (time : F64.t) : F64.t :=
  F64.div
    (F64.add (F64.of_Z errors)
             (F64.div (F64.sub (F64.of_Z 500) time) (F64.of_Z 10)))
    (F64.of_Z 2).

(** [range(1, n + 1)] as an [int64] column. *)
Definition participant_ids (n : Z) : list Z :=
  (fun i : nat => Z.of_nat i + 1)%Z <$> range n.

Section Simulation.

Context (R : RandomState).

#[local] Open Scope se_scope.

Definition simulate_data (n_participants seed : Z) : Rand R DataFrame :=
  _ <~ np_random_seed R seed ;;
  (* Demographics *)
  age <~ randint R 18 30 n_participants ;;
  gender <~ choice R ["Male"; "Female"; "Other"] n_participants ;;
  programming_experience <~
    choice R ["Beginner"; "Intermediate"; "Advanced"] n_participants ;;
  (* Group assignment *)
  let llm_usage := list_times [1; 1; 0; 0]%Z (n_participants / 4) in
  let herbal_blend := list_times [1; 0; 1; 0]%Z (n_participants / 4) in
  (* Psychological measures; [.copy()] gives the finals their own storage *)
  initial_self_efficacy <~ normal R F64.c3_5 F64.c0_5 n_participants ;;
  initial_anxiety <~ normal R F64.c2_5 F64.c0_6 n_participants ;;
  let final_self_efficacy := initial_self_efficacy in
  let final_anxiety := initial_anxiety in
  (* Performance measures *)
  errors_identified <~ randint R 5 20 n_participants ;;
  completion_time <~ uniform R (F64.of_Z 180) (F64.of_Z 400) n_participants ;;
  (* Adjust based on group *)
  m <~ lift (for_range n_participants (adjust_measures llm_usage herbal_blend)
               (Measures final_self_efficacy final_anxiety
                         errors_identified completion_time)) ;;
  (* Bounds *)
  let final_self_efficacy :=
    (fun x => F64.clip x (F64.of_Z 1) (F64.of_Z 5)) <$> m_final_self_efficacy m in
  let final_anxiety :=
    (fun x => F64.clip x (F64.of_Z 1) (F64.of_Z 4)) <$> m_final_anxiety m in
  let errors_identified := Z.max 0 <$> m_errors_identified m in
  let completion_time := F64.maximum (F64.of_Z 60) <$> m_completion_time m in
  let performance := zip_with performance_of errors_identified completion_time in
  (* Neurophysiological data *)
  eeg_alpha <~ normal R (F64.of_Z 10) (F64.of_Z 2) n_participants ;;
  eeg_beta <~ normal R (F64.of_Z 18) (F64.of_Z 3) n_participants ;;
  ecg_hr <~ normal R (F64.of_Z 75) (F64.of_Z 10) n_participants ;;
  eda_scr <~ normal R F64.c0_5 F64.c0_2 n_participants ;;
  pog_fixations <~ randint R 20 100 n_participants ;;
  pog_fixation_duration <~
    uniform R (F64.of_Z 200) (F64.of_Z 500) n_participants ;;
  pog_pupil_diameter <~ normal R F64.c3_5 F64.c0_5 n_participants ;;
  pog_blink_rate <~ uniform R (F64.of_Z 10) (F64.of_Z 30) n_participants ;;
  g <~ lift (for_range n_participants (adjust_signals llm_usage herbal_blend)
               (Signals eeg_beta pog_fixations pog_fixation_duration
                        ecg_hr eda_scr)) ;;
  lift (pd_DataFrame
    [ ("ParticipantID", IntCol (participant_ids n_participants));
      ("Age", IntCol age);
      ("Gender", ObjCol gender);
      ("ProgrammingExperience", ObjCol programming_experience);
      ("LLMUsage", np_array llm_usage);
      ("HerbalBlend", np_array herbal_blend);
      ("InitialSelfEfficacy", FloatCol initial_self_efficacy);
      ("FinalSelfEfficacy", FloatCol final_self_efficacy);
      ("InitialAnxiety", FloatCol initial_anxiety);
      ("FinalAnxiety", FloatCol final_anxiety);
      ("ErrorsIdentified", IntCol errors_identified);
      ("CompletionTime", FloatCol completion_time);
      ("Performance", FloatCol performance);
      ("EEGAlpha", FloatCol eeg_alpha);
      ("EEGBeta", FloatCol (s_eeg_beta g));
      ("ECG_HR", FloatCol (s_ecg_hr g));
      ("EDA_SCR", FloatCol (s_eda_scr g));
      ("POGFixations", IntCol (s_pog_fixations g));
      ("POGFixationDuration", FloatCol (s_pog_fixation_duration g));
      ("POGPupilDiameter", FloatCol pog_pupil_diameter);
      ("POGBlinkRate", FloatCol pog_blink_rate) ]).

End Simulation.

(** A small concrete generator, used to run the model: a counter as state,
    every draw a fixed function of the counter. *)
Definition counter_offset (s : Z) : F64.t :=
  match (s mod 3)%Z with
  | 0%Z => F64.of_Z (-1)
  | 1%Z => F64.of_Z 0
  | _ => F64.of_Z 1
  end.

Definition counter_rng : RandomState := {|
  rng_state := Z;
  rng_init := fun seed => seed;
  rng_randint := fun low high s => ((low + s mod (high - low))%Z, (s + 1)%Z);
  rng_choice := fun a s =>
    (default "" (a !! Z.to_nat (s mod Z.of_nat (length a))), (s + 1)%Z);
  rng_normal := fun loc scale s =>
    (F64.add loc (F64.mul scale (counter_offset s)), (s + 1)%Z);
  rng_uniform := fun low high s =>
    (F64.add low (F64.div (F64.mul (F64.sub high low) (F64.of_Z (s mod 8))) (F64.of_Z 8)),
     (s + 1)%Z)
|}.

(** The table the model computes for 4 participants with seed 42 over
    [counter_rng]. *)
Definition sample_table : DataFrame :=
  Eval vm_compute in
    match (simulate_data counter_rng 4 42 0%Z).1 with
    | Ok t => t
    | Raise _ => []
    end.

(* ===================================================================== *)
(** * [preprocess_data]                                                  *)
(* ===================================================================== *)

(** The pandas and scikit-learn calls of [preprocess_data], for frames
    whose column labels are distinct (the keys of the dict a frame is built
    from always are). *)

Definition key_error (labels : list string) : pyexn :=
  PyExn KeyError (String.concat ", " labels ++ " not found in axis").

Definition has_column (df : DataFrame) (name : string) : bool :=
  bool_decide (name ∈ column_names df).

(** [df.drop(columns=labels)]: every label has to exist. *)
Definition df_drop (labels : list string) (df : DataFrame) : pyres DataFrame :=
  match filter (fun l => ¬ has_column df l) labels with
  | [] => Ok (filter (fun kc => kc.1 ∉ labels) df)
  | missing => Raise (key_error missing)
  end.

(** [df[labels]] for a list of labels. *)
Fixpoint df_select (labels : list string) (df : DataFrame) : pyres DataFrame :=
  match labels with
  | [] => Ok []
  | l :: rest =>
      match column l df with
      | Some c => sub ← df_select rest df; Ok ((l, c) :: sub)
      | None => Raise (key_error [l])
      end
  end.

(** Sorted distinct values of a column: the categories [get_dummies] makes
    one indicator column for. *)
Fixpoint insert_level {A} (leb eqb : A -> A -> bool) (x : A) (levels : list A) : list A :=
  match levels with
  | [] => [x]
  | y :: rest =>
      if eqb x y then levels
      else if leb x y then x :: levels
      else y :: insert_level leb eqb x rest
  end.

Definition levels_of {A} (leb eqb : A -> A -> bool) (l : list A) : list A :=
  foldr (insert_level leb eqb) [] l.

Section Preprocessing.

(** pandas 2 makes indicator columns [bool]; pandas 1 made them [uint8]. *)
Variable pandas2 : bool.
(** [str] of a float, for the label of a float category. *)
Variable repr_float : F64.t -> string.
(** [StandardScaler().fit_transform(X)] on an [n_rows]-row matrix given by
    its columns. *)
Variable fit_transform : nat -> list (list F64.t) -> pyres (list (list F64.t)).

Definition indicator (l : list bool) : series :=
  if pandas2 then BoolCol l else IntCol ((fun b : bool => if b then 1 else 0)%Z <$> l).

Definition dummies {A} (leb eqb : A -> A -> bool) (show : A -> string)
    (prefix : string) (l : list A) : DataFrame :=
  (fun v => (prefix ++ "_" ++ show v, indicator (eqb v <$> l)))
    <$> levels_of leb eqb l.

(** The indicator block of one encoded column; NaN is no category. *)
Definition dummies_of (prefix : string) (c : series) : DataFrame :=
  match c with
  | ObjCol l => dummies String.leb String.eqb id prefix l
  | IntCol l => dummies Z.leb Z.eqb pretty prefix l
  | BoolCol l =>
      dummies implb Bool.eqb (fun b : bool => if b then "True" else "False") prefix l
  | FloatCol l =>
      (fun v => (prefix ++ "_" ++ repr_float v, indicator (SFeqb v <$> l)))
        <$> levels_of SFleb SFeqb (filter (fun x => ¬ F64.is_nan x) l)
  end.

(** [pd.get_dummies(df, columns=cols)]: the other columns in their order,
    then one indicator block per encoded column. *)
Definition get_dummies (df : DataFrame) (cols : list string) : pyres DataFrame :=
  to_encode ← df_select cols df;
  Ok (filter (fun kc => kc.1 ∉ cols) df
        ++ mjoin ((fun kc => dummies_of kc.1 kc.2) <$> to_encode))%list.

(** The numeric columns as a [float64] matrix. *)
Definition to_float64 (c : series) : list F64.t :=
  match c with
  | IntCol l => F64.of_Z <$> l
  | FloatCol l => l
  | ObjCol _ | BoolCol _ => []
  end.

(** [df[numeric] = values]: each numeric column takes the next column of
    [values]. *)
Fixpoint assign_numeric (df : DataFrame) (values : list (list F64.t)) : DataFrame :=
  match df with
  | [] => []
  | (k, c) :: rest =>
      if is_number c then
        match values with
        | v :: vs => (k, FloatCol v) :: assign_numeric rest vs
        | [] => (k, c) :: rest
        end
      else (k, c) :: assign_numeric rest values
  end.

Definition same_shape (n_rows n_cols : nat) (values : list (list F64.t)) : bool :=
  Nat.eqb (length values) n_cols
  && forallb (fun v : list F64.t => Nat.eqb (length v) n_rows) values.

(** Lines 306-308. *)
Definition scale_numeric (features : DataFrame) : pyres DataFrame :=
  let numerical_features := filter (fun kc => is_number kc.2) features in
  scaled ← fit_transform (nrows features) ((fun kc => to_float64 kc.2) <$> numerical_features);
  if same_shape (nrows features) (length numerical_features) scaled
  then Ok (assign_numeric features scaled)
  else Raise (PyExn ValueError "Columns must be same length as key").

Definition preprocess_data (data : DataFrame) : pyres DataFrame :=
  features ← df_drop
    ["ParticipantID"; "ErrorsIdentified"; "CompletionTime"; "Performance"] data;
  performance ← df_select ["Performance"] data;
  features ← get_dummies features ["Gender"; "ProgrammingExperience"];
  features ← scale_numeric features;
  (* pd.concat([features, performance], axis=1) over the same index *)
  Ok (features ++ performance)%list.

End Preprocessing.

(* ===================================================================== *)
(** * [perform_regression_analysis]                                      *)
(* ===================================================================== *)

(** patsy and statsmodels, as the notebook calls them:
    [dmatrices(formula, data, return_type='dataframe')] gives the outcome and
    the design frame, [sm.add_constant] completes the design, and
    [sm.OLS(y, X).fit()] gives the results object. *)
Record OLSBackend : Type := {
  ols_results : Type;
  dmatrices : string -> DataFrame -> pyres (DataFrame * DataFrame);
  add_constant : DataFrame -> pyres DataFrame;
  OLS_fit : DataFrame -> DataFrame -> pyres ols_results
}.

Definition regression_formula (dependent_variable : string) : string :=
  dependent_variable ++ " ~ LLMUsage + HerbalBlend + InitialSelfEfficacy + InitialAnxiety".

Definition perform_regression_analysis (B : OLSBackend) (data : DataFrame)
    (dependent_variable : string) : pyres (ols_results B) :=
  let formula := regression_formula dependent_variable in
  yX ← dmatrices B formula data;
  X ← add_constant B yX.2;
  OLS_fit B yX.1 X.

(** The four predictors of the formula. *)
Definition predictors : list string :=
  ["LLMUsage"; "HerbalBlend"; "InitialSelfEfficacy"; "InitialAnxiety"].

Definition float_column (name : string) (df : DataFrame) : pyres (list F64.t) :=
  match column name df with
  | Some (IntCol l) => Ok (F64.of_Z <$> l)
  | Some (FloatCol l) => Ok l
  | Some _ => Raise (PyExn PatsyError ("categorical term " ++ name))
  | None => Raise (PyExn PatsyError ("name " ++ name ++ " is not defined"))
  end.

(** All entries of a non-empty column compare equal. *)
Definition constant_values (l : list F64.t) : bool :=
  match l with
  | [] => false
  | x :: rest => forallb (SFeqb x) rest
  end.

(** Some predictor column of the table is constant: with the intercept in
    the design, the design matrix is then rank-deficient. *)
Definition constant_predictor (data : DataFrame) : Prop :=
  exists name l, name ∈ predictors /\ float_column name data = Ok l
                 /\ constant_values l = true.

(** A reference backend for running the model: patsy for formulas
    [y ~ a + b + ...] over numeric columns, [add_constant] with its default
    [has_constant='skip'], and a least-squares fit by pseudo-inverse, which
    accepts every design; its results object is kept as the pair of frames
    it was fitted on. *)
Definition reference_dmatrices (formula : string) (data : DataFrame)
  : pyres (DataFrame * DataFrame) :=
  match String.words formula with
  | dep :: "~" :: terms =>
      y ← float_column dep data;
      X ← mapM (M := pyres)
            (fun name => l ← float_column name data; Ok (name, FloatCol l))
            (filter (fun w => w ≠ "+") terms);
      Ok ([(dep, FloatCol y)],
          ("Intercept", FloatCol (replicate (length y) (F64.of_Z 1))) :: X)
  | _ => Raise (PyExn PatsyError "invalid formula")
  end.

Definition reference_add_constant (X : DataFrame) : pyres DataFrame :=
  if existsb (fun kc => constant_values (match kc.2 with FloatCol l => l | _ => [] end)) X
  then Ok X
  else Ok (("const", FloatCol (replicate (nrows X) (F64.of_Z 1))) :: X).

Definition reference_backend : OLSBackend := {|
  ols_results := DataFrame * DataFrame;
  dmatrices := reference_dmatrices;
  add_constant := reference_add_constant;
  OLS_fit := fun y X => Ok (y, X)
|}.

(* ===================================================================== *)
(** * The console                                                        *)
(* ===================================================================== *)

(** Standard output: the lines printed so far. *)
Definition Console (A : Type) : Type := StateErr (list string) A.

Definition print (line : string) : Console unit :=
  fun out => (Ok tt, (out ++ [line])%list).

Definition catch_Exception : pyexn -> bool := is_Exception.
Definition catch_IndexError (e : pyexn) : bool :=
  match exn_cls e with IndexError => true | _ => false end.
(** A bare [except:]. *)
Definition catch_all (e : pyexn) : bool := true.

(* ===================================================================== *)
(** * [run_IPMA_in_r]                                                    *)
(* ===================================================================== *)

(** rpy2: R objects, the two conversions, indexing and [list(...)]. *)
Record RBridge : Type := {
  robj : Type;
  py2rpy : DataFrame -> pyres robj;
  rpy2py : robj -> pyres DataFrame;
  r_getitem : robj -> nat -> pyres robj;
  r_list : robj -> pyres (list robj)
}.

(** The imported package [IPMA_r], seen as its routine [IPMA_r.IPMA]. *)
Definition ipma_package (B : RBridge) : Type := robj B -> string -> pyres (robj B).

(** The values stored in the result dict. *)
Inductive pyval (B : RBridge) : Type :=
  | VNone
  | VEffects (sizes : gmap string (option (robj B)))
  | VFrame (df : DataFrame)
  | VList (l : list (robj B))
  | VRobj (r : robj B).
Arguments VNone {B}.
Arguments VEffects {B} sizes.
Arguments VFrame {B} df.
Arguments VList {B} l.
Arguments VRobj {B} r.

Section IPMA.

Context (B : RBridge).

#[local] Open Scope se_scope.

(** Lines 37-48: [IPMA_r] after the module has been loaded, from the
    outcomes of the first import, of the installation and of the second
    import. *)
Definition setup_IPMA_r (first_import : pyres (ipma_package B))
    (install : pyres unit) (second_import : pyres (ipma_package B))
  : Console (option (ipma_package B)) :=
  try_except catch_Exception
    (pkg <~ lift first_import ;; se_ret (Some pkg))
    (fun e =>
       print ("Error importing IPMA R package: " ++ exn_msg e
              ++ ". Attempting to install...") ;;;
       lift install ;;;
       try_except catch_Exception
         (pkg <~ lift second_import ;;
          print "IPMA R package successfully installed and imported." ;;;
          se_ret (Some pkg))
         (fun e =>
            print ("Failed to install and import IPMA R package: " ++ exn_msg e
                   ++ ". IPMA functionality will be limited.") ;;;
            se_ret None)).

(** Lines 80-87. *)
Fixpoint effect_sizes_loop (IPMA_results_r : robj B) (cols : list (nat * string))
    (effect_sizes : gmap string (option (robj B)))
  : Console (gmap string (option (robj B))) :=
  match cols with
  | [] => se_ret effect_sizes
  | (i, x_col) :: rest =>
      effect_sizes <~
        try_except catch_IndexError
          (r0 <~ lift (r_getitem B IPMA_results_r 0) ;;
           v <~ lift (r_getitem B r0 i) ;;
           se_ret (<[x_col := Some v]> effect_sizes))
          (fun _ =>
             print ("Warning: Could not retrieve effect size for " ++ x_col
                    ++ " using direct indexing.") ;;;
             se_ret (<[x_col := None]> effect_sizes)) ;;
      effect_sizes_loop IPMA_results_r rest effect_sizes
  end.

Definition opt_val {A} (f : A -> pyval B) (o : option A) : pyval B :=
  match o with Some a => f a | None => VNone end.

Definition run_IPMA_in_r (IPMA_r : option (ipma_package B)) (data : DataFrame)
    (x_columns : list string) (y_column : string)
  : Console (gmap string (pyval B)) :=
  match IPMA_r with
  | None =>
      print "IPMA R package is not available. Skipping IPMA analysis." ;;;
      se_ret ∅
  | Some IPMA =>
      r_data <~ lift (py2rpy B data) ;;
      let formula_str := y_column ++ " ~ " ++ String.concat "+" x_columns in
      ran <~ try_except catch_Exception
               (r <~ lift (IPMA r_data formula_str) ;; se_ret (Some r))
               (fun e => print ("Error running IPMA in R: " ++ exn_msg e) ;;;
                         se_ret None) ;;
      match ran with
      | None => se_ret ∅
      | Some IPMA_results_r =>
          effect_sizes <~
            effect_sizes_loop IPMA_results_r (imap (fun i x => (i, x)) x_columns) ∅ ;;
          bottleneck_table_pd <~
            try_except catch_all
              (bottleneck_table_r <~ lift (r_getitem B IPMA_results_r 6) ;;
               df <~ lift (rpy2py B bottleneck_table_r) ;;
               se_ret (Some df))
              (fun _ =>
                 print "Warning: Could not retrieve bottleneck table using direct indexing." ;;;
                 se_ret None) ;;
          ceiling <~
            try_except catch_all
              (c <~ lift (r_getitem B IPMA_results_r 4) ;;
               cx <~ lift (r_getitem B c 0) ;;
               x_ceiling <~ lift (r_list B cx) ;;
               c <~ lift (r_getitem B IPMA_results_r 4) ;;
               cy <~ lift (r_getitem B c 1) ;;
               y_ceiling <~ lift (r_list B cy) ;;
               se_ret (Some x_ceiling, Some y_ceiling))
              (fun _ =>
                 print "Warning: Could not retrieve ceiling coordinates using direct indexing." ;;;
                 se_ret (None, None)) ;;
          se_ret (<["effect_sizes" := VEffects effect_sizes]>
                  (<["bottleneck_table" := opt_val VFrame bottleneck_table_pd]>
                  (<["x_ceiling" := opt_val VList ceiling.1]>
                  (<["y_ceiling" := opt_val VList ceiling.2]>
                  (<["raw_r_results" := VRobj IPMA_results_r]> ∅)))))
      end
  end.

End IPMA.

(* ===================================================================== *)
(** * [perform_sem_ipma]                                                 *)
(* ===================================================================== *)

(** semopy: building a model from its description, fitting it (the model
    object is updated in place, here returned), and the IPMA inspection. *)
Record SemEngine : Type := {
  sem_model : Type;
  sem_table : Type;
  sem_Model : string -> pyres sem_model;
  sem_fit : sem_model -> DataFrame -> pyres sem_model;
  sem_inspect_ipma : sem_model -> pyres sem_table
}.

Section SEM.

Context (E : SemEngine).

#[local] Open Scope se_scope.

Definition perform_sem_ipma (data : DataFrame) (model_specification : string)
  : Console (option (sem_model E) * option (sem_table E)) :=
  model <~ lift (sem_Model E model_specification) ;;
  fitted <~ try_except catch_Exception
              (m <~ lift (sem_fit E model data) ;; se_ret (Some m))
              (fun e => print ("SEM Fit Error: " ++ exn_msg e) ;;; se_ret None) ;;
  match fitted with
  | None => se_ret (None, None)
  | Some model =>
      try_except catch_Exception
        (ipma_results <~ lift (sem_inspect_ipma E model) ;;
         se_ret (Some model, Some ipma_results))
        (fun e => print ("IPMA Error: " ++ exn_msg e) ;;; se_ret (Some model, None))
  end.

End SEM.

(* ===================================================================== *)
(** * What the specification says about the generator                    *)
(* ===================================================================== *)

(** The additive treatment adjustments of one participant, written from the
    specification: the LLM adjustment first, then the herbal one. *)
Definition adjusted_self_efficacy (llm : Z) (baseline : F64.t) : F64.t :=
  if (llm =? 1)%Z then F64.add baseline F64.c0_5 else baseline.

Definition adjusted_anxiety (llm herbal : Z) (baseline : F64.t) : F64.t :=
  let after_llm := if (llm =? 1)%Z then F64.sub baseline F64.c0_4 else baseline in
  if (herbal =? 1)%Z then F64.sub after_llm F64.c0_3 else after_llm.

Definition adjusted_errors (llm herbal : Z) (errors : Z) : Z :=
  let after_llm := if (llm =? 1)%Z then (errors + 3)%Z else errors in
  if (herbal =? 1)%Z then (after_llm + 1)%Z else after_llm.

Definition adjusted_time (llm : Z) (time : F64.t) : F64.t :=
  if (llm =? 1)%Z then F64.sub time (F64.of_Z 15) else time.

Definition adjusted_eeg_beta (llm : Z) (x : F64.t) : F64.t :=
  if (llm =? 1)%Z then F64.add x (F64.of_Z 2) else x.

Definition adjusted_fixations (llm : Z) (x : Z) : Z :=
  if (llm =? 1)%Z then (x - 5)%Z else x.

Definition adjusted_fixation_duration (llm : Z) (x : F64.t) : F64.t :=
  if (llm =? 1)%Z then F64.add x (F64.of_Z 50) else x.

Definition adjusted_heart_rate (herbal : Z) (x : F64.t) : F64.t :=
  if (herbal =? 1)%Z then F64.sub x (F64.of_Z 5) else x.

Definition adjusted_scr (herbal : Z) (x : F64.t) : F64.t :=
  if (herbal =? 1)%Z then F64.sub x F64.c0_1 else x.

(** An array whose first [k] positions have been adjusted by [F]. *)
Definition upto {A} (k : nat) (F : nat -> A -> A) (l : list A) : list A :=
  imap (fun j x => if (j <? k)%nat then F j x else x) l.

Definition measures_upto (llm herbal : list Z) (k : nat) (m : measures) : measures :=
  Measures
    (upto k (fun j => adjusted_self_efficacy (llm !!! j)) (m_final_self_efficacy m))
    (upto k (fun j => adjusted_anxiety (llm !!! j) (herbal !!! j)) (m_final_anxiety m))
    (upto k (fun j => adjusted_errors (llm !!! j) (herbal !!! j)) (m_errors_identified m))
    (upto k (fun j => adjusted_time (llm !!! j)) (m_completion_time m)).

Definition signals_upto (llm herbal : list Z) (k : nat) (g : signals) : signals :=
  Signals
    (upto k (fun j => adjusted_eeg_beta (llm !!! j)) (s_eeg_beta g))
    (upto k (fun j => adjusted_fixations (llm !!! j)) (s_pog_fixations g))
    (upto k (fun j => adjusted_fixation_duration (llm !!! j)) (s_pog_fixation_duration g))
    (upto k (fun j => adjusted_heart_rate (herbal !!! j)) (s_ecg_hr g))
    (upto k (fun j => adjusted_scr (herbal !!! j)) (s_eda_scr g)).

(** The arrays [simulate_data] draws, before any adjustment. *)
Record raw_draws : Type := RawDraws {
  d_age : list Z;
  d_gender : list string;
  d_programming_experience : list string;
  d_initial_self_efficacy : list F64.t;
  d_initial_anxiety : list F64.t;
  d_errors_identified : list Z;
  d_completion_time : list F64.t;
  d_eeg_alpha : list F64.t;
  d_eeg_beta : list F64.t;
  d_ecg_hr : list F64.t;
  d_eda_scr : list F64.t;
  d_pog_fixations : list Z;
  d_pog_fixation_duration : list F64.t;
  d_pog_pupil_diameter : list F64.t;
  d_pog_blink_rate : list F64.t
}.

(** Every drawn array has [n] elements. *)
Definition well_sized (n : nat) (d : raw_draws) : Prop :=
  length (d_age d) = n /\ length (d_gender d) = n
  /\ length (d_programming_experience d) = n
  /\ length (d_initial_self_efficacy d) = n /\ length (d_initial_anxiety d) = n
  /\ length (d_errors_identified d) = n /\ length (d_completion_time d) = n
  /\ length (d_eeg_alpha d) = n /\ length (d_eeg_beta d) = n
  /\ length (d_ecg_hr d) = n /\ length (d_eda_scr d) = n
  /\ length (d_pog_fixations d) = n /\ length (d_pog_fixation_duration d) = n
  /\ length (d_pog_pupil_diameter d) = n /\ length (d_pog_blink_rate d) = n.

(** The table of the specification: each column as a row-by-row function of
    the drawn arrays and of the two treatment flags, clipping last. *)
Definition table_of (n : Z) (d : raw_draws) : DataFrame :=
  let llm := list_times [1; 1; 0; 0]%Z (n / 4) in
  let herbal := list_times [1; 0; 1; 0]%Z (n / 4) in
  let errors :=
    Z.max 0 <$> imap (fun j => adjusted_errors (llm !!! j) (herbal !!! j))
                     (d_errors_identified d) in
  let time :=
    F64.maximum (F64.of_Z 60)
      <$> imap (fun j => adjusted_time (llm !!! j)) (d_completion_time d) in
  [ ("ParticipantID", IntCol (participant_ids n));
    ("Age", IntCol (d_age d));
    ("Gender", ObjCol (d_gender d));
    ("ProgrammingExperience", ObjCol (d_programming_experience d));
    ("LLMUsage", np_array llm);
    ("HerbalBlend", np_array herbal);
    ("InitialSelfEfficacy", FloatCol (d_initial_self_efficacy d));
    ("FinalSelfEfficacy", FloatCol
       ((fun x => F64.clip x (F64.of_Z 1) (F64.of_Z 5))
          <$> imap (fun j => adjusted_self_efficacy (llm !!! j))
                   (d_initial_self_efficacy d)));
    ("InitialAnxiety", FloatCol (d_initial_anxiety d));
    ("FinalAnxiety", FloatCol
       ((fun x => F64.clip x (F64.of_Z 1) (F64.of_Z 4))
          <$> imap (fun j => adjusted_anxiety (llm !!! j) (herbal !!! j))
                   (d_initial_anxiety d)));
    ("ErrorsIdentified", IntCol errors);
    ("CompletionTime", FloatCol time);
    ("Performance", FloatCol (zip_with performance_of errors time));
    ("EEGAlpha", FloatCol (d_eeg_alpha d));
    ("EEGBeta", FloatCol (imap (fun j => adjusted_eeg_beta (llm !!! j)) (d_eeg_beta d)));
    ("ECG_HR", FloatCol (imap (fun j => adjusted_heart_rate (herbal !!! j)) (d_ecg_hr d)));
    ("EDA_SCR", FloatCol (imap (fun j => adjusted_scr (herbal !!! j)) (d_eda_scr d)));
    ("POGFixations", IntCol
       (imap (fun j => adjusted_fixations (llm !!! j)) (d_pog_fixations d)));
    ("POGFixationDuration", FloatCol
       (imap (fun j => adjusted_fixation_duration (llm !!! j))
             (d_pog_fixation_duration d)));
    ("POGPupilDiameter", FloatCol (d_pog_pupil_diameter d));
    ("POGBlinkRate", FloatCol (d_pog_blink_rate d)) ].

(** [seed] is accepted by [np.random.seed]. *)
Definition valid_seed (seed : Z) : Prop := (0 <= seed < 2 ^ 32)%Z.

#[global] Instance valid_seed_dec (seed : Z) : Decision (valid_seed seed).
Proof. unfold valid_seed. apply _. Defined.

(** [np.random.normal] with finite parameters never gives NaN. *)
Definition normal_gives_numbers (R : RandomState) : Prop :=
  forall loc scale s,
    F64.is_finite loc = true -> F64.is_finite scale = true ->
    F64.is_nan (rng_normal R loc scale s).1 = false.

(** The elements of the two baseline arrays are values of [normal]. *)
Definition baselines_drawn (R : RandomState) (d : raw_draws) : Prop :=
  Forall (fun x => exists s, x = (rng_normal R F64.c3_5 F64.c0_5 s).1)
         (d_initial_self_efficacy d)
  /\ Forall (fun x => exists s, x = (rng_normal R F64.c2_5 F64.c0_6 s).1)
            (d_initial_anxiety d).

(** Both final measures of every row are inside their scale. *)
Definition finals_in_bounds (t : DataFrame) : Prop :=
  exists fse fa,
    column "FinalSelfEfficacy" t = Some (FloatCol fse)
    /\ column "FinalAnxiety" t = Some (FloatCol fa)
    /\ Forall (F64.within (F64.of_Z 1) (F64.of_Z 5)) fse
    /\ Forall (F64.within (F64.of_Z 1) (F64.of_Z 4)) fa.

(** Row by row, each final measure is the clipped adjusted baseline. *)
Definition finals_clip_adjusted (n : nat) (t : DataFrame) : Prop :=
  exists llm herbal ise fse ia fa,
    column "LLMUsage" t = Some (np_array llm)
    /\ column "HerbalBlend" t = Some (np_array herbal)
    /\ column "InitialSelfEfficacy" t = Some (FloatCol ise)
    /\ column "FinalSelfEfficacy" t = Some (FloatCol fse)
    /\ column "InitialAnxiety" t = Some (FloatCol ia)
    /\ column "FinalAnxiety" t = Some (FloatCol fa)
    /\ length llm = n /\ length herbal = n /\ length ise = n /\ length ia = n
    /\ forall i, i < n ->
         exists u h b a,
           llm !! i = Some u /\ herbal !! i = Some h
           /\ ise !! i = Some b /\ ia !! i = Some a
           /\ fse !! i
              = Some (F64.clip (adjusted_self_efficacy u b) (F64.of_Z 1) (F64.of_Z 5))
           /\ fa !! i
              = Some (F64.clip (adjusted_anxiety u h a) (F64.of_Z 1) (F64.of_Z 4)).

(** A flag column with as many ones as zeros. *)
Definition balanced (ones zeros : nat) (name : string) (t : DataFrame) : Prop :=
  exists flags,
    column name t = Some (IntCol flags)
    /\ count_occ Z.eq_dec flags 1%Z = ones
    /\ count_occ Z.eq_dec flags 0%Z = zeros
    /\ length flags = ones + zeros.

(** The processed table has none of the identity and raw-outcome columns,
    and its [Performance] column is the input's. *)
Definition target_passed_through (data p : DataFrame) : Prop :=
  column "ParticipantID" p = None
  /\ column "ErrorsIdentified" p = None
  /\ column "CompletionTime" p = None
  /\ exists perf, column "Performance" data = Some perf
                  /\ column "Performance" p = Some perf.

(** A scaler to run the model with: it refuses an empty sample and otherwise
    shifts every entry by one half. *)
Definition toy_scaler (n : nat) (cols : list (list F64.t)) : pyres (list (list F64.t)) :=
  if Nat.eqb n 0 then Raise (PyExn ValueError "Found array with 0 sample(s)")
  else Ok (map (map (fun x => F64.sub x F64.c0_5)) cols).

Definition sample_processed : DataFrame :=
  Eval vm_compute in
    match preprocess_data true (fun _ => "") toy_scaler sample_table with
    | Ok p => p
    | Raise _ => []
    end.

(** A four-row table whose [InitialAnxiety] is the same for every row. *)
Definition constant_anxiety_table : DataFrame :=
  [ ("LLMUsage", IntCol [1; 1; 0; 0]%Z);
    ("HerbalBlend", IntCol [1; 0; 1; 0]%Z);
    ("InitialSelfEfficacy", FloatCol [F64.c3_5; F64.c2_5; F64.c0_5; F64.c0_6]);
    ("InitialAnxiety", FloatCol [F64.c2_5; F64.c2_5; F64.c2_5; F64.c2_5]);
    ("Performance", FloatCol [F64.c0_1; F64.c0_2; F64.c0_3; F64.c0_4]) ].

(** The statement of the specification about rank deficiency, on its own
    example of a constant predictor: the fit is refused. *)
Definition constant_predictor_refused : Prop :=
  forall (B : OLSBackend) (data : DataFrame) (dependent_variable : string),
    constant_predictor data ->
    exists e, perform_regression_analysis B data dependent_variable = Raise e.

(** The external IPMA routine fails: the package could not be imported, or
    the routine was called on the converted table and raised an
    [Exception]. *)
Definition ipma_routine_fails (B : RBridge) (IPMA_r : option (ipma_package B))
    (data : DataFrame) (x_columns : list string) (y_column : string)
    (cause : string) : Prop :=
  (IPMA_r = None
   /\ cause = "IPMA R package is not available. Skipping IPMA analysis.")
  \/ exists IPMA r_data e,
       IPMA_r = Some IPMA /\ py2rpy B data = Ok r_data
       /\ IPMA r_data (y_column ++ " ~ " ++ String.concat "+" x_columns) = Raise e
       /\ is_Exception e = true
       /\ cause = "Error running IPMA in R: " ++ exn_msg e.

(** An rpy2 bridge without R behind it. *)
Definition no_r_bridge : RBridge := {|
  robj := unit;
  py2rpy := fun _ => Ok tt;
  rpy2py := fun _ => Raise (PyExn RRuntimeError "no R session");
  r_getitem := fun _ _ => Raise (PyExn IndexError "index out of range");
  r_list := fun _ => Ok []
|}.

(** An IPMA routine that always stops with an R error. *)
Definition failing_ipma : ipma_package no_r_bridge :=
  fun _ _ => Raise (PyExn RRuntimeError "could not find function").

(** A stand-in for semopy that only checks that the description has a
    relation operator. *)
Definition toy_semopy : SemEngine := {|
  sem_model := string;
  sem_table := unit;
  sem_Model := fun description =>
    match String.index 0 "~" description with
    | Some _ => Ok description
    | None => Raise (PyExn SyntaxError ("Invalid syntax for line: " ++ description))
    end;
  sem_fit := fun model _ => Ok model;
  sem_inspect_ipma := fun _ => Ok tt
|}.

(** Every column of the frame has [n] rows. *)
Definition all_rows (n : nat) (df : DataFrame) : Prop :=
  Forall (fun kc => series_len kc.2 = n) df.

(** What the notebook needs from [StandardScaler.fit_transform]: on a matrix
    with at least one row and one column it returns a matrix of the same
    shape. *)
Definition scaler_keeps_shape
    (fit_transform : nat -> list (list F64.t) -> pyres (list (list F64.t))) : Prop :=
  forall n cols,
    0 < n -> cols <> [] -> Forall (fun c : list F64.t => length c = n) cols ->
    exists out, fit_transform n cols = Ok out
                /\ same_shape n (length cols) out = true.

(* ===================================================================== *)
(** * Counts that fit                                                    *)
(* ===================================================================== *)

(** The lists of this model have no size limit; NumPy's arrays have one, and
    beyond it the first draw (line 202) raises.  Statements that say exactly
    which calls return are therefore made for counts up to a million, for
    which the 21 arrays take a few megabytes each. *)
Definition modest_count (n : Z) : Prop := (n <= 1000000)%Z.

(* ===================================================================== *)
(** * Further properties of the generated table                          *)
(* ===================================================================== *)

(** What NumPy documents of its draws: [randint(low, high)] lies in
    [[low, high)], [choice(a)] is an element of [a], and [uniform] with
    finite bounds is a number. *)
Definition randint_in_range (R : RandomState) : Prop :=
  forall low high s, (low < high)%Z ->
    (low <= (rng_randint R low high s).1 < high)%Z.

Definition choice_is_element (R : RandomState) : Prop :=
  forall a s, a <> [] -> (rng_choice R a s).1 ∈ a.

Definition uniform_gives_numbers (R : RandomState) (low high : F64.t) : Prop :=
  forall s, F64.is_nan (rng_uniform R low high s).1 = false.

(** Where each demographic and performance array comes from. *)
Definition demographics_drawn (R : RandomState) (d : raw_draws) : Prop :=
  Forall (fun x => exists s, x = (rng_randint R 18 30 s).1) (d_age d)
  /\ Forall (fun x => exists s, x = (rng_choice R ["Male"; "Female"; "Other"] s).1)
            (d_gender d)
  /\ Forall (fun x => exists s,
               x = (rng_choice R ["Beginner"; "Intermediate"; "Advanced"] s).1)
            (d_programming_experience d)
  /\ Forall (fun x => exists s, x = (rng_randint R 5 20 s).1) (d_errors_identified d)
  /\ Forall (fun x => exists s,
               x = (rng_uniform R (F64.of_Z 180) (F64.of_Z 400) s).1)
            (d_completion_time d).

(** [ParticipantID] counts the rows from 1. *)
Definition ids_count_from_one (n : nat) (t : DataFrame) : Prop :=
  exists ids,
    column "ParticipantID" t = Some (IntCol ids)
    /\ length ids = n /\ NoDup ids
    /\ forall i, i < n -> ids !! i = Some (Z.of_nat i + 1)%Z.

(** How many rows carry the flags [(llm, herbal)]. *)
Definition arm_size (llm herbal : Z) (flags : list (Z * Z)) : nat :=
  length (filter (fun p => p = (llm, herbal)) flags).

(** The 2 x 2 design: each of the four arms has the same number of rows. *)
Definition arms_balanced (n : nat) (t : DataFrame) : Prop :=
  exists llm herbal,
    column "LLMUsage" t = Some (np_array llm)
    /\ column "HerbalBlend" t = Some (np_array herbal)
    /\ length llm = n /\ length herbal = n
    /\ arm_size 1 1 (zip llm herbal) = n / 4
    /\ arm_size 1 0 (zip llm herbal) = n / 4
    /\ arm_size 0 1 (zip llm herbal) = n / 4
    /\ arm_size 0 0 (zip llm herbal) = n / 4.

(** The demographic and outcome ranges of a generated table. *)
Definition ranges_hold (t : DataFrame) : Prop :=
  exists age gender experience errors,
    column "Age" t = Some (IntCol age)
    /\ column "Gender" t = Some (ObjCol gender)
    /\ column "ProgrammingExperience" t = Some (ObjCol experience)
    /\ column "ErrorsIdentified" t = Some (IntCol errors)
    /\ Forall (fun a => 18 <= a <= 29)%Z age
    /\ Forall (fun x => x ∈ ["Male"; "Female"; "Other"]) gender
    /\ Forall (fun x => x ∈ ["Beginner"; "Intermediate"; "Advanced"]) experience
    /\ Forall (fun e => 5 <= e <= 23)%Z errors.

(** Completion times are at least a minute. *)
Definition times_floored (t : DataFrame) : Prop :=
  exists times,
    column "CompletionTime" t = Some (FloatCol times)
    /\ Forall (fun x => F64.leb (F64.of_Z 60) x = true) times.

(** [Performance] is computed, row by row, from the two outcome columns as
    the table stores them. *)
Definition performance_from_stored (n : nat) (t : DataFrame) : Prop :=
  exists errors times perf,
    column "ErrorsIdentified" t = Some (IntCol errors)
    /\ column "CompletionTime" t = Some (FloatCol times)
    /\ column "Performance" t = Some (FloatCol perf)
    /\ length errors = n /\ length times = n /\ length perf = n
    /\ forall i e c, errors !! i = Some e -> times !! i = Some c ->
         perf !! i = Some (performance_of e c).

(** The frame has the notebook's 21 columns, each with [n] rows. *)
Definition frame_shape (n : nat) (t : DataFrame) : Prop :=
  column_names t
  = ["ParticipantID"; "Age"; "Gender"; "ProgrammingExperience"; "LLMUsage";
     "HerbalBlend"; "InitialSelfEfficacy"; "FinalSelfEfficacy"; "InitialAnxiety";
     "FinalAnxiety"; "ErrorsIdentified"; "CompletionTime"; "Performance";
     "EEGAlpha"; "EEGBeta"; "ECG_HR"; "EDA_SCR"; "POGFixations";
     "POGFixationDuration"; "POGPupilDiameter"; "POGBlinkRate"]
  /\ all_rows n t.

(* ===================================================================== *)
(** * Further properties of the two adapters                             *)
(* ===================================================================== *)

(** The keys of the dict of lines 106-112. *)
Definition ipma_keys : gset string :=
  list_to_set ["effect_sizes"; "bottleneck_table"; "x_ceiling"; "y_ceiling";
               "raw_r_results"].

(** Lines 91-92: the bottleneck table read from the R result. *)
Definition read_bottleneck (B : RBridge) (results : robj B) : pyres DataFrame :=
  bottleneck_table_r ← r_getitem B results 6;
  rpy2py B bottleneck_table_r.

(** Lines 99-100: the two ceiling lists read from the R result. *)
Definition read_ceiling (B : RBridge) (results : robj B)
  : pyres (list (robj B) * list (robj B)) :=
  c ← r_getitem B results 4;
  cx ← r_getitem B c 0;
  x_ceiling ← r_list B cx;
  c ← r_getitem B results 4;
  cy ← r_getitem B c 1;
  y_ceiling ← r_list B cy;
  Ok (x_ceiling, y_ceiling).

(** What line 84 or line 86 stores for the predictor at position [i]: the
    value [IPMA_results_r[0][i]], or [None] after an [IndexError]. *)
Definition effect_size_at (B : RBridge) (results : robj B) (i : nat)
    (v : option (robj B)) : Prop :=
  match v with
  | Some r => exists r0, r_getitem B results 0 = Ok r0 /\ r_getitem B r0 i = Ok r
  | None =>
      exists e, exn_cls e = IndexError
        /\ (r_getitem B results 0 = Raise e
            \/ exists r0, r_getitem B results 0 = Ok r0 /\ r_getitem B r0 i = Raise e)
  end.

(** A result of a routine that ran and returned [results]: the five keys;
    under [effect_sizes] exactly the predictors, each with what was read at
    one of its positions in [x_columns]; the bottleneck table read from the
    R result, or [None] when reading it raised; the two ceilings as lists,
    or both [None] when reading either raised; and [results] itself. *)
Definition full_ipma_result (B : RBridge) (x_columns : list string)
    (results : robj B) (res : gmap string (pyval B)) : Prop :=
  dom res = ipma_keys
  /\ (exists sizes,
        res !! "effect_sizes" = Some (VEffects sizes)
        /\ dom sizes = list_to_set x_columns
        /\ forall x v, sizes !! x = Some v ->
             exists i, x_columns !! i = Some x /\ effect_size_at B results i v)
  /\ res !! "bottleneck_table"
     = Some (match read_bottleneck B results with
             | Ok df => VFrame df
             | Raise _ => VNone
             end)
  /\ res !! "x_ceiling"
     = Some (match read_ceiling B results with
             | Ok xy => VList xy.1
             | Raise _ => VNone
             end)
  /\ res !! "y_ceiling"
     = Some (match read_ceiling B results with
             | Ok xy => VList xy.2
             | Raise _ => VNone
             end)
  /\ res !! "raw_r_results" = Some (VRobj results).

(** What [run_IPMA_in_r] returns: the empty dict, or the full result of the
    object that the IPMA routine returned for the converted table and the
    formula. *)
Definition ipma_result_of (B : RBridge) (IPMA_r : option (ipma_package B))
    (data : DataFrame) (x_columns : list string) (y_column : string)
    (res : gmap string (pyval B)) : Prop :=
  res = ∅
  \/ exists IPMA r_data results,
       IPMA_r = Some IPMA /\ py2rpy B data = Ok r_data
       /\ IPMA r_data (y_column ++ " ~ " ++ String.concat "+" x_columns) = Ok results
       /\ full_ipma_result B x_columns results res.

(** The line printed when an effect size cannot be read (line 87). *)
Definition effect_size_warning (x_col : string) : string :=
  "Warning: Could not retrieve effect size for " ++ x_col
  ++ " using direct indexing.".

(** An IPMA routine that returns an R object without content. *)
Definition hollow_ipma : ipma_package no_r_bridge := fun _ _ => Ok tt.

(** A bridge whose R objects cannot be indexed at all, as R's [NULL]. *)
Definition null_r_bridge : RBridge := {|
  robj := unit;
  py2rpy := fun _ => Ok tt;
  rpy2py := fun _ => Raise (PyExn TypeError "not a data frame");
  r_getitem := fun _ _ => Raise (PyExn TypeError "object is not subscriptable");
  r_list := fun _ => Ok []
|}.

(** The three ways [perform_sem_ipma] returns. *)
Definition sem_outcome (E : SemEngine) (data : DataFrame) (model_specification : string)
    (out : list string) (res : option (sem_model E) * option (sem_table E))
    (out' : list string) : Prop :=
  exists model, sem_Model E model_specification = Ok model /\
    ((exists fitted table,
        sem_fit E model data = Ok fitted /\ sem_inspect_ipma E fitted = Ok table
        /\ res = (Some fitted, Some table) /\ out' = out)
     \/ (exists fitted e,
           sem_fit E model data = Ok fitted /\ sem_inspect_ipma E fitted = Raise e
           /\ is_Exception e = true
           /\ res = (Some fitted, None)
           /\ out' = (out ++ [("IPMA Error: " ++ exn_msg e)%string])%list)
     \/ (exists e,
           sem_fit E model data = Raise e /\ is_Exception e = true
           /\ res = (None, None)
           /\ out' = (out ++ [("SEM Fit Error: " ++ exn_msg e)%string])%list)).

(** A stand-in for semopy whose IPMA inspection is not implemented. *)
Definition semopy_without_ipma : SemEngine := {|
  sem_model := string;
  sem_table := unit;
  sem_Model := fun description => Ok description;
  sem_fit := fun model _ => Ok model;
  sem_inspect_ipma := fun _ => Raise (PyExn ValueError "unknown inspection: ipma")
|}.

(** What [run_IPMA_in_r] makes of [hollow_ipma] for the one predictor
    [LLMUsage]. *)
Definition hollow_result : gmap string (pyval no_r_bridge) :=
  <["effect_sizes" := VEffects (<["LLMUsage" := None]> ∅)]>
  (<["bottleneck_table" := VNone]>
  (<["x_ceiling" := VNone]>
  (<["y_ceiling" := VNone]>
  (<["raw_r_results" := VRobj (tt : robj no_r_bridge)]> ∅)))).

(* ===================================================================== *)
(** * [perform_statistical_analysis]                                     *)
(* ===================================================================== *)

(** [df[name]] for one label. *)
Definition df_getitem (name : string) (df : DataFrame) : pyres series :=
  match column name df with
  | Some c => Ok c
  | None => Raise (PyExn KeyError name)
  end.

(** [series == k] for a Python int [k], element by element: numbers and
    booleans compare by value, a string is never equal to an int. *)
Definition series_eq_int (c : series) (k : Z) : list bool :=
  match c with
  | IntCol l => (fun z => Z.eqb z k) <$> l
  | FloatCol l => (fun x => SFeqb x (F64.of_Z k)) <$> l
  | ObjCol l => (fun _ => false) <$> l
  | BoolCol l => (fun b : bool => Z.eqb (if b then 1 else 0) k) <$> l
  end.

(** The entries of [l] at the rows where the mask is [True]. *)
Definition mask_list {A} (mask : list bool) (l : list A) : list A :=
  (filter (fun bx : bool * A => bx.1 = true) (zip mask l)).*2.

Definition series_mask (mask : list bool) (c : series) : series :=
  match c with
  | IntCol l => IntCol (mask_list mask l)
  | FloatCol l => FloatCol (mask_list mask l)
  | ObjCol l => ObjCol (mask_list mask l)
  | BoolCol l => BoolCol (mask_list mask l)
  end.

(** [df[mask]] for a boolean mask over the rows. *)
Definition df_mask (mask : list bool) (df : DataFrame) : DataFrame :=
  (fun kc : string * series => (kc.1, series_mask mask kc.2)) <$> df.

(** [data[data['LLMUsage'] == flag][variable]] (lines 329-330). *)
Definition group (data : DataFrame) (flag : Z) (variable : string) : pyres series :=
  usage ← df_getitem "LLMUsage" data;
  df_getitem variable (df_mask (series_eq_int usage flag) data).

(** pandas' [describe] and [corr] and SciPy's [ttest_ind], which gives the
    statistic and the p-value. *)
Record StatsLib : Type := {
  describe_table : Type;
  corr_table : Type;
  describe : DataFrame -> pyres describe_table;
  corr : DataFrame -> pyres corr_table;
  ttest_ind : series -> series -> pyres (F64.t * F64.t)
}.

Definition compared_variables : list string :=
  ["FinalSelfEfficacy"; "FinalAnxiety"; "Performance"].

(** One turn of the loop of lines 328-332. *)
Definition compare_groups (L : StatsLib) (data : DataFrame) (variable : string)
  : pyres (string * (F64.t * F64.t)) :=
  llm_group ← group data 1 variable;
  no_llm_group ← group data 0 variable;
  tp ← ttest_ind L llm_group no_llm_group;
  Ok (variable, tp).

(** The dict [group_comparison_results] is kept as the list of its items, in
    insertion order: the variable, then its t-statistic and p-value. *)
Definition perform_statistical_analysis (L : StatsLib) (data : DataFrame)
  : pyres (describe_table L * corr_table L * list (string * (F64.t * F64.t))) :=
  descriptive_stats ← describe L data;
  selected ← df_select compared_variables data;
  correlation_matrix ← corr L selected;
  group_comparison_results ← mapM (M := pyres) (compare_groups L data)
                                  compared_variables;
  Ok (descriptive_stats, correlation_matrix, group_comparison_results).

(** In a generated table each comparison is between two samples of half
    the participants. *)
Definition groups_halve (n : nat) (t : DataFrame) : Prop :=
  forall variable, variable ∈ compared_variables ->
    exists llm no_llm,
      group t 1 variable = Ok (FloatCol llm)
      /\ group t 0 variable = Ok (FloatCol no_llm)
      /\ length llm = n / 2 /\ length no_llm = n / 2.

(** A stand-in for pandas and SciPy that reports nothing. *)
Definition toy_stats : StatsLib := {|
  describe_table := unit;
  corr_table := unit;
  describe := fun _ => Ok tt;
  corr := fun _ => Ok tt;
  ttest_ind := fun _ _ => Ok (F64.of_Z 0, F64.of_Z 1)
|}.

(** The sample table without its [LLMUsage] column. *)
Definition sample_without_usage : DataFrame :=
  filter (fun kc : string * series => kc.1 ∉ ["LLMUsage"]) sample_table.

(* ===================================================================== *)
(** * [analyze_prompts]                                                  *)
(* ===================================================================== *)

(** Python's [random] module: its global generator and how [random.choice]
    picks from a non-empty sequence.  The algorithm is not modelled. *)
Record PyRandom : Type := {
  py_state : Type;
  py_choice : list string -> py_state -> string * py_state
}.

(** [data['LLMUsage'][i] == k] over the default index, whose labels are the
    positions. *)
Definition cell_is (c : series) (i : nat) (k : Z) : pyres bool :=
  match series_eq_int c k !! i with
  | Some b => Ok b
  | None => Raise (PyExn KeyError (pretty i))
  end.

(** [f"P{i+1}: {text}"]. *)
Definition fstring_P (i : nat) (text : string) : string :=
  "P" ++ pretty (i + 1) ++ ": " ++ text.

Definition debug_prompt : string :=
  "Find the error in this code: `x = 10; y = 0; z = x / y`".
Definition explain_prompt : string :=
  "Explain what this function does: `def add(a, b): return a + b`".
Definition optimize_prompt : string :=
  "How can I make this code faster: `for i in range(1000000): pass`".
Definition general_prompt : string :=
  "I'm stuck on this task, can you give me a hint?".

(** [str.isspace] and [str.lower] on ASCII text, which is all the prompts
    contain. *)
Definition py_isspace (a : ascii) : bool :=
  let n := N_of_ascii a in
  ((9 <=? n) && (n <=? 13) || (28 <=? n) && (n <=? 32))%N.

Definition py_lower_char (a : ascii) : ascii :=
  let n := N_of_ascii a in
  if ((65 <=? n) && (n <=? 90))%N then ascii_of_N (n + 32) else a.

Fixpoint py_lower (s : string) : string :=
  match s with
  | EmptyString => EmptyString
  | String a rest => String (py_lower_char a) (py_lower rest)
  end.

(** [s.split()]: the maximal runs of characters that are not whitespace. *)
Fixpoint py_split_go (word : string) (s : string) : list string :=
  match s with
  | EmptyString => if String.eqb word "" then [] else [word]
  | String a rest =>
      if py_isspace a
      then (if String.eqb word "" then [] else [word]) ++ py_split_go "" rest
      else py_split_go (word ++ String a "") rest
  end%list.

Definition py_split (s : string) : list string := py_split_go "" s.

(** The words left out of the count (line 390). *)
Definition common_words : list string :=
  ["i"; "this"; "the"; "a"; "in"; "on"; "can"; "you"; "me"; "what"; "how"; "is";
   "do"; "does"; "an"; "here"; "fix"].

(** [keyword_counts[word] += 1] on a [defaultdict(int)], kept as the list of
    its items in insertion order. *)
Fixpoint count_word (word : string) (counts : list (string * Z)) : list (string * Z) :=
  match counts with
  | [] => [(word, 1%Z)]
  | (k, c) :: rest =>
      if String.eqb k word then (k, (c + 1)%Z) :: rest
      else (k, c) :: count_word word rest
  end.

(** The words of the text that are counted. *)
Definition counted_words (prompts : list string) : list string :=
  filter (fun word => word ∉ common_words)
    (mjoin ((fun p => py_split (py_lower p)) <$> prompts)).

(** Lines 387-391. *)
Definition keyword_counts (prompts : list string) : list (string * Z) :=
  foldl (fun counts p =>
           foldl (fun counts word =>
                    if bool_decide (word ∈ common_words) then counts
                    else count_word word counts)
                 counts (py_split (py_lower p)))
        [] prompts.

(** [sorted(items, key=lambda item: item[1], reverse=True)]: by decreasing
    count; the sort is stable, so items of equal count keep their order. *)
Fixpoint insert_by_count (x : string * Z) (l : list (string * Z)) : list (string * Z) :=
  match l with
  | [] => [x]
  | y :: rest =>
      if (x.2 <? y.2)%Z then y :: insert_by_count x rest else x :: y :: rest
  end.

Definition sorted_by_count (items : list (string * Z)) : list (string * Z) :=
  foldr insert_by_count [] items.

(** An [int] or a [float64]. *)
Inductive pynum : Type :=
  | PyInt (z : Z)
  | PyFloat (x : F64.t).

(** [np.mean] of a list of ints: the sum, accumulated in [float64], over the
    count.  The partial sums are whole numbers far below 2^53, so they are
    exact in any order of accumulation. *)
Definition np_mean (l : list nat) : F64.t :=
  F64.div (F64.of_Z (Z.of_nat (sum_list l))) (F64.of_Z (Z.of_nat (length l))).

Record prompt_analysis : Type := PromptAnalysis {
  pa_prompts : list string;
  pa_average_prompt_length : pynum;
  pa_most_common_keywords : list (string * Z);
  pa_question_types : list string
}.

Section Qualitative.

Context (P : PyRandom).

#[local] Open Scope se_scope.

(** A step that uses Python's generator. *)
Definition PyRand (A : Type) : Type := StateErr (py_state P) A.

Definition random_choice (seq : list string) : PyRand string :=
  fun s =>
    match seq with
    | [] => (Raise (PyExn IndexError "Cannot choose from an empty sequence"), s)
    | _ => (Ok (py_choice P seq s).1, (py_choice P seq s).2)
    end.

(** [for i in idx: acc = body(i, acc)] with the generator threaded. *)
Fixpoint for_rows {A} (body : nat -> A -> PyRand A) (idx : list nat) (acc : A)
  : PyRand A :=
  match idx with
  | [] => se_ret acc
  | i :: rest => acc <~ body i acc ;; for_rows body rest acc
  end.

(** Lines 368-379: the prompt of row [i] is appended. *)
Definition prompt_row (data : DataFrame) (i : nat) (prompts : list string)
  : PyRand (list string) :=
  usage <~ lift (df_getitem "LLMUsage" data) ;;
  is_llm <~ lift (cell_is usage i 1) ;;
  if (is_llm : bool) then
    prompt_type <~ random_choice ["debug"; "explain"; "optimize"] ;;
    if String.eqb prompt_type "debug" then
      se_ret (prompts ++ [fstring_P i debug_prompt])%list
    else if String.eqb prompt_type "explain" then
      se_ret (prompts ++ [fstring_P i explain_prompt])%list
    else
      se_ret (prompts ++ [fstring_P i optimize_prompt])%list
  else
    se_ret (prompts ++ [fstring_P i general_prompt])%list.

Definition analyze_prompts (data : DataFrame) : PyRand prompt_analysis :=
  prompts <~ for_rows (prompt_row data) (range (Z.of_nat (nrows data))) [] ;;
  let prompt_lengths := (fun p => length (py_split p)) <$> prompts in
  let average_prompt_length :=
    match prompt_lengths with
    | [] => PyInt 0
    | _ => PyFloat (np_mean prompt_lengths)
    end in
  let most_common_keywords := take 5 (sorted_by_count (keyword_counts prompts)) in
  se_ret {| pa_prompts := prompts;
            pa_average_prompt_length := average_prompt_length;
            pa_most_common_keywords := most_common_keywords;
            pa_question_types := ["debug"; "explain"; "optimize"; "general help"] |}.

End Qualitative.

(** The prompt of row [i]: its label, then one of the three specific
    questions when the row's usage flag is 1 and the general question
    otherwise. *)
Definition prompt_of_row (data : DataFrame) (i : nat) (p : string) : Prop :=
  exists usage (is_llm : bool) text,
    df_getitem "LLMUsage" data = Ok usage
    /\ cell_is usage i 1 = Ok is_llm
    /\ p = fstring_P i text
    /\ if is_llm then text ∈ [debug_prompt; explain_prompt; optimize_prompt]
       else text = general_prompt.

Definition one_prompt_per_row (data : DataFrame) (prompts : list string) : Prop :=
  length prompts = nrows data
  /\ forall i p, prompts !! i = Some p -> prompt_of_row data i p.

(** How often [word] occurs in [words]. *)
Definition occurrences (word : string) (words : list string) : Z :=
  Z.of_nat (length (filter (fun w => w = word) words)).

(** The counts of a ranking never go up. *)
Definition non_increasing (l : list (string * Z)) : Prop :=
  forall i j a b, i < j -> l !! i = Some a -> l !! j = Some b -> (b.2 <= a.2)%Z.

(** What [most_common_keywords] is for the prompts it was computed from: at
    most five different words, none of them a common word, each with the
    number of times it occurs in the lowercased text, listed by decreasing
    count, and no counted word left out occurs more often than a listed
    one. *)
Definition keywords_ranked (prompts : list string) (kws : list (string * Z)) : Prop :=
  length kws <= 5
  /\ NoDup kws.*1
  /\ (forall word c, (word, c) ∈ kws ->
        (word ∉ common_words) /\ (1 <= c)%Z
        /\ (c = occurrences word (counted_words prompts)))
  /\ non_increasing kws
  /\ (forall word, word ∈ counted_words prompts -> word ∉ kws.*1 ->
        length kws = 5
        /\ forall kc, kc ∈ kws ->
             (occurrences word (counted_words prompts) <= kc.2)%Z).

(** A generator that always picks the first element. *)
Definition first_choice : PyRandom := {|
  py_state := unit;
  py_choice := fun seq s => (default "" (head seq), s)
|}.

(** The analysis of the sample table when the generator always picks the
    first question type. *)
Definition sample_prompt_analysis : prompt_analysis :=
  Eval vm_compute in
  match (analyze_prompts first_choice sample_table tt).1 with
  | Ok res => res
  | Raise _ => PromptAnalysis [] (PyInt 0) [] []
  end.

(** What [analyze_prompts] gives for a generated table: one prompt per
    participant, the general question in the rows 2 and 3 of every block of
    four. *)
Definition prompts_of_generated (n : nat) (res : prompt_analysis) : Prop :=
  length (pa_prompts res) = n
  /\ forall i, i < n -> 2 <= i mod 4 ->
       pa_prompts res !! i = Some (fstring_P i general_prompt).

(* ===================================================================== *)
(** * [analyze_interviews]                                               *)
(* ===================================================================== *)

Definition llm_feedback : list string :=
  ["The LLM helped me find the bug quickly.";
   "I understood the code better with the LLM's explanation.";
   "The LLM gave me suggestions I wouldn't have thought of."].

Definition no_llm_feedback : list string :=
  ["I wish I had a tool to help me understand the code.";
   "I spent a lot of time trying to find the error myself.";
   "It was difficult to debug without assistance."].

(** [series.any()]: some entry is truthy; missing values are skipped. *)
Definition series_any (c : series) : bool :=
  match c with
  | IntCol l => existsb (fun z => negb (Z.eqb z 0)) l
  | FloatCol l =>
      existsb (fun x => negb (F64.is_nan x) && negb (SFeqb x (F64.of_Z 0))) l
  | ObjCol l => existsb (fun s => negb (String.eqb s "")) l
  | BoolCol l => existsb id l
  end.

Record interview_analysis : Type := InterviewAnalysis {
  ia_perceived_usefulness_llm : F64.t;
  ia_anxiety_reduction_llm : F64.t;
  ia_anxiety_reduction_herbal : F64.t;
  ia_qualitative_feedback : list string
}.

Section Interviews.

Context (P : PyRandom) (R : RandomState).

#[local] Open Scope se_scope.

(** The function uses both global generators: Python's for the sentences
    and NumPy's for the ratings. *)
Definition TwoRand (A : Type) : Type := StateErr (py_state P * rng_state R) A.

Definition with_random {A} (m : PyRand P A) : TwoRand A :=
  fun s => ((m s.1).1, ((m s.1).2, s.2)).

(** [np.random.uniform(low, high)] without a size: one draw. *)
Definition np_random_uniform (low high : Z) : TwoRand F64.t :=
  fun s =>
    let r := rng_uniform R (F64.of_Z low) (F64.of_Z high) s.2 in
    (Ok r.1, (s.1, r.2)).

(** Lines 415-427: the feedback of row [i] is appended. *)
Definition feedback_row (data : DataFrame) (i : nat)
    (qualitative_feedback : list string) : PyRand P (list string) :=
  usage <~ lift (df_getitem "LLMUsage" data) ;;
  is_llm <~ lift (cell_is usage i 1) ;;
  feedback <~ (if (is_llm : bool) then random_choice P llm_feedback
               else random_choice P no_llm_feedback) ;;
  se_ret (qualitative_feedback ++ [fstring_P i feedback])%list.

Definition analyze_interviews (data : DataFrame) : TwoRand interview_analysis :=
  qualitative_feedback <~
    with_random (for_rows P (feedback_row data) (range (Z.of_nat (nrows data))) []) ;;
  usage <~ lift (df_getitem "LLMUsage" data) ;;
  perceived_usefulness_llm <~
    (if series_any usage then np_random_uniform 3 5 else np_random_uniform 1 3) ;;
  usage <~ lift (df_getitem "LLMUsage" data) ;;
  anxiety_reduction_llm <~
    (if series_any usage then np_random_uniform 1 3 else np_random_uniform 0 1) ;;
  herbal <~ lift (df_getitem "HerbalBlend" data) ;;
  anxiety_reduction_herbal <~
    (if series_any herbal then np_random_uniform 1 3 else np_random_uniform 0 1) ;;
  se_ret {| ia_perceived_usefulness_llm := perceived_usefulness_llm;
            ia_anxiety_reduction_llm := anxiety_reduction_llm;
            ia_anxiety_reduction_herbal := anxiety_reduction_herbal;
            ia_qualitative_feedback := qualitative_feedback |}.

End Interviews.

(** What [random.choice] documents: the result is an element of the
    sequence. *)
Definition py_choice_is_element (P : PyRandom) : Prop :=
  forall seq s, seq <> [] -> (py_choice P seq s).1 ∈ seq.

(** The feedback of row [i]: its label, then a sentence of the list that
    goes with the row's usage flag. *)
Definition feedback_of_row (data : DataFrame) (i : nat) (f : string) : Prop :=
  exists usage (is_llm : bool) text,
    df_getitem "LLMUsage" data = Ok usage
    /\ cell_is usage i 1 = Ok is_llm
    /\ f = fstring_P i text
    /\ text ∈ (if is_llm then llm_feedback else no_llm_feedback).

Definition one_feedback_per_row (data : DataFrame) (feedback : list string) : Prop :=
  length feedback = nrows data
  /\ forall i f, feedback !! i = Some f -> feedback_of_row data i f.

(** The three ratings when they are all drawn from the upper ranges, one
    after the other, starting from the state [g] of NumPy's generator. *)
Definition ratings_from_upper_ranges (R : RandomState) (g : rng_state R)
    (res : interview_analysis) : Prop :=
  let r1 := rng_uniform R (F64.of_Z 3) (F64.of_Z 5) g in
  let r2 := rng_uniform R (F64.of_Z 1) (F64.of_Z 3) r1.2 in
  let r3 := rng_uniform R (F64.of_Z 1) (F64.of_Z 3) r2.2 in
  ia_perceived_usefulness_llm res = r1.1
  /\ ia_anxiety_reduction_llm res = r2.1
  /\ ia_anxiety_reduction_herbal res = r3.1.

Definition sample_interview_analysis : interview_analysis :=
  Eval vm_compute in
  match (analyze_interviews first_choice counter_rng sample_table (tt, 0%Z)).1 with
  | Ok res => res
  | Raise _ => InterviewAnalysis (F64.of_Z 0) (F64.of_Z 0) (F64.of_Z 0) []
  end.

(* ===================================================================== *)
(** * The click handler of [interactive_IPMA_visualization]              *)
(* ===================================================================== *)

(** [d[key]] on a dict. *)
Definition dict_getitem {V} (d : gmap string V) (key : string) : pyres V :=
  match d !! key with
  | Some v => Ok v
  | None => Raise (PyExn KeyError key)
  end.

(** [clear_output(wait=True)]: what the output area showed is replaced by
    what is printed next; every path of the block below prints. *)
Definition clear_output : Console unit := fun _ => (Ok tt, []).

Section ClickHandler.

Context (B : RBridge).

#[local] Open Scope se_scope.

(** The rest of the block once [IPMA_results['effect_sizes']] has been
    read: the effect-size lines and the Plotly figure (lines 620-655). *)
Variable show_results :
  list string -> string -> pyval B -> gmap string (pyval B) -> Console unit.

(** The body of [with output_area:] in [run_IPMA_on_click] (lines 606-655);
    the state is what the output area shows.  [y_var] is [None] when the
    dropdown has no selection. *)
Definition run_IPMA_on_click_output (IPMA_r : option (ipma_package B))
    (data : DataFrame) (x_vars : list string) (y_var : option string)
  : Console unit :=
  clear_output ;;;
  match x_vars, y_var with
  | [], _ | _, None | _, Some EmptyString =>
      print "Please select both X and Y variables."
  | _, Some y_var =>
      IPMA_results <~ run_IPMA_in_r B IPMA_r data x_vars y_var ;;
      print ("IPMA Results (R): " ++ String.concat ", " x_vars ++ " vs. " ++ y_var) ;;;
      effect_sizes <~ lift (dict_getitem IPMA_results "effect_sizes") ;;
      show_results x_vars y_var effect_sizes IPMA_results
  end.

End ClickHandler.

(* ===================================================================== *)
(** * What the specification says about preprocessing                    *)
(* ===================================================================== *)





(** scikit-learn's [StandardScaler().fit_transform] as documented, over
    binary64: a matrix without rows or without columns, or with an entry that
    is not finite, is refused with a [ValueError]; every column is centred on
    its mean and divided by its population standard deviation, a standard
    deviation of 0 being replaced by 1. *)
Definition sum_of (col : list F64.t) : F64.t := foldl F64.add (F64.of_Z 0) col.

Definition mean_of (n : nat) (col : list F64.t) : F64.t :=
  F64.div (sum_of col) (F64.of_Z (Z.of_nat n)).

Definition std_of (n : nat) (col : list F64.t) : F64.t :=
  let mean := mean_of n col in
  SFsqrt prec emax
    (mean_of n ((fun x => F64.mul (F64.sub x mean) (F64.sub x mean)) <$> col)).

Definition standardize (n : nat) (col : list F64.t) : list F64.t :=
  let mean := mean_of n col in
  let std := std_of n col in
  let scale := if SFeqb std (F64.of_Z 0) then F64.of_Z 1 else std in
  (fun x => F64.div (F64.sub x mean) scale) <$> col.

Definition standard_scaler (n_rows : nat) (cols : list (list F64.t))
  : pyres (list (list F64.t)) :=
  if Nat.eqb n_rows 0 then
    Raise (PyExn ValueError
             "Found array with 0 sample(s) while a minimum of 1 is required by StandardScaler.")
  else if Nat.eqb (length cols) 0 then
    Raise (PyExn ValueError
             "Found array with 0 feature(s) while a minimum of 1 is required by StandardScaler.")
  else if forallb (forallb F64.is_finite) cols then Ok (standardize n_rows <$> cols)
  else Raise (PyExn ValueError "Input X contains NaN or infinity.").


(** A generator whose draws never vary: every draw is the lower bound, the
    first element or the location. *)
Definition steady_rng : RandomState := {|
  rng_state := unit;
  rng_init := fun _ => tt;
  rng_randint := fun low _ s => (low, s);
  rng_choice := fun a s => (default "" (head a), s);
  rng_normal := fun loc _ s => (loc, s);
  rng_uniform := fun low _ s => (low, s)
|}.

(* ===================================================================== *)
(** * Loops and in-place updates                                         *)
(* ===================================================================== *)

Section Loops.

Context {A : Type}.
Implicit Types (l a : list A) (F : nat -> A -> A).

Lemma getitem_Some a i x : a !! i = Some x -> getitem a i = Ok x.
Proof. unfold getitem. by intros ->. Qed.

Lemma getitem_None a i :
  a !! i = None -> getitem a i = Raise (out_of_bounds i (length a)).
Proof. unfold getitem. by intros ->. Qed.

Lemma iupdate_Some (f : A -> A) a i x :
  a !! i = Some x -> iupdate f a i = Ok (<[i := f x]> a).
Proof. intros H. unfold iupdate. by rewrite (getitem_Some _ _ _ H). Qed.

Lemma upto_lookup k F l j :
  upto k F l !! j = (fun x => if (j <? k)%nat then F j x else x) <$> l !! j.
Proof. unfold upto. by rewrite list_lookup_imap. Qed.

Lemma upto_length k F l : length (upto k F l) = length l.
Proof. unfold upto. by rewrite length_imap. Qed.

Lemma upto_lookup_here k F l x : l !! k = Some x -> upto k F l !! k = Some x.
Proof. intros H. rewrite upto_lookup, H. simpl. by rewrite Nat.ltb_irrefl. Qed.

Lemma upto_0 F l : upto 0 F l = l.
Proof.
  apply list_eq. intros j. rewrite upto_lookup. by destruct (l !! j).
Qed.

Lemma upto_S k F l x :
  l !! k = Some x -> upto (S k) F l = <[k := F k x]> (upto k F l).
Proof.
  intros H. apply list_eq. intros j.
  destruct (decide (j = k)) as [->|Hne].
  - rewrite list_lookup_insert_eq.
    + rewrite upto_lookup, H. simpl.
      by rewrite (proj2 (Nat.ltb_lt k (S k))) by lia.
    + rewrite upto_length. by eapply lookup_lt_Some.
  - rewrite list_lookup_insert_ne by done. rewrite !upto_lookup.
    destruct (l !! j); [simpl|done].
    destruct (Nat.ltb_spec j k), (Nat.ltb_spec j (S k)); (done || lia).
Qed.

Lemma upto_all k F l : length l <= k -> upto k F l = imap F l.
Proof.
  intros Hk. apply list_eq. intros j. rewrite upto_lookup, list_lookup_imap.
  destruct (l !! j) eqn:Hj; [simpl|done].
  apply lookup_lt_Some in Hj.
  by rewrite (proj2 (Nat.ltb_lt j k)) by lia.
Qed.

End Loops.

Lemma for_each_app {S} (body : nat -> S -> pyres S) (l1 l2 : list nat) (st : S) :
  for_each body (l1 ++ l2) st = st' ← for_each body l1 st; for_each body l2 st'.
Proof.
  revert st. induction l1 as [|i l1 IH]; intros st; simpl; [done|].
  destruct (body i st) as [st'|e]; simpl; [apply IH|done].
Qed.

(* ===================================================================== *)
(** * The two adjustment loops                                           *)
(* ===================================================================== *)

(** Closes [cur = upto (S k) F l] when [cur] is [upto k F l] after zero, one
    or two writes at index [k]; [unfold_adjusted] exposes the adjustment. *)
Ltac close_upto unfold_adjusted :=
  match goal with
  | H : ?l !! ?k = Some ?x |- _ = upto (S ?k) ?F ?l =>
      rewrite (upto_S k F l x H), ?list_insert_insert_eq
  end;
  cbv beta; unfold_adjusted;
  repeat match goal with
         | H : _ !!! _ = _ |- _ => rewrite H
         | H : (_ =? _)%Z = _ |- _ => rewrite H
         end;
  first [ reflexivity
        | symmetry; apply list_insert_id; by apply upto_lookup_here ].

Ltac step_iupdate :=
  match goal with
  | |- context [iupdate ?f (upto ?k ?F ?l) ?k] =>
      erewrite (iupdate_Some f (upto k F l) k) by (by apply upto_lookup_here)
  | |- context [iupdate ?f (<[?k := ?y]> ?a) ?k] =>
      rewrite (iupdate_Some f (<[k := y]> a) k y)
        by (apply list_lookup_insert_eq; rewrite upto_length; by eapply lookup_lt_Some)
  end; simpl.

Section AdjustmentLoops.

Variables llm herbal : list Z.

Lemma adjust_measures_step (k : nat) (m : measures) u h x1 x2 x3 x4 :
  llm !! k = Some u -> herbal !! k = Some h ->
  m_final_self_efficacy m !! k = Some x1 ->
  m_final_anxiety m !! k = Some x2 ->
  m_errors_identified m !! k = Some x3 ->
  m_completion_time m !! k = Some x4 ->
  adjust_measures llm herbal k (measures_upto llm herbal k m)
  = Ok (measures_upto llm herbal (S k) m).
Proof.
  intros Hu Hh H1 H2 H3 H4.
  unfold adjust_measures, measures_upto.
  rewrite (getitem_Some _ _ _ Hu), (getitem_Some _ _ _ Hh). simpl.
  apply list_lookup_total_correct in Hu, Hh.
  destruct (u =? 1)%Z eqn:Eu, (h =? 1)%Z eqn:Eh; simpl;
    repeat step_iupdate; f_equal; f_equal;
    close_upto ltac:(unfold adjusted_self_efficacy, adjusted_anxiety,
                       adjusted_errors, adjusted_time).
Qed.

Lemma adjust_signals_step (k : nat) (g : signals) u h x1 x2 x3 x4 x5 :
  llm !! k = Some u -> herbal !! k = Some h ->
  s_eeg_beta g !! k = Some x1 ->
  s_pog_fixations g !! k = Some x2 ->
  s_pog_fixation_duration g !! k = Some x3 ->
  s_ecg_hr g !! k = Some x4 ->
  s_eda_scr g !! k = Some x5 ->
  adjust_signals llm herbal k (signals_upto llm herbal k g)
  = Ok (signals_upto llm herbal (S k) g).
Proof.
  intros Hu Hh H1 H2 H3 H4 H5.
  unfold adjust_signals, signals_upto.
  rewrite (getitem_Some _ _ _ Hu), (getitem_Some _ _ _ Hh). simpl.
  apply list_lookup_total_correct in Hu, Hh.
  destruct (u =? 1)%Z eqn:Eu, (h =? 1)%Z eqn:Eh; simpl;
    repeat step_iupdate; f_equal; f_equal;
    close_upto ltac:(unfold adjusted_eeg_beta, adjusted_fixations,
                       adjusted_fixation_duration, adjusted_heart_rate,
                       adjusted_scr).
Qed.

Lemma measures_upto_0 m : measures_upto llm herbal 0 m = m.
Proof. destruct m. unfold measures_upto. simpl. by rewrite !upto_0. Qed.

Lemma signals_upto_0 g : signals_upto llm herbal 0 g = g.
Proof. destruct g. unfold signals_upto. simpl. by rewrite !upto_0. Qed.

(** The first [k] iterations succeed as long as every array has at least
    [k] elements. *)
Lemma adjust_measures_prefix (k : nat) (m : measures) :
  k <= length llm -> k <= length herbal ->
  k <= length (m_final_self_efficacy m) -> k <= length (m_final_anxiety m) ->
  k <= length (m_errors_identified m) -> k <= length (m_completion_time m) ->
  for_each (adjust_measures llm herbal) (seq 0 k) m
  = Ok (measures_upto llm herbal k m).
Proof.
  induction k as [|k IH]; intros Hu Hh H1 H2 H3 H4.
  - simpl. by rewrite measures_upto_0.
  - rewrite seq_S, for_each_app, IH by lia. simpl.
    destruct (lookup_lt_is_Some_2 llm k) as [u Eu]; [lia|].
    destruct (lookup_lt_is_Some_2 herbal k) as [h Eh]; [lia|].
    destruct (lookup_lt_is_Some_2 (m_final_self_efficacy m) k) as [x1 E1]; [lia|].
    destruct (lookup_lt_is_Some_2 (m_final_anxiety m) k) as [x2 E2]; [lia|].
    destruct (lookup_lt_is_Some_2 (m_errors_identified m) k) as [x3 E3]; [lia|].
    destruct (lookup_lt_is_Some_2 (m_completion_time m) k) as [x4 E4]; [lia|].
    by rewrite (adjust_measures_step k m u h x1 x2 x3 x4).
Qed.

Lemma adjust_signals_prefix (k : nat) (g : signals) :
  k <= length llm -> k <= length herbal ->
  k <= length (s_eeg_beta g) -> k <= length (s_pog_fixations g) ->
  k <= length (s_pog_fixation_duration g) -> k <= length (s_ecg_hr g) ->
  k <= length (s_eda_scr g) ->
  for_each (adjust_signals llm herbal) (seq 0 k) g
  = Ok (signals_upto llm herbal k g).
Proof.
  induction k as [|k IH]; intros Hu Hh H1 H2 H3 H4 H5.
  - simpl. by rewrite signals_upto_0.
  - rewrite seq_S, for_each_app, IH by lia. simpl.
    destruct (lookup_lt_is_Some_2 llm k) as [u Eu]; [lia|].
    destruct (lookup_lt_is_Some_2 herbal k) as [h Eh]; [lia|].
    destruct (lookup_lt_is_Some_2 (s_eeg_beta g) k) as [x1 E1]; [lia|].
    destruct (lookup_lt_is_Some_2 (s_pog_fixations g) k) as [x2 E2]; [lia|].
    destruct (lookup_lt_is_Some_2 (s_pog_fixation_duration g) k) as [x3 E3]; [lia|].
    destruct (lookup_lt_is_Some_2 (s_ecg_hr g) k) as [x4 E4]; [lia|].
    destruct (lookup_lt_is_Some_2 (s_eda_scr g) k) as [x5 E5]; [lia|].
    by rewrite (adjust_signals_step k g u h x1 x2 x3 x4 x5).
Qed.

Lemma adjust_measures_out_of_bounds (i : nat) (m : measures) :
  llm !! i = None ->
  adjust_measures llm herbal i m = Raise (out_of_bounds i (length llm)).
Proof. intros H. unfold adjust_measures. by rewrite (getitem_None _ _ H). Qed.

(** With a flag array shorter than [n], the loop over [range(n)] stops at
    the first index past the flags. *)
Lemma adjust_measures_overrun (n : nat) (m : measures) :
  length llm < n -> length llm <= length herbal ->
  length llm <= length (m_final_self_efficacy m) ->
  length llm <= length (m_final_anxiety m) ->
  length llm <= length (m_errors_identified m) ->
  length llm <= length (m_completion_time m) ->
  for_each (adjust_measures llm herbal) (seq 0 n) m
  = Raise (out_of_bounds (length llm) (length llm)).
Proof.
  intros Hn Hh H1 H2 H3 H4.
  replace n with (length llm + (n - length llm)) by lia.
  rewrite seq_app, for_each_app, adjust_measures_prefix by lia. simpl.
  destruct (n - length llm) as [|d] eqn:Ed; [lia|]. simpl.
  by rewrite adjust_measures_out_of_bounds by (by apply lookup_ge_None_2).
Qed.

End AdjustmentLoops.

(* ===================================================================== *)
(** * Facts about float64 comparison, rounding and clipping              *)
(* ===================================================================== *)

Section Float64Facts.

#[local] Open Scope Z_scope.

Lemma SFcompare_antisym (x y : spec_float) :
  SFcompare y x = CompOpp <$> SFcompare x y.
Proof.
  destruct x as [sx|sx| |sx mx ex], y as [sy|sy| |sy my ey]; simpl;
    try reflexivity; try (by destruct sx); try (by destruct sy);
    try (by destruct sx, sy).
  destruct sx, sy; simpl; try reflexivity.
  all: rewrite (Z.compare_antisym ex ey); destruct (ex ?= ey); simpl; try reflexivity.
  all: rewrite (Pos.compare_cont_antisym _ _ Eq); simpl.
  - by rewrite CompOpp_involutive.
  - reflexivity.
Qed.

Lemma SFcompare_refl (x : spec_float) :
  F64.is_nan x = false -> SFcompare x x = Some Eq.
Proof.
  destruct x as [sx|sx| |sx mx ex]; simpl; intros H; try done.
  - by destruct sx.
  - destruct sx; rewrite Z.compare_refl; fold (Pos.compare mx mx);
      by rewrite Pos.compare_refl.
Qed.

Lemma leb_refl (x : F64.t) : F64.is_nan x = false -> F64.leb x x = true.
Proof. intros H. unfold F64.leb, SFleb. by rewrite SFcompare_refl. Qed.

Lemma leb_not_nan_l (x y : F64.t) : F64.leb x y = true -> F64.is_nan x = false.
Proof. by destruct x. Qed.

Lemma leb_not_nan_r (x y : F64.t) : F64.leb x y = true -> F64.is_nan y = false.
Proof. by destruct x as [[]|[]| |[]], y. Qed.

(** Two numbers are always comparable. *)
Lemma leb_total (x y : F64.t) :
  F64.is_nan x = false -> F64.is_nan y = false ->
  F64.leb x y = false -> F64.leb y x = true.
Proof.
  intros Hx Hy. unfold F64.leb, SFleb. rewrite (SFcompare_antisym x y).
  destruct (SFcompare x y) as [[]|] eqn:E; simpl; try done.
  destruct x as [[]|[]| |[]], y; simpl in *; done.
Qed.

(** Clipping a number lands in the interval. *)
Lemma clip_within (a lo hi : F64.t) :
  F64.is_nan a = false -> F64.leb lo hi = true ->
  F64.within lo hi (F64.clip a lo hi).
Proof.
  intros Ha Hlh.
  pose proof (leb_not_nan_l _ _ Hlh) as Hlo.
  pose proof (leb_not_nan_r _ _ Hlh) as Hhi.
  unfold F64.within, F64.clip, F64.minimum, F64.maximum.
  rewrite Ha, Hhi, !orb_false_r.
  destruct (F64.leb lo a) eqn:E1.
  - destruct (F64.leb hi a) eqn:E2.
    + split; [done|by apply leb_refl].
    + split; [done|by apply leb_total].
  - destruct (F64.leb hi lo) eqn:E2.
    + split; [done|by apply leb_refl].
    + split; [by apply leb_refl|done].
Qed.

(** Rounding a non-negative mantissa never produces NaN. *)
Lemma shr_1_nonneg (mrs : shr_record) : 0 <= shr_m mrs -> 0 <= shr_m (shr_1 mrs).
Proof. destruct mrs as [[|[p|p|]|[p|p|]] r s]; simpl; lia. Qed.

Lemma iter_shr_1_nonneg (p : positive) (mrs : shr_record) :
  0 <= shr_m mrs -> 0 <= shr_m (SpecFloat.iter_pos shr_1 p mrs).
Proof.
  revert mrs. induction p as [p IH|p IH|]; intros mrs H; simpl.
  - apply IH, IH. by apply shr_1_nonneg.
  - by apply IH, IH.
  - by apply shr_1_nonneg.
Qed.

Lemma shr_nonneg (mrs : shr_record) (e n : Z) :
  0 <= shr_m mrs -> 0 <= shr_m (shr mrs e n).1.
Proof.
  intros H. destruct n; simpl; try done. by apply iter_shr_1_nonneg.
Qed.

Lemma shr_record_of_loc_m (m : Z) (l : location) :
  shr_m (shr_record_of_loc m l) = m.
Proof. by destruct l as [|[]]. Qed.

Lemma shr_fexp_nonneg (m e : Z) (l : location) :
  0 <= m -> 0 <= shr_m (shr_fexp prec emax m e l).1.
Proof.
  intros H. unfold shr_fexp. apply shr_nonneg. by rewrite shr_record_of_loc_m.
Qed.

Lemma round_nearest_even_nonneg (m : Z) (l : location) :
  0 <= m -> 0 <= round_nearest_even m l.
Proof.
  intros H. destruct l as [|[]]; simpl; try lia. destruct (Z.even m); lia.
Qed.

Lemma binary_round_aux_not_nan (sx : bool) (mx ex : Z) (lx : location) :
  0 <= mx -> F64.is_nan (binary_round_aux prec emax sx mx ex lx) = false.
Proof.
  intros H. unfold binary_round_aux.
  pose proof (shr_fexp_nonneg mx ex lx H) as H1.
  destruct (shr_fexp prec emax mx ex lx) as [mrs' e']. simpl in H1.
  pose proof (shr_fexp_nonneg _ e' loc_Exact
    (round_nearest_even_nonneg _ (loc_of_shr_record mrs') H1)) as H2.
  destruct (shr_fexp prec emax _ e' loc_Exact) as [mrs'' e'']. simpl in H2.
  destruct (shr_m mrs'') as [|m|m]; [done| |lia].
  by destruct (e'' <=? emax - prec).
Qed.

Lemma binary_normalize_not_nan (m e : Z) (s : bool) :
  F64.is_nan (binary_normalize prec emax m e s) = false.
Proof.
  destruct m as [|m|m]; simpl; [done| |]; unfold binary_round;
    destruct (shl_align _ _ _); by apply binary_round_aux_not_nan.
Qed.

(** A number plus or minus a finite constant is a number. *)
Lemma add_finite_not_nan (x : F64.t) (s : bool) (m : positive) (e : Z) :
  F64.is_nan x = false -> F64.is_nan (F64.add x (S754_finite s m e)) = false.
Proof.
  intros Hx. destruct x as [sx|sx| |sx mx ex]; try done.
  unfold F64.add, SFadd. apply binary_normalize_not_nan.
Qed.

Lemma sub_finite_not_nan (x : F64.t) (s : bool) (m : positive) (e : Z) :
  F64.is_nan x = false -> F64.is_nan (F64.sub x (S754_finite s m e)) = false.
Proof.
  intros Hx. destruct x as [sx|sx| |sx mx ex]; try done.
  unfold F64.sub, SFsub. apply binary_normalize_not_nan.
Qed.

End Float64Facts.

(* ===================================================================== *)
(** * The generator, step by step                                        *)
(* ===================================================================== *)

Lemma se_bind_Ok {S A B} (m : StateErr S A) (k : A -> StateErr S B) s a s' :
  m s = (Ok a, s') -> se_bind m k s = k a s'.
Proof. unfold se_bind. by intros ->. Qed.

Lemma se_bind_Raise {S A B} (m : StateErr S A) (k : A -> StateErr S B) s e s' :
  m s = (Raise e, s') -> se_bind m k s = (Raise e, s').
Proof. unfold se_bind. by intros ->. Qed.

Lemma list_times_length {A} (l : list A) (k : Z) :
  length (list_times l k) = Z.to_nat k * length l.
Proof.
  unfold list_times. induction (Z.to_nat k) as [|j IH]; simpl; [done|].
  rewrite length_app, IH. lia.
Qed.

Lemma np_array_len (l : list Z) : series_len (np_array l) = length l.
Proof. by destruct l. Qed.

Lemma participant_ids_length (n : Z) : length (participant_ids n) = Z.to_nat n.
Proof. unfold participant_ids, range. by rewrite length_fmap, length_seq. Qed.

Lemma pd_DataFrame_Ok (cols : list (string * series)) :
  Forall (fun kc => series_len kc.2 = nrows cols) cols -> pd_DataFrame cols = Ok cols.
Proof.
  intros H. unfold pd_DataFrame, same_length.
  rewrite (proj2 (forallb_forall _ _)); [done|].
  intros kc Hin. apply Nat.eqb_eq.
  rewrite Forall_forall in H. apply H. by apply list_elem_of_In.
Qed.

Section DrawFacts.

Context (R : RandomState).

Lemma draws_length {A} (d : rng_state R -> A * rng_state R) n s :
  length (draws R d n s).1 = n.
Proof. revert s. induction n as [|n IH]; intros s; simpl; [done|]. by rewrite IH. Qed.

(** Every element of a drawn array is the value of one draw. *)
Lemma draws_Forall {A} (d : rng_state R -> A * rng_state R) n s :
  Forall (fun x => exists s0, x = (d s0).1) (draws R d n s).1.
Proof.
  revert s. induction n as [|n IH]; intros s; simpl; [constructor|].
  constructor; [by exists s|apply IH].
Qed.

Lemma sized_Ok {A} (d : rng_state R -> A * rng_state R) (size : Z) s :
  (0 <= size)%Z ->
  exists l s', sized R d size s = (Ok l, s') /\ length l = Z.to_nat size
               /\ Forall (fun x => exists s0, x = (d s0).1) l.
Proof.
  intros H. exists (draws R d (Z.to_nat size) s).1, (draws R d (Z.to_nat size) s).2.
  unfold sized. rewrite (proj2 (Z.ltb_ge size 0)) by done.
  split; [done|]. split; [apply draws_length|apply draws_Forall].
Qed.

Lemma sized_negative {A} (d : rng_state R -> A * rng_state R) (size : Z) s :
  (size < 0)%Z ->
  sized R d size s = (Raise (PyExn ValueError "negative dimensions are not allowed"), s).
Proof. intros H. unfold sized. by rewrite (proj2 (Z.ltb_lt size 0)). Qed.

Lemma np_random_seed_Ok seed s :
  valid_seed seed -> np_random_seed R seed s = (Ok tt, rng_init R seed).
Proof.
  intros [H1 H2]. unfold np_random_seed.
  by rewrite (proj2 (Z.leb_le 0 seed)), (proj2 (Z.ltb_lt seed (2 ^ 32))).
Qed.

Lemma np_random_seed_Raise seed s :
  ~ valid_seed seed ->
  np_random_seed R seed s
  = (Raise (PyExn ValueError "Seed must be between 0 and 2**32 - 1"), s).
Proof.
  intros H. unfold np_random_seed.
  destruct (0 <=? seed)%Z eqn:E1, (seed <? 2 ^ 32)%Z eqn:E2; simpl; try done.
  exfalso. apply H. split; [by apply Z.leb_le|by apply Z.ltb_lt].
Qed.

End DrawFacts.

(** One draw of [size] elements: names the array and the next state. *)
Ltac draw_step R Hn l s' Hlen Hall :=
  match goal with
  | |- context [se_bind (sized R ?d ?size) _ ?s] =>
      let E := fresh "E" in
      destruct (sized_Ok R d size s Hn) as (l & s' & E & Hlen & Hall);
      rewrite (se_bind_Ok _ _ _ _ _ E); cbv beta; clear E
  end.

Lemma lift_Ok {S A} (r : pyres A) (a : A) (s : S) :
  r = Ok a -> lift r s = (Ok a, s).
Proof. by intros ->. Qed.

Lemma lift_Raise {S A} (r : pyres A) (e : pyexn) (s : S) :
  r = Raise e -> lift r s = (Raise e, s).
Proof. by intros ->. Qed.

Lemma flags_length (pattern : list Z) (n : Z) :
  length pattern = 4 -> (0 <= n)%Z -> (n mod 4 = 0)%Z ->
  length (list_times pattern (n / 4)) = Z.to_nat n.
Proof.
  intros Hp Hn Hm. rewrite list_times_length, Hp.
  pose proof (Z.div_mod n 4 ltac:(lia)) as Hd.
  assert (0 <= n / 4)%Z by (apply Z.div_pos; lia). lia.
Qed.

Lemma flags_short (pattern : list Z) (n : Z) :
  length pattern = 4 -> (0 < n)%Z -> (n mod 4 <> 0)%Z ->
  length (list_times pattern (n / 4)) = Z.to_nat (4 * (n / 4))
  /\ Z.to_nat (4 * (n / 4)) < Z.to_nat n.
Proof.
  intros Hp Hn Hm. rewrite list_times_length, Hp.
  pose proof (Z.div_mod n 4 ltac:(lia)) as Hd.
  pose proof (Z.mod_pos_bound n 4 ltac:(lia)) as Hb.
  assert (0 <= n / 4)%Z by (apply Z.div_pos; lia). lia.
Qed.

Section GeneratorFacts.

Context (R : RandomState).

(** For a count that is a non-negative multiple of 4 the generator returns
    the table of the specification over the arrays it drew. *)
Lemma simulate_data_returns (n seed : Z) (g : rng_state R) :
  valid_seed seed -> (0 <= n)%Z -> (n mod 4 = 0)%Z ->
  exists d, (simulate_data R n seed g).1 = Ok (table_of n d)
            /\ well_sized (Z.to_nat n) d /\ baselines_drawn R d.
Proof.
  intros Hs Hn Hm.
  pose proof (flags_length [1; 1; 0; 0]%Z n eq_refl Hn Hm) as Lllm.
  pose proof (flags_length [1; 0; 1; 0]%Z n eq_refl Hn Hm) as Lherbal.
  unfold simulate_data, randint, choice, normal, uniform.
  rewrite (se_bind_Ok _ _ _ _ _ (np_random_seed_Ok R seed g Hs)).
  draw_step R Hn age s1 Lage Aage.
  draw_step R Hn gender s2 Lgender Agender.
  draw_step R Hn pe s3 Lpe Ape.
  cbv zeta.
  draw_step R Hn ise s4 Lise Aise.
  draw_step R Hn ia s5 Lia Aia.
  draw_step R Hn err s6 Lerr Aerr.
  draw_step R Hn ct s7 Lct Act.
  erewrite se_bind_Ok; cycle 1.
  { apply lift_Ok. unfold for_range, range.
    apply adjust_measures_prefix; simpl; lia. }
  cbv beta.
  draw_step R Hn ea s8 Lea Aea.
  draw_step R Hn eb s9 Leb Aeb.
  draw_step R Hn hr s10 Lhr Ahr.
  draw_step R Hn scr s11 Lscr Ascr.
  draw_step R Hn pf s12 Lpf Apf.
  draw_step R Hn pfd s13 Lpfd Apfd.
  draw_step R Hn ppd s14 Lppd Appd.
  draw_step R Hn pbr s15 Lpbr Apbr.
  erewrite se_bind_Ok; cycle 1.
  { apply lift_Ok. unfold for_range, range.
    apply adjust_signals_prefix; simpl; lia. }
  cbv beta.
  exists (RawDraws age gender pe ise ia err ct ea eb hr scr pf pfd ppd pbr).
  split; [|split].
  - unfold lift, measures_upto, signals_upto. cbn [fst m_final_self_efficacy
      m_final_anxiety m_errors_identified m_completion_time s_eeg_beta
      s_pog_fixations s_pog_fixation_duration s_ecg_hr s_eda_scr].
    rewrite !upto_all by lia.
    rewrite pd_DataFrame_Ok; [reflexivity|].
    repeat (apply Forall_cons; split; [|]); try apply Forall_nil;
      cbn [nrows series_len snd fst];
      rewrite ?np_array_len, ?length_fmap, ?length_imap, ?length_zip_with,
        ?length_fmap, ?length_imap, ?participant_ids_length; lia.
  - unfold well_sized. simpl. tauto.
  - split; assumption.
Qed.

Lemma simulate_data_bad_seed (n seed : Z) (g : rng_state R) :
  ~ valid_seed seed ->
  (simulate_data R n seed g).1
  = Raise (PyExn ValueError "Seed must be between 0 and 2**32 - 1").
Proof.
  intros Hs. unfold simulate_data.
  by rewrite (se_bind_Raise _ _ _ _ _ (np_random_seed_Raise R seed g Hs)).
Qed.

Lemma simulate_data_negative (n seed : Z) (g : rng_state R) :
  valid_seed seed -> (n < 0)%Z ->
  (simulate_data R n seed g).1
  = Raise (PyExn ValueError "negative dimensions are not allowed").
Proof.
  intros Hs Hn. unfold simulate_data, randint.
  rewrite (se_bind_Ok _ _ _ _ _ (np_random_seed_Ok R seed g Hs)).
  by rewrite (se_bind_Raise _ _ _ _ _ (sized_negative R _ n _ Hn)).
Qed.

(** A positive count that is not a multiple of 4: the first adjustment
    loop reads [llm_usage] one past its end. *)
Lemma simulate_data_not_multiple (n seed : Z) (g : rng_state R) :
  valid_seed seed -> (0 < n)%Z -> (n mod 4 <> 0)%Z ->
  (simulate_data R n seed g).1
  = Raise (out_of_bounds (Z.to_nat (4 * (n / 4))) (Z.to_nat (4 * (n / 4)))).
Proof.
  intros Hs Hpos Hm.
  assert (Hn : (0 <= n)%Z) by lia.
  destruct (flags_short [1; 1; 0; 0]%Z n eq_refl Hpos Hm) as [Lllm Hlt].
  destruct (flags_short [1; 0; 1; 0]%Z n eq_refl Hpos Hm) as [Lherbal _].
  unfold simulate_data, randint, choice, normal, uniform.
  rewrite (se_bind_Ok _ _ _ _ _ (np_random_seed_Ok R seed g Hs)).
  draw_step R Hn age s1 Lage Aage.
  draw_step R Hn gender s2 Lgender Agender.
  draw_step R Hn pe s3 Lpe Ape.
  cbv zeta.
  draw_step R Hn ise s4 Lise Aise.
  draw_step R Hn ia s5 Lia Aia.
  draw_step R Hn err s6 Lerr Aerr.
  draw_step R Hn ct s7 Lct Act.
  erewrite se_bind_Raise; cycle 1.
  { apply lift_Raise. unfold for_range, range.
    apply adjust_measures_overrun; simpl; lia. }
  simpl. by rewrite Lllm.
Qed.

(** The generator returns a table exactly for a valid seed and a count that
    is a non-negative multiple of 4, and then it is the specified table. *)
Lemma simulate_data_Ok_inv (n seed : Z) (g : rng_state R) (t : DataFrame) :
  (simulate_data R n seed g).1 = Ok t ->
  valid_seed seed /\ (0 <= n)%Z /\ (n mod 4 = 0)%Z
  /\ exists d, t = table_of n d /\ well_sized (Z.to_nat n) d /\ baselines_drawn R d.
Proof.
  intros Ht.
  destruct (decide (valid_seed seed)) as [Hs|Hs];
    [|by rewrite simulate_data_bad_seed in Ht].
  destruct (decide (n < 0)%Z) as [Hneg|Hn];
    [by rewrite simulate_data_negative in Ht|].
  destruct (decide (n mod 4 = 0)%Z) as [Hm|Hm].
  - destruct (simulate_data_returns n seed g Hs ltac:(lia) Hm) as (d & E & Hw & Hb).
    rewrite E in Ht. injection Ht as <-. eauto 10 with lia.
  - assert (0 < n)%Z.
    { destruct (decide (n = 0)%Z) as [->|]; [done|lia]. }
    by rewrite simulate_data_not_multiple in Ht.
Qed.

End GeneratorFacts.

(* ===================================================================== *)
(** * The generator: determinism, bounds, adjustments, balance, failures *)
(* ===================================================================== *)

Lemma valid_seed_42 : valid_seed 42.
Proof. unfold valid_seed. split; [done|by apply Z.ltb_lt]. Qed.

(** C1.  Two calls of [simulate_data] with the same count and seed give the
    same outcome (the same table, field for field, or the same exception),
    whatever state the global generator was in before each call: the call
    starts by seeding it, and every draw comes from it. *)
Theorem simulate_data_deterministic (R : RandomState) (n seed : Z)
    (g1 g2 : rng_state R) :
  (simulate_data R n seed g1).1 = (simulate_data R n seed g2).1.
Proof.
  destruct (decide (valid_seed seed)) as [Hs|Hs].
  - unfold simulate_data.
    by rewrite (se_bind_Ok _ _ _ _ _ (np_random_seed_Ok R seed g1 Hs)),
               (se_bind_Ok _ _ _ _ _ (np_random_seed_Ok R seed g2 Hs)).
  - by rewrite !simulate_data_bad_seed.
Qed.

(** With an accepted seed the generator is also left in the same state. *)
Lemma simulate_data_same_state (R : RandomState) (n seed : Z) (g1 g2 : rng_state R) :
  valid_seed seed -> simulate_data R n seed g1 = simulate_data R n seed g2.
Proof.
  intros Hs. unfold simulate_data.
  by rewrite (se_bind_Ok _ _ _ _ _ (np_random_seed_Ok R seed g1 Hs)),
             (se_bind_Ok _ _ _ _ _ (np_random_seed_Ok R seed g2 Hs)).
Qed.

Lemma adjusted_self_efficacy_not_nan (u : Z) (x : F64.t) :
  F64.is_nan x = false -> F64.is_nan (adjusted_self_efficacy u x) = false.
Proof.
  intros H. unfold adjusted_self_efficacy. destruct (u =? 1)%Z; [|done].
  by apply add_finite_not_nan.
Qed.

Lemma adjusted_anxiety_not_nan (u h : Z) (x : F64.t) :
  F64.is_nan x = false -> F64.is_nan (adjusted_anxiety u h x) = false.
Proof.
  intros H. unfold adjusted_anxiety.
  destruct (u =? 1)%Z, (h =? 1)%Z; try done;
    repeat apply sub_finite_not_nan; done.
Qed.

Lemma Forall_clip_imap (F : nat -> F64.t -> F64.t) (lo hi : F64.t) (l : list F64.t) :
  F64.leb lo hi = true ->
  Forall (fun x => F64.is_nan x = false) l ->
  (forall j x, F64.is_nan x = false -> F64.is_nan (F j x) = false) ->
  Forall (F64.within lo hi) ((fun x => F64.clip x lo hi) <$> imap F l).
Proof.
  intros Hlh Hl HF. apply Forall_forall. intros y Hy.
  apply list_elem_of_fmap in Hy as (x & -> & Hx).
  apply list_elem_of_lookup in Hx as (j & Hj).
  rewrite list_lookup_imap in Hj.
  destruct (l !! j) as [x0|] eqn:E; [|done]. simpl in Hj. injection Hj as <-.
  apply clip_within; [|done]. apply HF.
  rewrite Forall_forall in Hl. apply Hl. by eapply list_elem_of_lookup_2.
Qed.

(** C2.  Whenever [simulate_data] returns a table, every row has its final
    self-efficacy in [1, 5] and its final anxiety in [1, 4], whichever
    adjustments the row received; the normal draws are taken to be numbers. *)
Theorem simulate_data_finals_in_bounds (R : RandomState) (n seed : Z)
    (g : rng_state R) (t : DataFrame) :
  normal_gives_numbers R ->
  (simulate_data R n seed g).1 = Ok t ->
  finals_in_bounds t.
Proof.
  intros HR Ht.
  apply simulate_data_Ok_inv in Ht as (_ & _ & _ & d & -> & _ & Hse & Han).
  eexists _, _. split; [reflexivity|]. split; [reflexivity|]. split.
  - apply Forall_clip_imap; [done| |intros; by apply adjusted_self_efficacy_not_nan].
    eapply Forall_impl; [exact Hse|]. intros x [s ->]. by apply HR.
  - apply Forall_clip_imap; [done| |intros; by apply adjusted_anxiety_not_nan].
    eapply Forall_impl; [exact Han|]. intros x [s ->]. by apply HR.
Qed.

Lemma mul_finite_not_nan (x y : F64.t) :
  F64.is_finite x = true -> F64.is_finite y = true -> F64.is_nan (F64.mul x y) = false.
Proof.
  destruct x as [sx|sx| |sx mx ex], y as [sy|sy| |sy my ey]; try done.
  intros _ _. unfold F64.mul, SFmul. by apply binary_round_aux_not_nan.
Qed.

Lemma add_finite_l_not_nan (x y : F64.t) :
  F64.is_finite x = true -> F64.is_nan y = false -> F64.is_nan (F64.add x y) = false.
Proof.
  destruct x as [sx|sx| |sx mx ex], y as [sy|sy| |sy my ey]; try done.
  - intros _ _. by destruct sx, sy.
  - intros _ _. unfold F64.add, SFadd. apply binary_normalize_not_nan.
Qed.

Lemma counter_rng_gives_numbers : normal_gives_numbers counter_rng.
Proof.
  intros loc scale s Hloc Hscale. simpl.
  apply add_finite_l_not_nan; [done|]. apply mul_finite_not_nan; [done|].
  unfold counter_offset. by destruct (s mod 3)%Z as [|[]|].
Qed.

Lemma sample_table_generated : (simulate_data counter_rng 4 42 0%Z).1 = Ok sample_table.
Proof. vm_compute. reflexivity. Qed.

(** The bounds hold on the sample table. *)
Lemma simulate_data_finals_in_bounds_witness : finals_in_bounds sample_table.
Proof.
  apply (simulate_data_finals_in_bounds counter_rng 4 42 0%Z sample_table).
  - exact counter_rng_gives_numbers.
  - exact sample_table_generated.
Defined.

(** C3.  In every row of a returned table the stored final self-efficacy and
    final anxiety are the clip of the baseline with the row's adjustments
    already added (LLM first, then herbal): the clip is the last step. *)
Theorem simulate_data_clips_after_adjusting (R : RandomState) (n seed : Z)
    (g : rng_state R) (t : DataFrame) :
  (simulate_data R n seed g).1 = Ok t ->
  finals_clip_adjusted (Z.to_nat n) t.
Proof.
  intros Ht.
  apply simulate_data_Ok_inv in Ht as (_ & Hn & Hm & d & -> & Hw & _).
  destruct Hw as (_ & _ & _ & Lse & Lan & _).
  pose proof (flags_length [1; 1; 0; 0]%Z n eq_refl Hn Hm) as Lllm.
  pose proof (flags_length [1; 0; 1; 0]%Z n eq_refl Hn Hm) as Lherbal.
  exists (list_times [1; 1; 0; 0]%Z (n / 4)), (list_times [1; 0; 1; 0]%Z (n / 4)).
  eexists _, _, _, _.
  do 6 (split; [reflexivity|]).
  do 4 (split; [assumption|]).
  intros i Hi.
  destruct (lookup_lt_is_Some_2 (list_times [1; 1; 0; 0]%Z (n / 4)) i) as [u Eu]; [lia|].
  destruct (lookup_lt_is_Some_2 (list_times [1; 0; 1; 0]%Z (n / 4)) i) as [h Eh]; [lia|].
  destruct (lookup_lt_is_Some_2 (d_initial_self_efficacy d) i) as [b Eb]; [lia|].
  destruct (lookup_lt_is_Some_2 (d_initial_anxiety d) i) as [a Ea]; [lia|].
  exists u, h, b, a. do 4 (split; [assumption|]).
  rewrite !list_lookup_fmap, !list_lookup_imap, Eb, Ea. simpl.
  by rewrite (list_lookup_total_correct _ _ _ Eu), (list_lookup_total_correct _ _ _ Eh).
Qed.

(** The sample table is clipped after adjusting. *)
Lemma simulate_data_clips_after_adjusting_witness : finals_clip_adjusted 4 sample_table.
Proof.
  apply (simulate_data_clips_after_adjusting counter_rng 4 42 0%Z sample_table).
  exact sample_table_generated.
Defined.

(** The adjustments are added one after the other, each sum rounded, in the
    order the specification fixes (LLM, then herbal): in binary64 this is
    not the same as adding their total at once. *)
Example adjustments_are_added_in_order :
  adjusted_anxiety 1 1 (F64.of_Z 3)
  <> F64.add (F64.of_Z 3) (F64.add (SFopp F64.c0_4) (SFopp F64.c0_3)).
Proof. vm_compute. discriminate. Qed.

(** Clipping the baseline first would lose the adjustment at the boundary:
    a baseline of 5.5 with the LLM flag is stored as 5, not as 5.5. *)
Example clip_then_adjust_differs :
  let baseline := F64.add (F64.of_Z 5) F64.c0_5 in
  F64.clip (adjusted_self_efficacy 1 baseline) (F64.of_Z 1) (F64.of_Z 5) = F64.of_Z 5
  /\ adjusted_self_efficacy 1 (F64.clip baseline (F64.of_Z 1) (F64.of_Z 5))
     = F64.add (F64.of_Z 5) F64.c0_5.
Proof. vm_compute. split; reflexivity. Qed.

(** C4.  With 40 participants and seed 42 the returned table has exactly 20
    ones and 20 zeros in [LLMUsage] and in [HerbalBlend]. *)
Theorem simulate_data_40_42_balanced (R : RandomState) (g : rng_state R) :
  exists t, (simulate_data R 40 42 g).1 = Ok t
            /\ balanced 20 20 "LLMUsage" t /\ balanced 20 20 "HerbalBlend" t.
Proof.
  destruct (simulate_data_returns R 40 42 g valid_seed_42 ltac:(done) eq_refl)
    as (d & E & _ & _).
  exists (table_of 40 d). split; [exact E|].
  split; eexists; (split; [reflexivity|]); repeat split; reflexivity.
Qed.

(** C5, at the failing input.  With 5 participants the generator does not
    return a truncated table: the first adjustment loop reads [llm_usage[4]]
    in an array of 4 flags and the call ends in an [IndexError]. *)
Theorem simulate_data_5_raises_IndexError (R : RandomState) (g : rng_state R) :
  (simulate_data R 5 42 g).1
  = Raise (PyExn IndexError "index 4 is out of bounds for axis 0 with size 4").
Proof.
  rewrite (simulate_data_not_multiple R 5 42 g valid_seed_42); [|done|done].
  vm_compute. reflexivity.
Qed.

(** X1.  For a count up to a million, the generator returns a table exactly
    when the seed is accepted and the count is a non-negative multiple of
    4. *)
Lemma simulate_data_returns_iff (R : RandomState) (n seed : Z) (g : rng_state R) :
  modest_count n ->
  returns (simulate_data R n seed g).1
  <-> valid_seed seed /\ (0 <= n)%Z /\ (n mod 4 = 0)%Z.
Proof.
  intros _. split.
  - intros [t Ht]. apply simulate_data_Ok_inv in Ht. tauto.
  - intros (Hs & Hn & Hm).
    destruct (simulate_data_returns R n seed g Hs Hn Hm) as (d & E & _).
    by exists (table_of n d).
Qed.

Lemma simulate_data_returns_iff_witness :
  returns (simulate_data counter_rng 4 42 0%Z).1
  <-> valid_seed 42 /\ (0 <= 4)%Z /\ (4 mod 4 = 0)%Z.
Proof.
  apply (simulate_data_returns_iff counter_rng 4 42 0%Z).
  unfold modest_count. lia.
Defined.

(** Every failure of the generator, by class. *)
Lemma simulate_data_failures (R : RandomState) (n seed : Z) (g : rng_state R) :
  valid_seed seed ->
  ((n < 0)%Z -> raises ValueError (simulate_data R n seed g).1)
  /\ ((0 < n)%Z -> (n mod 4 <> 0)%Z -> raises IndexError (simulate_data R n seed g).1)
  /\ (simulate_data R 0 seed g).1 = Ok (table_of 0 (RawDraws [] [] [] [] [] [] [] [] [] [] [] [] [] [] [])).
Proof.
  intros Hs. split; [|split].
  - intros Hn. rewrite simulate_data_negative by done. by eexists.
  - intros Hn Hm. rewrite simulate_data_not_multiple by done. by eexists.
  - destruct (simulate_data_returns R 0 seed g Hs ltac:(done) eq_refl)
      as (d & E & Hw & _).
    rewrite E. do 2 f_equal. destruct d. unfold well_sized in Hw. simpl in Hw.
    repeat match goal with
           | H : _ /\ _ |- _ => destruct H
           | H : length ?l = Z.to_nat 0 |- _ => apply nil_length_inv in H; subst l
           end.
    reflexivity.
Qed.

(* ===================================================================== *)
(** * Preprocessing: which columns survive                               *)
(* ===================================================================== *)

Lemma column_None (name : string) (df : DataFrame) :
  name ∉ column_names df -> column name df = None.
Proof.
  induction df as [|[k c] df IH]; intros H; simpl; [done|].
  unfold column_names in H. simpl in H. apply not_elem_of_cons in H as [Hk Hdf].
  destruct (String.eqb_spec k name) as [->|_]; [done|]. by apply IH.
Qed.

Lemma column_app_r (name : string) (df1 df2 : DataFrame) :
  name ∉ column_names df1 -> column name (df1 ++ df2)%list = column name df2.
Proof.
  induction df1 as [|[k c] df1 IH]; intros H; simpl; [done|].
  unfold column_names in H. simpl in H. apply not_elem_of_cons in H as [Hk Hdf].
  destruct (String.eqb_spec k name) as [->|_]; [done|]. by apply IH.
Qed.

Lemma df_drop_Ok (labels : list string) (df f : DataFrame) :
  df_drop labels df = Ok f -> f = filter (fun kc => kc.1 ∉ labels) df.
Proof.
  unfold df_drop. destruct (filter _ labels); [|done]. by intros [= <-].
Qed.

Lemma filter_names_not_in (labels : list string) (df : DataFrame) (name : string) :
  name ∈ column_names (filter (fun kc => kc.1 ∉ labels) df) ->
  name ∈ column_names df /\ name ∉ labels.
Proof.
  unfold column_names. intros H.
  apply list_elem_of_fmap in H as ([k c] & -> & Hin).
  apply list_elem_of_filter in Hin as [Hk Hin]. split; [|done].
  apply list_elem_of_fmap. by exists (k, c).
Qed.

Lemma df_select_names (labels : list string) (df sub : DataFrame) :
  df_select labels df = Ok sub -> column_names sub = labels.
Proof.
  revert sub. induction labels as [|l labels IH]; intros sub; simpl.
  - by intros [= <-].
  - destruct (column l df); [|done].
    destruct (df_select labels df) as [sub'|]; simpl; [|done].
    intros [= <-]. unfold column_names in *. simpl. f_equal. by apply IH.
Qed.

Lemma df_select_one (l : string) (df sub : DataFrame) :
  df_select [l] df = Ok sub -> exists c, column l df = Some c /\ sub = [(l, c)].
Proof.
  simpl. destruct (column l df) as [c|]; [|done]. intros [= <-]. by exists c.
Qed.

Section PreprocessingFacts.

Variable pandas2 : bool.
Variable repr_float : F64.t -> string.
Variable fit_transform : nat -> list (list F64.t) -> pyres (list (list F64.t)).

(** The label of an indicator column starts with the encoded column's
    label and an underscore. *)
Lemma dummies_of_names (prefix : string) (c : series) (name : string) :
  name ∈ column_names (dummies_of pandas2 repr_float prefix c) ->
  exists v, name = prefix ++ "_" ++ v.
Proof.
  unfold column_names. intros H.
  apply list_elem_of_fmap in H as ([k col] & -> & Hin).
  destruct c; simpl in Hin; unfold dummies in Hin;
    apply list_elem_of_fmap in Hin as (v & [= -> _] & _); eauto.
Qed.

Lemma get_dummies_names (df f : DataFrame) (cols : list string) (name : string) :
  get_dummies pandas2 repr_float df cols = Ok f ->
  name ∈ column_names f ->
  (name ∈ column_names df /\ name ∉ cols)
  \/ exists prefix v, prefix ∈ cols /\ name = prefix ++ "_" ++ v.
Proof.
  unfold get_dummies.
  destruct (df_select cols df) as [to_encode|] eqn:E; simpl; [|done].
  intros [= <-] H. unfold column_names in H.
  rewrite fmap_app in H. apply elem_of_app in H as [H|H].
  - left. by apply filter_names_not_in.
  - right. apply df_select_names in E.
    apply list_elem_of_fmap in H as ([k col] & -> & Hin).
    apply list_elem_of_join in Hin as (block & Hk & Hblock).
    apply list_elem_of_fmap in Hblock as ([p c] & -> & Hp).
    destruct (dummies_of_names p c k) as [v Hv].
    { apply list_elem_of_fmap. by exists (k, col). }
    exists p, v. split; [|done].
    rewrite <- E. apply list_elem_of_fmap. by exists (p, c).
Qed.

Lemma assign_numeric_names (df : DataFrame) (values : list (list F64.t)) :
  column_names (assign_numeric df values) = column_names df.
Proof.
  unfold column_names. revert values.
  induction df as [|[k c] df IH]; intros values; simpl; [done|].
  destruct (is_number c); [destruct values|]; simpl; by rewrite ?IH.
Qed.

Lemma scale_numeric_names (f f' : DataFrame) :
  scale_numeric fit_transform f = Ok f' -> column_names f' = column_names f.
Proof.
  unfold scale_numeric.
  destruct (fit_transform _ _) as [scaled|]; simpl; [|done].
  destruct (same_shape _ _ _); [|done].
  intros [= <-]. apply assign_numeric_names.
Qed.

(** What [preprocess_data] returns: the scaled feature frame, which has none
    of the four dropped labels, followed by the untouched target. *)
Lemma preprocess_data_Ok_inv (data p : DataFrame) :
  preprocess_data pandas2 repr_float fit_transform data = Ok p ->
  exists features perf,
    p = (features ++ [("Performance", perf)])%list
    /\ column "Performance" data = Some perf
    /\ forall l,
         l ∈ ["ParticipantID"; "ErrorsIdentified"; "CompletionTime"; "Performance"] ->
         l ∉ column_names features.
Proof.
  unfold preprocess_data.
  destruct (df_drop _ data) as [f1|] eqn:E1; simpl; [|done].
  destruct (column "Performance" data) as [perf|] eqn:E2; simpl; [|done].
  destruct (get_dummies _ _ f1 _) as [f2|] eqn:E3; simpl; [|done].
  destruct (scale_numeric _ f2) as [f3|] eqn:E4; simpl; [|done].
  intros [= <-]. exists f3, perf. split; [done|]. split; [done|].
  intros l Hl Hin.
  rewrite (scale_numeric_names _ _ E4) in Hin.
  apply df_drop_Ok in E1. subst f1.
  destruct (get_dummies_names _ _ _ _ E3 Hin) as [[H _]|(prefix & v & Hp & Hv)].
  - apply filter_names_not_in in H as [_ H]. by apply H.
  - repeat match goal with
           | H : _ ∈ _ :: _ |- _ => apply elem_of_cons in H as [->|H]
           | H : _ ∈ [] |- _ => by apply elem_of_nil in H
           end; cbv in Hv; discriminate.
Qed.

End PreprocessingFacts.

(** C7.  The table [preprocess_data] returns for a generated table has no
    [ParticipantID], [ErrorsIdentified] or [CompletionTime] column, and its
    [Performance] column is the input's, values and dtype unchanged. *)
Theorem preprocess_data_passes_target (pandas2 : bool) (repr_float : F64.t -> string)
    (fit_transform : nat -> list (list F64.t) -> pyres (list (list F64.t)))
    (R : RandomState) (n seed : Z) (g : rng_state R) (t p : DataFrame) :
  (simulate_data R n seed g).1 = Ok t ->
  preprocess_data pandas2 repr_float fit_transform t = Ok p ->
  target_passed_through t p.
Proof.
  intros _ Hp.
  apply preprocess_data_Ok_inv in Hp as (features & perf & -> & Hperf & Hnot).
  unfold target_passed_through.
  rewrite !column_app_r by (apply Hnot; set_solver).
  repeat split; try reflexivity. by exists perf.
Qed.

Lemma sample_processed_computed :
  preprocess_data true (fun _ => "") toy_scaler sample_table = Ok sample_processed.
Proof. vm_compute. reflexivity. Qed.

(** The sample table and its processed form. *)
Lemma preprocess_data_passes_target_witness :
  target_passed_through sample_table sample_processed.
Proof.
  apply (preprocess_data_passes_target true (fun _ => "") toy_scaler
           counter_rng 4 42 0%Z sample_table sample_processed).
  - exact sample_table_generated.
  - exact sample_processed_computed.
Defined.

(* ===================================================================== *)
(** * Regression: no rank test of its own                                *)
(* ===================================================================== *)

(** C8, as the code has it.  [perform_regression_analysis] makes no rank test
    and has no error result of its own: it returns exactly what [OLS.fit]
    returns on the design built by patsy and [add_constant], and it raises
    exactly what one of these three calls raises. *)
Theorem perform_regression_analysis_passes_through (B : OLSBackend)
    (data : DataFrame) (dependent_variable : string) :
  let formula := regression_formula dependent_variable in
  (forall r,
      perform_regression_analysis B data dependent_variable = Ok r
      <-> exists y X X', dmatrices B formula data = Ok (y, X)
                         /\ add_constant B X = Ok X' /\ OLS_fit B y X' = Ok r)
  /\ (forall e,
        perform_regression_analysis B data dependent_variable = Raise e
        <-> dmatrices B formula data = Raise e
            \/ (exists y X, dmatrices B formula data = Ok (y, X)
                            /\ add_constant B X = Raise e)
            \/ (exists y X X', dmatrices B formula data = Ok (y, X)
                               /\ add_constant B X = Ok X'
                               /\ OLS_fit B y X' = Raise e)).
Proof.
  unfold perform_regression_analysis. cbv zeta.
  destruct (dmatrices B _ data) as [[y X]|e0]; simpl;
    [destruct (add_constant B X) as [X'|e1] eqn:E; simpl|];
    split; intros ?; split; intros H;
    repeat match type of H with
           | _ \/ _ => destruct H as [H|H]
           | exists _, _ => destruct H as [? H]
           | _ /\ _ => let H' := fresh in destruct H as [H' H]; try injection H' as <- <-
           end;
    try congruence; try (injection H as <-); eauto 10.
Qed.

(** C8, as the specification states it, fails: [InitialAnxiety] is constant
    in [constant_anxiety_table], and with a backend whose fit accepts every
    design (as a pseudo-inverse fit does) the call returns a result. *)
Lemma constant_predictor_gets_a_result :
  constant_predictor constant_anxiety_table
  /\ returns (perform_regression_analysis reference_backend
                constant_anxiety_table "Performance").
Proof.
  split.
  - exists "InitialAnxiety", [F64.c2_5; F64.c2_5; F64.c2_5; F64.c2_5].
    split; [set_solver|]. split; reflexivity.
  - eexists. vm_compute. reflexivity.
Qed.

(** Hence no rule "a constant predictor is refused" holds of the function. *)
Lemma constant_predictor_not_refused : ~ constant_predictor_refused.
Proof.
  intros H.
  destruct (H reference_backend constant_anxiety_table "Performance") as [e He].
  - exists "InitialAnxiety", [F64.c2_5; F64.c2_5; F64.c2_5; F64.c2_5].
    split; [set_solver|]. split; reflexivity.
  - vm_compute in He. discriminate He.
Qed.

(* ===================================================================== *)
(** * The two adapters                                                   *)
(* ===================================================================== *)

(** C9.  When the IPMA routine fails (the package is not available, or the
    call raises an [Exception]), [run_IPMA_in_r] returns the empty dict,
    raises nothing, and prints the cause. *)
Theorem run_IPMA_in_r_degrades (B : RBridge) (IPMA_r : option (ipma_package B))
    (data : DataFrame) (x_columns : list string) (y_column cause : string)
    (out : list string) :
  ipma_routine_fails B IPMA_r data x_columns y_column cause ->
  run_IPMA_in_r B IPMA_r data x_columns y_column out = (Ok ∅, (out ++ [cause])%list).
Proof.
  intros [[-> ->]|(IPMA & r_data & e & -> & Hconv & Hcall & Hexn & ->)].
  - reflexivity.
  - unfold run_IPMA_in_r, se_bind, try_except, lift, catch_Exception.
    cbn [fst snd]. rewrite Hconv. cbn [fst snd]. rewrite Hcall. cbn [fst snd].
    rewrite Hexn. reflexivity.
Qed.

(** A routine that stops with an R error: the result is empty and the error
    is printed. *)
Lemma run_IPMA_in_r_degrades_witness :
  run_IPMA_in_r no_r_bridge (Some failing_ipma) sample_table ["LLMUsage"]
    "Performance" []
  = (Ok ∅, ["Error running IPMA in R: could not find function"]).
Proof.
  apply (run_IPMA_in_r_degrades no_r_bridge (Some failing_ipma) sample_table
           ["LLMUsage"] "Performance"
           "Error running IPMA in R: could not find function" []).
  right. exists failing_ipma, tt, (PyExn RRuntimeError "could not find function").
  repeat split; reflexivity.
Defined.

(** Without the package the result is empty as well. *)
Example run_IPMA_in_r_without_package :
  run_IPMA_in_r no_r_bridge None sample_table ["LLMUsage"] "Performance" []
  = (Ok ∅, ["IPMA R package is not available. Skipping IPMA analysis."]).
Proof. reflexivity. Qed.

(** When both imports fail and the installation attempt returns, the module
    is left with [IPMA_r = None]. *)
Lemma setup_IPMA_r_not_installed (B : RBridge) (e1 e2 : pyexn) (out : list string) :
  is_Exception e1 = true -> is_Exception e2 = true ->
  (setup_IPMA_r B (Raise e1) (Ok tt) (Raise e2) out).1 = Ok None.
Proof.
  intros H1 H2.
  unfold setup_IPMA_r, se_bind, try_except, lift, catch_Exception.
  cbn [fst snd]. rewrite H1. cbn [fst snd]. by rewrite H2.
Qed.

(** A result of a routine that ran is never the empty dict. *)
Lemma full_result_not_empty (B : RBridge) (v : pyval B) (m : gmap string (pyval B)) :
  <["effect_sizes" := v]> m <> ∅.
Proof. apply insert_non_empty. Qed.

(** The part of C10 that holds: a fit that raises an [Exception] gives
    [(None, None)] and the cause is printed. *)
Lemma perform_sem_ipma_fit_failure (E : SemEngine) (data : DataFrame)
    (model_specification : string) (model : sem_model E) (e : pyexn)
    (out : list string) :
  sem_Model E model_specification = Ok model ->
  sem_fit E model data = Raise e ->
  is_Exception e = true ->
  perform_sem_ipma E data model_specification out
  = (Ok (None, None), (out ++ [("SEM Fit Error: " ++ exn_msg e)%string])%list).
Proof.
  intros Hm Hf He.
  unfold perform_sem_ipma, se_bind, try_except, lift, catch_Exception.
  cbn [fst snd]. rewrite Hm. cbn [fst snd]. rewrite Hf. cbn [fst snd].
  by rewrite He.
Qed.

(** C10, at the failing input.  [semopy.Model(model_specification)] is called
    before the first [try]: when it raises, the exception leaves
    [perform_sem_ipma] and nothing is returned or printed. *)
Theorem perform_sem_ipma_constructor_escapes (E : SemEngine) (data : DataFrame)
    (model_specification : string) (e : pyexn) (out : list string) :
  sem_Model E model_specification = Raise e ->
  perform_sem_ipma E data model_specification out = (Raise e, out).
Proof.
  intros Hm. unfold perform_sem_ipma, se_bind, lift. cbn [fst snd].
  by rewrite Hm.
Qed.

(** A description without a relation operator. *)
Lemma perform_sem_ipma_constructor_escapes_witness :
  perform_sem_ipma toy_semopy sample_table "Performance LLMUsage" []
  = (Raise (PyExn SyntaxError "Invalid syntax for line: Performance LLMUsage"), []).
Proof.
  apply (perform_sem_ipma_constructor_escapes toy_semopy sample_table
           "Performance LLMUsage"
           (PyExn SyntaxError "Invalid syntax for line: Performance LLMUsage") []).
  reflexivity.
Defined.

(* ===================================================================== *)
(** * Preprocessing: the rows are kept                                   *)
(* ===================================================================== *)

Ltac not_a_label :=
  let H := fresh in
  intros H;
  repeat (apply elem_of_cons in H as [H|H]; [discriminate H|]);
  by apply elem_of_nil in H.

Lemma all_rows_filter (P : string * series -> Prop) `{!forall kc, Decision (P kc)}
    (n : nat) (df : DataFrame) :
  all_rows n df -> all_rows n (filter P df).
Proof.
  unfold all_rows. rewrite !Forall_forall. intros Hall kc Hin.
  apply list_elem_of_filter in Hin as [_ Hin]. by apply Hall.
Qed.

Lemma all_rows_nrows (n : nat) (df : DataFrame) :
  all_rows n df -> df <> [] -> nrows df = n.
Proof.
  intros H Hne. destruct df as [|[k c] df]; [done|].
  by apply Forall_cons in H as [H _].
Qed.

Lemma column_filter_labels (labels : list string) (name : string) (df : DataFrame) :
  name ∉ labels ->
  column name (filter (fun kc => kc.1 ∉ labels) df) = column name df.
Proof.
  intros Hn. induction df as [|[k c] df IH]; [done|].
  rewrite filter_cons. simpl. destruct (decide (k ∉ labels)) as [Hk|Hk]; simpl.
  - by rewrite IH.
  - rewrite IH. destruct (String.eqb_spec k name) as [->|_]; [|done].
    by destruct Hk.
Qed.

Lemma bind_Ok {A B} (a : A) (k : A -> pyres B) : (Ok a ≫= k) = k a.
Proof. reflexivity. Qed.

Lemma df_select_two (a b : string) (df : DataFrame) (ca cb : series) :
  column a df = Some ca -> column b df = Some cb ->
  df_select [a; b] df = Ok [(a, ca); (b, cb)].
Proof. intros Ha Hb. simpl. by rewrite Ha, Hb. Qed.

Lemma column_all_rows (n : nat) (df : DataFrame) (name : string) (c : series) :
  all_rows n df -> column name df = Some c -> series_len c = n.
Proof.
  unfold all_rows. induction df as [|[k c'] df IH]; simpl; [done|].
  intros H. apply Forall_cons in H as [Hc Hdf].
  destruct (String.eqb k name); [by intros [= <-]|by apply IH].
Qed.

Lemma df_drop_returns (labels : list string) (df : DataFrame) :
  Forall (fun l => l ∈ column_names df) labels ->
  df_drop labels df = Ok (filter (fun kc => kc.1 ∉ labels) df).
Proof.
  intros H. unfold df_drop.
  replace (filter (fun l => ¬ has_column df l) labels) with (@nil string); [done|].
  symmetry. apply elem_of_nil_inv. intros l Hl.
  apply list_elem_of_filter in Hl as [Hno Hl].
  rewrite Forall_forall in H. apply Hno. unfold has_column.
  apply bool_decide_pack. by apply H.
Qed.

Lemma table_of_names (n : Z) (d : raw_draws) :
  column_names (table_of n d)
  = ["ParticipantID"; "Age"; "Gender"; "ProgrammingExperience"; "LLMUsage";
     "HerbalBlend"; "InitialSelfEfficacy"; "FinalSelfEfficacy"; "InitialAnxiety";
     "FinalAnxiety"; "ErrorsIdentified"; "CompletionTime"; "Performance";
     "EEGAlpha"; "EEGBeta"; "ECG_HR"; "EDA_SCR"; "POGFixations";
     "POGFixationDuration"; "POGPupilDiameter"; "POGBlinkRate"].
Proof. reflexivity. Qed.

Lemma table_of_all_rows (n : Z) (d : raw_draws) :
  (0 <= n)%Z -> (n mod 4 = 0)%Z -> well_sized (Z.to_nat n) d ->
  all_rows (Z.to_nat n) (table_of n d).
Proof.
  intros Hn Hm Hw.
  pose proof (flags_length [1; 1; 0; 0]%Z n eq_refl Hn Hm) as Lllm.
  pose proof (flags_length [1; 0; 1; 0]%Z n eq_refl Hn Hm) as Lherbal.
  unfold well_sized in Hw.
  repeat match goal with H : _ /\ _ |- _ => destruct H end.
  unfold all_rows, table_of. cbv zeta.
  repeat (apply Forall_cons; split; [|]); try apply Forall_nil;
    cbn [series_len snd fst];
    rewrite ?np_array_len, ?length_fmap, ?length_imap, ?length_zip_with,
      ?length_fmap, ?length_imap, ?participant_ids_length; lia.
Qed.

Section RowFacts.

Variable pandas2 : bool.
Variable repr_float : F64.t -> string.
Variable fit_transform : nat -> list (list F64.t) -> pyres (list (list F64.t)).

Lemma indicator_len (l : list bool) : series_len (indicator pandas2 l) = length l.
Proof. unfold indicator. destruct pandas2; simpl; by rewrite ?length_fmap. Qed.

Lemma dummies_of_all_rows (prefix : string) (c : series) :
  all_rows (series_len c) (dummies_of pandas2 repr_float prefix c).
Proof.
  unfold all_rows. apply Forall_forall. intros [k col] Hin.
  destruct c; simpl in Hin; unfold dummies in Hin;
    apply list_elem_of_fmap in Hin as (v & [= -> ->] & _); simpl;
    by rewrite indicator_len, length_fmap.
Qed.

Lemma assign_numeric_all_rows (n : nat) (df : DataFrame) (values : list (list F64.t)) :
  all_rows n df -> Forall (fun v : list F64.t => length v = n) values ->
  all_rows n (assign_numeric df values).
Proof.
  unfold all_rows. revert values.
  induction df as [|[k c] df IH]; intros values Hdf Hv; simpl; [done|].
  apply Forall_cons in Hdf as [Hc Hdf].
  destruct (is_number c).
  - destruct values as [|v vs]; [by apply Forall_cons|].
    apply Forall_cons in Hv as [Hv Hvs]. apply Forall_cons. split; [done|].
    by apply IH.
  - apply Forall_cons. split; [done|]. by apply IH.
Qed.

Lemma to_float64_length (c : series) :
  is_number c = true -> length (to_float64 c) = series_len c.
Proof. destruct c; simpl; try done. intros _. by rewrite length_fmap. Qed.

Lemma same_shape_rows (n k : nat) (values : list (list F64.t)) :
  same_shape n k values = true -> Forall (fun v : list F64.t => length v = n) values.
Proof.
  unfold same_shape. intros H. apply andb_prop in H as [_ H].
  apply Forall_forall. intros v Hv.
  rewrite forallb_forall in H. apply Nat.eqb_eq, H. by apply list_elem_of_In.
Qed.

(** Scaling a frame that has rows and a numeric column succeeds and keeps
    the rows. *)
Lemma scale_numeric_returns (n : nat) (f : DataFrame) (k : string) (c : series) :
  scaler_keeps_shape fit_transform ->
  0 < n -> all_rows n f -> (k, c) ∈ f -> is_number c = true ->
  exists f', scale_numeric fit_transform f = Ok f' /\ all_rows n f'.
Proof.
  intros Hft Hn Hf Hin Hc.
  assert (Hrows : nrows f = n).
  { apply all_rows_nrows; [done|]. intros ->. by apply elem_of_nil in Hin. }
  unfold scale_numeric. rewrite Hrows.
  destruct (Hft n ((fun kc => to_float64 kc.2) <$> filter (fun kc => is_number kc.2) f))
    as (out & -> & Hshape); [done| |  |].
  - intros Hnil. apply fmap_nil_inv in Hnil.
    assert ((k, c) ∈ filter (fun kc : string * series => is_number kc.2) f) as Hk.
    { apply list_elem_of_filter. split; [simpl; by rewrite Hc|done]. }
    rewrite Hnil in Hk. by apply elem_of_nil in Hk.
  - apply Forall_forall. intros v Hv.
    apply list_elem_of_fmap in Hv as ([k' c'] & -> & Hk').
    apply list_elem_of_filter in Hk' as [Hnum Hk']. simpl in *.
    rewrite to_float64_length by (by destruct (is_number c')).
    unfold all_rows in Hf. rewrite Forall_forall in Hf. by apply (Hf (k', c')).
  - simpl. rewrite length_fmap in Hshape. rewrite Hshape.
    eexists. split; [done|].
    apply assign_numeric_all_rows; [done|]. by eapply same_shape_rows.
Qed.

(** [preprocess_data] on any frame with rows that has the columns the
    notebook names: it returns, and every column keeps the rows. *)
Lemma preprocess_data_returns (n : nat) (data : DataFrame)
    (gender experience : list string) (age : list Z) (perf : series) :
  scaler_keeps_shape fit_transform ->
  0 < n -> all_rows n data ->
  Forall (fun l => l ∈ column_names data)
    ["ParticipantID"; "ErrorsIdentified"; "CompletionTime"; "Performance"] ->
  column "Performance" data = Some perf ->
  column "Gender" data = Some (ObjCol gender) ->
  column "ProgrammingExperience" data = Some (ObjCol experience) ->
  ("Age", IntCol age) ∈ data ->
  exists p, preprocess_data pandas2 repr_float fit_transform data = Ok p
            /\ all_rows n p /\ p <> [].
Proof.
  intros Hft Hn Hrows Hlabels Hperf Hg He Hage.
  unfold preprocess_data.
  rewrite (df_drop_returns _ _ Hlabels), bind_Ok.
  cbn [df_select]. rewrite Hperf, !bind_Ok.
  set (labels := ["ParticipantID"; "ErrorsIdentified"; "CompletionTime"; "Performance"]).
  set (f1 := filter (fun kc : string * series => kc.1 ∉ labels) data).
  assert (H1 : all_rows n f1) by (by apply all_rows_filter).
  unfold get_dummies.
  rewrite (df_select_two "Gender" "ProgrammingExperience" f1
             (ObjCol gender) (ObjCol experience));
    [|unfold f1; rewrite column_filter_labels by not_a_label; done..].
  rewrite bind_Ok. cbn [fmap list_fmap mjoin list_join fst snd].
  set (cols := ["Gender"; "ProgrammingExperience"]).
  set (f2 := (filter (fun kc : string * series => kc.1 ∉ cols) f1 ++ _)%list).
  assert (H2 : all_rows n f2).
  { unfold f2, all_rows. rewrite !Forall_app. split; [by apply all_rows_filter|].
    split; [|split; [|done]].
    - rewrite <- (column_all_rows _ _ _ _ Hrows Hg).
      apply dummies_of_all_rows.
    - rewrite <- (column_all_rows _ _ _ _ Hrows He).
      apply dummies_of_all_rows. }
  rewrite bind_Ok.
  destruct (scale_numeric_returns n f2 "Age" (IntCol age) Hft)
    as (f3 & -> & H3); [done|done| |done|].
  { unfold f2. apply elem_of_app. left.
    apply list_elem_of_filter. split; [simpl; not_a_label|].
    apply list_elem_of_filter. split; [simpl; not_a_label|done]. }
  rewrite bind_Ok. eexists. split; [done|]. split; [|by destruct f3].
  unfold all_rows. apply Forall_app. split; [done|].
  apply Forall_cons. split; [|done]. simpl.
  by apply (column_all_rows _ _ _ _ Hrows Hperf).
Qed.

(** X2.  The row-count half of C6, which also shows that C7 speaks of tables that
    exist: for every generated table with at least one participant,
    [preprocess_data] returns a table, and each of its columns has as many
    rows as the input. *)
Lemma preprocess_data_keeps_rows (R : RandomState) (n seed : Z)
    (g : rng_state R) (t : DataFrame) :
  scaler_keeps_shape fit_transform ->
  (simulate_data R n seed g).1 = Ok t -> (0 < n)%Z ->
  exists p, preprocess_data pandas2 repr_float fit_transform t = Ok p
            /\ all_rows (Z.to_nat n) p /\ nrows p = nrows t.
Proof.
  intros Hft Ht Hpos.
  apply simulate_data_Ok_inv in Ht as (_ & Hn & Hm & d & -> & Hw & _).
  pose proof (table_of_all_rows n d Hn Hm Hw) as Hrows.
  destruct (preprocess_data_returns (Z.to_nat n) (table_of n d)
              (d_gender d) (d_programming_experience d) (d_age d)
              (FloatCol (zip_with performance_of
                 (Z.max 0 <$> imap (fun j => adjusted_errors
                    (list_times [1; 1; 0; 0]%Z (n / 4) !!! j)
                    (list_times [1; 0; 1; 0]%Z (n / 4) !!! j)) (d_errors_identified d))
                 (F64.maximum (F64.of_Z 60) <$> imap (fun j => adjusted_time
                    (list_times [1; 1; 0; 0]%Z (n / 4) !!! j)) (d_completion_time d))))
              Hft)
    as (p & Hp & Hall & Hne); try done.
  - lia.
  - rewrite table_of_names. repeat (apply Forall_cons; split; [set_solver|]).
    by apply Forall_nil.
  - apply list_elem_of_lookup. by exists 1.
  - exists p. split; [done|]. split; [done|].
    by rewrite (all_rows_nrows _ _ Hall), (all_rows_nrows _ _ Hrows).
Qed.

End RowFacts.

Lemma toy_scaler_keeps_shape : scaler_keeps_shape toy_scaler.
Proof.
  intros n cols Hn Hne Hcols. unfold toy_scaler.
  destruct n as [|n]; [lia|]. simpl. eexists. split; [done|].
  unfold same_shape. rewrite length_map, Nat.eqb_refl. simpl.
  apply forallb_forall. intros v Hv. apply in_map_iff in Hv as (c & <- & Hc).
  rewrite length_map. apply Nat.eqb_eq.
  rewrite Forall_forall in Hcols. apply Hcols. by apply list_elem_of_In.
Qed.

(** The sample table keeps its four rows. *)
Lemma preprocess_data_keeps_rows_witness :
  exists p, preprocess_data true (fun _ => "") toy_scaler sample_table = Ok p
            /\ all_rows (Z.to_nat 4) p /\ nrows p = nrows sample_table.
Proof.
  apply (preprocess_data_keeps_rows true (fun _ => "") toy_scaler
           counter_rng 4 42 0%Z sample_table).
  - exact toy_scaler_keeps_shape.
  - exact sample_table_generated.
  - reflexivity.
Defined.

(* ===================================================================== *)
(** * The generated table: identifiers, arms, ranges, composite          *)
(* ===================================================================== *)

(** As [simulate_data_returns], keeping where the demographic and outcome
    arrays were drawn from. *)
Lemma simulate_data_drawn (R : RandomState) (n seed : Z) (g : rng_state R)
    (t : DataFrame) :
  (simulate_data R n seed g).1 = Ok t ->
  (0 <= n)%Z /\ (n mod 4 = 0)%Z
  /\ exists d, t = table_of n d /\ well_sized (Z.to_nat n) d
               /\ demographics_drawn R d.
Proof.
  intros Ht.
  destruct (simulate_data_Ok_inv R n seed g t Ht) as (Hs & Hn & Hm & _).
  split; [done|]. split; [done|]. revert Ht.
  pose proof (flags_length [1; 1; 0; 0]%Z n eq_refl Hn Hm) as Lllm.
  pose proof (flags_length [1; 0; 1; 0]%Z n eq_refl Hn Hm) as Lherbal.
  unfold simulate_data, randint, choice, normal, uniform.
  rewrite (se_bind_Ok _ _ _ _ _ (np_random_seed_Ok R seed g Hs)).
  draw_step R Hn age s1 Lage Aage.
  draw_step R Hn gender s2 Lgender Agender.
  draw_step R Hn pe s3 Lpe Ape.
  cbv zeta.
  draw_step R Hn ise s4 Lise Aise.
  draw_step R Hn ia s5 Lia Aia.
  draw_step R Hn err s6 Lerr Aerr.
  draw_step R Hn ct s7 Lct Act.
  erewrite se_bind_Ok; cycle 1.
  { apply lift_Ok. unfold for_range, range.
    apply adjust_measures_prefix; simpl; lia. }
  cbv beta.
  draw_step R Hn ea s8 Lea Aea.
  draw_step R Hn eb s9 Leb Aeb.
  draw_step R Hn hr s10 Lhr Ahr.
  draw_step R Hn scr s11 Lscr Ascr.
  draw_step R Hn pf s12 Lpf Apf.
  draw_step R Hn pfd s13 Lpfd Apfd.
  draw_step R Hn ppd s14 Lppd Appd.
  draw_step R Hn pbr s15 Lpbr Apbr.
  erewrite se_bind_Ok; cycle 1.
  { apply lift_Ok. unfold for_range, range.
    apply adjust_signals_prefix; simpl; lia. }
  cbv beta. intros Ht.
  exists (RawDraws age gender pe ise ia err ct ea eb hr scr pf pfd ppd pbr).
  split; [|split].
  - revert Ht.
    unfold lift, measures_upto, signals_upto. cbn [fst m_final_self_efficacy
      m_final_anxiety m_errors_identified m_completion_time s_eeg_beta
      s_pog_fixations s_pog_fixation_duration s_ecg_hr s_eda_scr].
    rewrite !upto_all by lia.
    rewrite pd_DataFrame_Ok; [by intros [= <-]|].
    repeat (apply Forall_cons; split; [|]); try apply Forall_nil;
      cbn [nrows series_len snd fst];
      rewrite ?np_array_len, ?length_fmap, ?length_imap, ?length_zip_with,
        ?length_fmap, ?length_imap, ?participant_ids_length; lia.
  - unfold well_sized. simpl. tauto.
  - unfold demographics_drawn. simpl. tauto.
Qed.

(** X3.  The identifiers of a generated table are 1, 2, ..., n: one per row, all
    different. *)
Theorem simulate_data_ids (R : RandomState) (n seed : Z) (g : rng_state R)
    (t : DataFrame) :
  (simulate_data R n seed g).1 = Ok t -> ids_count_from_one (Z.to_nat n) t.
Proof.
  intros Ht. apply simulate_data_Ok_inv in Ht as (_ & _ & _ & d & -> & _).
  exists (participant_ids n). split; [reflexivity|].
  split; [apply participant_ids_length|]. unfold participant_ids, range. split.
  - apply NoDup_fmap_2; [|apply NoDup_seq]. intros i j. lia.
  - intros i Hi. rewrite list_lookup_fmap, lookup_seq_lt by done. reflexivity.
Qed.

Lemma simulate_data_ids_witness : ids_count_from_one 4 sample_table.
Proof.
  apply (simulate_data_ids counter_rng 4 42 0%Z sample_table).
  exact sample_table_generated.
Defined.

Lemma zip_list_times {A B} (l1 : list A) (l2 : list B) (k : Z) :
  length l1 = length l2 ->
  zip (list_times l1 k) (list_times l2 k) = list_times (zip l1 l2) k.
Proof.
  intros Hl. unfold list_times.
  induction (Z.to_nat k) as [|j IH]; simpl; [done|].
  rewrite zip_with_app by done. by rewrite IH.
Qed.

Lemma arm_size_list_times (llm herbal : Z) (pattern : list (Z * Z)) (k : Z) :
  arm_size llm herbal (list_times pattern k)
  = Z.to_nat k * arm_size llm herbal pattern.
Proof.
  unfold arm_size, list_times.
  induction (Z.to_nat k) as [|j IH]; simpl; [done|].
  rewrite filter_app, length_app, IH. lia.
Qed.

(** X4.  The four arms of the 2 x 2 design have n/4 rows each in every generated
    table, whatever the count. *)
Theorem simulate_data_arms_balanced (R : RandomState) (n seed : Z)
    (g : rng_state R) (t : DataFrame) :
  (simulate_data R n seed g).1 = Ok t -> arms_balanced (Z.to_nat n) t.
Proof.
  intros Ht. apply simulate_data_Ok_inv in Ht as (_ & Hn & Hm & d & -> & _).
  exists (list_times [1; 1; 0; 0]%Z (n / 4)), (list_times [1; 0; 1; 0]%Z (n / 4)).
  split; [reflexivity|]. split; [reflexivity|].
  split; [by apply flags_length|]. split; [by apply flags_length|].
  rewrite zip_list_times by done. rewrite !arm_size_list_times.
  assert (Z.to_nat (n / 4) = Z.to_nat n / 4) as ->.
  { rewrite Z2Nat.inj_div by lia. reflexivity. }
  assert (arm_size 1 1 (zip [1; 1; 0; 0] [1; 0; 1; 0])%Z = 1) as -> by reflexivity.
  assert (arm_size 1 0 (zip [1; 1; 0; 0] [1; 0; 1; 0])%Z = 1) as -> by reflexivity.
  assert (arm_size 0 1 (zip [1; 1; 0; 0] [1; 0; 1; 0])%Z = 1) as -> by reflexivity.
  assert (arm_size 0 0 (zip [1; 1; 0; 0] [1; 0; 1; 0])%Z = 1) as -> by reflexivity.
  repeat split; lia.
Qed.

Lemma simulate_data_arms_balanced_witness : arms_balanced 4 sample_table.
Proof.
  apply (simulate_data_arms_balanced counter_rng 4 42 0%Z sample_table).
  exact sample_table_generated.
Defined.

Lemma adjusted_errors_range (u h e : Z) :
  (5 <= e < 20)%Z -> (5 <= Z.max 0 (adjusted_errors u h e) <= 23)%Z.
Proof.
  intros He. unfold adjusted_errors.
  destruct (u =? 1)%Z, (h =? 1)%Z; lia.
Qed.

(** X5.  With draws as NumPy documents them, ages lie in 18..29, the two
    categorical columns hold only their listed values, and the errors
    identified lie in 5..23: the clamp at 0 never changes a value. *)
Theorem simulate_data_ranges (R : RandomState) (n seed : Z) (g : rng_state R)
    (t : DataFrame) :
  randint_in_range R -> choice_is_element R ->
  (simulate_data R n seed g).1 = Ok t -> ranges_hold t.
Proof.
  intros Hint Hch Ht.
  apply simulate_data_drawn in Ht as (_ & _ & d & -> & _ & Ha & Hg & He & Herr & _).
  eexists _, _, _, _. do 4 (split; [reflexivity|]).
  split; [|split; [|split]].
  - eapply Forall_impl; [exact Ha|]. intros x [s ->].
    pose proof (Hint 18 30 s ltac:(done))%Z. lia.
  - eapply Forall_impl; [exact Hg|]. intros x [s ->]. by apply Hch.
  - eapply Forall_impl; [exact He|]. intros x [s ->]. by apply Hch.
  - apply Forall_forall. intros y Hy.
    apply list_elem_of_fmap in Hy as (x & -> & Hx).
    apply list_elem_of_lookup in Hx as (j & Hj).
    rewrite list_lookup_imap in Hj.
    destruct (d_errors_identified d !! j) as [e|] eqn:E; [|done].
    simpl in Hj. injection Hj as <-. apply adjusted_errors_range.
    rewrite Forall_forall in Herr.
    destruct (Herr e) as [s ->]; [by eapply list_elem_of_lookup_2|].
    by apply Hint.
Qed.

Lemma counter_rng_randint_in_range : randint_in_range counter_rng.
Proof.
  intros low high s H. simpl.
  pose proof (Z.mod_pos_bound s (high - low) ltac:(lia)). lia.
Qed.

Lemma counter_rng_choice_is_element : choice_is_element counter_rng.
Proof.
  intros a s Ha. simpl.
  assert (Hlt : Z.to_nat (s mod Z.of_nat (length a)) < length a).
  { destruct a; [done|]. simpl length.
    pose proof (Z.mod_pos_bound s (Z.of_nat (S (length a))) ltac:(lia)). lia. }
  destruct (lookup_lt_is_Some_2 a _ Hlt) as [x Hx]. rewrite Hx. simpl.
  by eapply list_elem_of_lookup_2.
Qed.

Lemma simulate_data_ranges_witness : ranges_hold sample_table.
Proof.
  apply (simulate_data_ranges counter_rng 4 42 0%Z sample_table).
  - exact counter_rng_randint_in_range.
  - exact counter_rng_choice_is_element.
  - exact sample_table_generated.
Defined.

Lemma maximum_floor (lo x : F64.t) :
  F64.is_nan lo = false -> F64.is_nan x = false ->
  F64.leb lo (F64.maximum lo x) = true.
Proof.
  intros Hlo Hx. unfold F64.maximum. rewrite Hlo, orb_false_r.
  destruct (F64.leb x lo) eqn:E; [by apply leb_refl|by apply leb_total].
Qed.

(** X6.  With uniform draws that are numbers, every stored completion time is at
    least 60, with or without the 15-second LLM adjustment. *)
Theorem simulate_data_times_floored (R : RandomState) (n seed : Z)
    (g : rng_state R) (t : DataFrame) :
  uniform_gives_numbers R (F64.of_Z 180) (F64.of_Z 400) ->
  (simulate_data R n seed g).1 = Ok t -> times_floored t.
Proof.
  intros Hu Ht.
  apply simulate_data_drawn in Ht as (_ & _ & d & -> & _ & _ & _ & _ & _ & Hct).
  eexists. split; [reflexivity|].
  apply Forall_forall. intros y Hy.
  apply list_elem_of_fmap in Hy as (x & -> & Hx).
  apply list_elem_of_lookup in Hx as (j & Hj).
  rewrite list_lookup_imap in Hj.
  destruct (d_completion_time d !! j) as [c|] eqn:E; [|done].
  simpl in Hj. injection Hj as <-. apply maximum_floor; [done|].
  rewrite Forall_forall in Hct.
  destruct (Hct c) as [s ->]; [by eapply list_elem_of_lookup_2|].
  unfold adjusted_time. destruct (_ =? 1)%Z.
  - apply sub_finite_not_nan. apply Hu.
  - apply Hu.
Qed.

Lemma counter_rng_uniform_numbers :
  uniform_gives_numbers counter_rng (F64.of_Z 180) (F64.of_Z 400).
Proof.
  intros s. simpl.
  pose proof (Z.mod_pos_bound s 8 ltac:(lia)) as Hb.
  assert (s mod 8 = 0 \/ s mod 8 = 1 \/ s mod 8 = 2 \/ s mod 8 = 3
          \/ s mod 8 = 4 \/ s mod 8 = 5 \/ s mod 8 = 6 \/ s mod 8 = 7)%Z
    as Hc by lia.
  repeat destruct Hc as [Hc|Hc]; rewrite Hc; vm_compute; reflexivity.
Qed.

Lemma simulate_data_times_floored_witness : times_floored sample_table.
Proof.
  apply (simulate_data_times_floored counter_rng 4 42 0%Z sample_table).
  - exact counter_rng_uniform_numbers.
  - exact sample_table_generated.
Defined.

(** X7.  [Performance] is the composite of the two outcome columns as they are
    stored, that is after the adjustments and after the bounds. *)
Theorem simulate_data_performance (R : RandomState) (n seed : Z)
    (g : rng_state R) (t : DataFrame) :
  (simulate_data R n seed g).1 = Ok t -> performance_from_stored (Z.to_nat n) t.
Proof.
  intros Ht. apply simulate_data_Ok_inv in Ht as (_ & _ & _ & d & -> & Hw & _).
  destruct Hw as (_ & _ & _ & _ & _ & Lerr & Lct & _).
  eexists _, _, _. do 3 (split; [reflexivity|]).
  rewrite length_zip_with, !length_fmap, !length_imap, Lerr, Lct.
  do 3 (split; [lia|]).
  intros i e c He Hc. by rewrite lookup_zip_with, He, Hc.
Qed.

Lemma simulate_data_performance_witness : performance_from_stored 4 sample_table.
Proof.
  apply (simulate_data_performance counter_rng 4 42 0%Z sample_table).
  exact sample_table_generated.
Defined.

(** X8.  A generated table has the notebook's 21 columns in their order, and each
    of them has one entry per participant. *)
Theorem simulate_data_frame_shape (R : RandomState) (n seed : Z)
    (g : rng_state R) (t : DataFrame) :
  (simulate_data R n seed g).1 = Ok t -> frame_shape (Z.to_nat n) t.
Proof.
  intros Ht. apply simulate_data_Ok_inv in Ht as (_ & Hn & Hm & d & -> & Hw & _).
  split; [apply table_of_names|by apply table_of_all_rows].
Qed.

Lemma simulate_data_frame_shape_witness : frame_shape 4 sample_table.
Proof.
  apply (simulate_data_frame_shape counter_rng 4 42 0%Z sample_table).
  exact sample_table_generated.
Defined.

(** X9.  For a count up to a million, every failure of the generator is one
    of two: a [ValueError] exactly for a seed NumPy rejects or a negative
    count, and an [IndexError] exactly for an accepted seed with a positive
    count that is no multiple of 4. *)
Theorem simulate_data_error_classes (R : RandomState) (n seed : Z)
    (g : rng_state R) :
  modest_count n ->
  (raises ValueError (simulate_data R n seed g).1
   <-> ~ valid_seed seed \/ (n < 0)%Z)
  /\ (raises IndexError (simulate_data R n seed g).1
      <-> valid_seed seed /\ (0 < n)%Z /\ (n mod 4 <> 0)%Z).
Proof.
  intros _.
  destruct (decide (valid_seed seed)) as [Hs|Hs].
  - destruct (decide (n < 0)%Z) as [Hneg|Hneg].
    + rewrite (simulate_data_negative R n seed g Hs Hneg).
      split; split.
      * by right.
      * intros _. by eexists.
      * by intros (e & [= <-] & He).
      * lia.
    + destruct (decide (n mod 4 = 0)%Z) as [Hm|Hm].
      * destruct (simulate_data_returns R n seed g Hs ltac:(lia) Hm) as (d & -> & _).
        split; split.
        -- by intros (e & He & _).
        -- intros [?|?]; [done|lia].
        -- by intros (e & He & _).
        -- intros (_ & _ & ?). done.
      * assert (0 < n)%Z.
        { destruct (decide (n = 0)%Z) as [->|]; [done|lia]. }
        rewrite (simulate_data_not_multiple R n seed g Hs) by done.
        split; split.
        -- by intros (e & [= <-] & He).
        -- intros [?|?]; [done|lia].
        -- done.
        -- intros _. by eexists.
  - rewrite (simulate_data_bad_seed R n seed g Hs).
    split; split.
    + by left.
    + intros _. by eexists.
    + by intros (e & [= <-] & He).
    + by intros (? & _).
Qed.

Lemma simulate_data_error_classes_witness :
  (raises ValueError (simulate_data counter_rng 6 42 0%Z).1
   <-> ~ valid_seed 42 \/ (6 < 0)%Z)
  /\ (raises IndexError (simulate_data counter_rng 6 42 0%Z).1
      <-> valid_seed 42 /\ (0 < 6)%Z /\ (6 mod 4 <> 0)%Z).
Proof.
  apply (simulate_data_error_classes counter_rng 6 42 0%Z).
  unfold modest_count. lia.
Defined.

(* ===================================================================== *)
(** * Preprocessing: missing columns and the regression's columns        *)
(* ===================================================================== *)

Lemma column_is_None (name : string) (df : DataFrame) :
  column name df = None <-> name ∉ column_names df.
Proof.
  split; [|apply column_None].
  induction df as [|[k c] df IH]; simpl; [intros _; apply not_elem_of_nil|].
  destruct (String.eqb_spec k name) as [->|Hk]; [done|].
  intros H. apply not_elem_of_cons. split; [done|by apply IH].
Qed.

Lemma df_drop_missing (labels : list string) (df : DataFrame) (l : string) :
  l ∈ labels -> l ∉ column_names df -> raises KeyError (df_drop labels df).
Proof.
  intros Hl Hdf. unfold df_drop.
  destruct (filter (fun l => ¬ has_column df l) labels) as [|m ms] eqn:E.
  - exfalso. assert (l ∈ filter (fun l => ¬ has_column df l) labels) as Hin.
    { apply list_elem_of_filter. split; [|done]. unfold has_column.
      intros Hb. by apply bool_decide_unpack in Hb. }
    rewrite E in Hin. by apply elem_of_nil in Hin.
  - by eexists.
Qed.

Lemma df_drop_Raise (labels : list string) (df : DataFrame) (e : pyexn) :
  df_drop labels df = Raise e -> exn_cls e = KeyError.
Proof.
  unfold df_drop. destruct (filter _ labels); [done|]. by intros [= <-].
Qed.

Section MissingColumns.

Variable pandas2 : bool.
Variable repr_float : F64.t -> string.
Variable fit_transform : nat -> list (list F64.t) -> pyres (list (list F64.t)).

(** X10.  A table that lacks one of the six columns the function names is
    refused with a [KeyError], before anything is scaled. *)
Theorem preprocess_data_missing_column (data : DataFrame) (label : string) :
  label ∈ ["ParticipantID"; "ErrorsIdentified"; "CompletionTime"; "Performance";
           "Gender"; "ProgrammingExperience"] ->
  label ∉ column_names data ->
  raises KeyError (preprocess_data pandas2 repr_float fit_transform data).
Proof.
  intros Hl Hmiss. unfold preprocess_data.
  set (labels := ["ParticipantID"; "ErrorsIdentified"; "CompletionTime"; "Performance"]).
  assert (Hcases : label ∈ labels \/ label = "Gender"
                   \/ label = "ProgrammingExperience").
  { unfold labels. rewrite !elem_of_cons in Hl. rewrite !elem_of_cons. tauto. }
  destruct Hcases as [Hin|Hcases].
  { destruct (df_drop_missing labels data label Hin Hmiss) as (e & -> & Hc).
    by exists e. }
  destruct (df_drop labels data) as [f1|e] eqn:E1; simpl;
    [|exists e; split; [done|by eapply df_drop_Raise]].
  apply df_drop_Ok in E1.
  destruct (column "Performance" data) as [perf|] eqn:EP; simpl; [|by eexists].
  assert (Hnone : column label f1 = None).
  { apply column_is_None. intros Hin. subst f1.
    by apply filter_names_not_in in Hin as [Hin _]. }
  unfold get_dummies. simpl df_select.
  destruct Hcases as [->| ->]; rewrite Hnone.
  - simpl. by eexists.
  - destruct (column "Gender" f1); simpl; by eexists.
Qed.

(** X11.  The output of [preprocess_data] is not an input for it: a second pass
    over a processed table raises [KeyError], whatever the table was. *)
Theorem preprocess_data_not_twice (data p : DataFrame) :
  preprocess_data pandas2 repr_float fit_transform data = Ok p ->
  raises KeyError (preprocess_data pandas2 repr_float fit_transform p).
Proof.
  intros Hp.
  apply preprocess_data_Ok_inv in Hp as (features & perf & -> & _ & Hnot).
  unfold preprocess_data.
  destruct (df_drop_missing
              ["ParticipantID"; "ErrorsIdentified"; "CompletionTime"; "Performance"]
              (features ++ [("Performance", perf)])%list "ParticipantID")
    as (e & -> & Hc).
  - apply elem_of_cons. by left.
  - unfold column_names. rewrite fmap_app, elem_of_app. intros [Hin|Hin].
    + revert Hin. apply Hnot. apply elem_of_cons. by left.
    + simpl in Hin. apply elem_of_cons in Hin as [Hin|Hin]; [done|].
      by apply elem_of_nil in Hin.
  - by exists e.
Qed.

End MissingColumns.

Lemma preprocess_data_missing_column_witness :
  raises KeyError (preprocess_data true (fun _ => "") toy_scaler []).
Proof.
  apply (preprocess_data_missing_column true (fun _ => "") toy_scaler [] "Gender").
  - rewrite !elem_of_cons. tauto.
  - apply not_elem_of_nil.
Defined.

Lemma preprocess_data_not_twice_witness :
  raises KeyError (preprocess_data true (fun _ => "") toy_scaler sample_processed).
Proof.
  apply (preprocess_data_not_twice true (fun _ => "") toy_scaler
           sample_table sample_processed).
  exact sample_processed_computed.
Defined.

Lemma column_app_l (name : string) (df1 df2 : DataFrame) (c : series) :
  column name df1 = Some c -> column name (df1 ++ df2)%list = Some c.
Proof.
  induction df1 as [|[k c'] df1 IH]; simpl; [done|].
  by destruct (String.eqb k name).
Qed.

(** The assignment of line 308 turns every numeric column into one of the
    columns of the scaled matrix. *)
Lemma assign_numeric_column (df : DataFrame) (values : list (list F64.t))
    (name : string) (c : series) :
  column name df = Some c -> is_number c = true ->
  length values = length (filter (fun kc : string * series => is_number kc.2) df) ->
  exists v, v ∈ values /\ column name (assign_numeric df values) = Some (FloatCol v).
Proof.
  revert values. induction df as [|[k c'] df IH]; intros values; simpl; [done|].
  rewrite filter_cons. simpl.
  destruct (is_number c') eqn:Hc'; simpl.
  - destruct (decide (Is_true true)) as [_|Hf]; [|by destruct Hf].
    destruct values as [|v vs]; [done|]. simpl. intros Hcol Hnum [= Hlen].
    destruct (String.eqb k name).
    + exists v. split; [apply elem_of_cons; by left|done].
    + destruct (IH vs Hcol Hnum Hlen) as (w & Hw & Hcw).
      exists w. split; [apply elem_of_cons; by right|done].
  - destruct (decide (Is_true false)) as [Hf|_]; [by destruct Hf|].
    intros Hcol Hnum Hlen. simpl.
    destruct (String.eqb k name).
    + injection Hcol as <-. congruence.
    + by apply IH.
Qed.

Lemma np_array_is_number (lst : list Z) : is_number (np_array lst) = true.
Proof. by destruct lst. Qed.

Section ScaledColumns.

Variable pandas2 : bool.
Variable repr_float : F64.t -> string.
Variable fit_transform : nat -> list (list F64.t) -> pyres (list (list F64.t)).

(** The stages of [preprocess_data]: the encoded frame, the scaled matrix
    that replaces its numeric columns, and the target column. *)
Lemma preprocess_data_stages (data p : DataFrame) :
  preprocess_data pandas2 repr_float fit_transform data = Ok p ->
  exists to_encode scaled perf,
    let kept :=
      filter (fun kc : string * series =>
                kc.1 ∉ ["ParticipantID"; "ErrorsIdentified"; "CompletionTime";
                         "Performance"]) data in
    let encoded :=
      (filter (fun kc : string * series =>
                 kc.1 ∉ ["Gender"; "ProgrammingExperience"]) kept
       ++ mjoin ((fun kc => dummies_of pandas2 repr_float kc.1 kc.2)
                   <$> to_encode))%list in
    p = (assign_numeric encoded scaled ++ perf)%list
    /\ length scaled
       = length (filter (fun kc : string * series => is_number kc.2) encoded).
Proof.
  unfold preprocess_data.
  destruct (df_drop _ data) as [f1|] eqn:E1; simpl; [|done].
  destruct (column "Performance" data) as [perf|] eqn:E2; simpl; [|done].
  apply df_drop_Ok in E1. subst f1. unfold get_dummies.
  destruct (df_select _ _) as [to_encode|]; simpl; [|done].
  unfold scale_numeric.
  destruct (fit_transform _ _) as [scaled|]; simpl; [|done].
  destruct (same_shape _ _ scaled) eqn:Hs; simpl; [|done]. intros [= <-].
  apply andb_prop in Hs as [Hlen _]. apply Nat.eqb_eq in Hlen.
  by exists to_encode, scaled, [("Performance", perf)].
Qed.

(** X12.  Every numeric column that [preprocess_data] neither drops nor encodes
    comes out as a [float64] column under its own label, whatever its dtype
    was: the 0/1 flags of the two treatments are no longer integers. *)
Theorem preprocess_data_numeric_to_float (data p : DataFrame) (name : string)
    (c : series) :
  preprocess_data pandas2 repr_float fit_transform data = Ok p ->
  column name data = Some c -> is_number c = true ->
  name ∉ ["ParticipantID"; "ErrorsIdentified"; "CompletionTime"; "Performance";
           "Gender"; "ProgrammingExperience"] ->
  exists v, column name p = Some (FloatCol v).
Proof.
  intros Hp Hcol Hnum Hname.
  assert (Hdrop : name ∉ ["ParticipantID"; "ErrorsIdentified"; "CompletionTime";
                           "Performance"]).
  { intros H. apply Hname. rewrite !elem_of_cons in H. rewrite !elem_of_cons. tauto. }
  assert (Hcols : name ∉ ["Gender"; "ProgrammingExperience"]).
  { intros H. apply Hname. rewrite !elem_of_cons in H. rewrite !elem_of_cons. tauto. }
  apply preprocess_data_stages in Hp as (to_encode & scaled & perf & Hp & Hlen).
  cbv zeta in Hp, Hlen. subst p.
  match type of Hlen with
  | _ = length (filter _ ?encoded) =>
      destruct (assign_numeric_column encoded scaled name c) as (v & _ & Hv);
        [|done|done|]
  end.
  - apply column_app_l. by rewrite !column_filter_labels.
  - exists v. by apply column_app_l.
Qed.

(** X13.  The processed form of a generated table has what the regression of the
    main block asks of it: [Performance] and the four predictors of the
    formula are [float64] columns with one entry per participant. *)
Theorem preprocess_data_feeds_regression (R : RandomState) (n seed : Z)
    (g : rng_state R) (t : DataFrame) :
  scaler_keeps_shape fit_transform ->
  (simulate_data R n seed g).1 = Ok t -> (0 < n)%Z ->
  exists p, preprocess_data pandas2 repr_float fit_transform t = Ok p
    /\ Forall (fun name => exists l, column name p = Some (FloatCol l)
                                     /\ length l = Z.to_nat n)
         ("Performance" :: predictors).
Proof.
  intros Hft Ht Hpos.
  apply simulate_data_Ok_inv in Ht as (_ & Hn & Hm & d & -> & Hw & _).
  pose proof (table_of_all_rows n d Hn Hm Hw) as Hrows.
  destruct (preprocess_data_returns pandas2 repr_float fit_transform
              (Z.to_nat n) (table_of n d)
              (d_gender d) (d_programming_experience d) (d_age d)
              (FloatCol (zip_with performance_of
                 (Z.max 0 <$> imap (fun j => adjusted_errors
                    (list_times [1; 1; 0; 0]%Z (n / 4) !!! j)
                    (list_times [1; 0; 1; 0]%Z (n / 4) !!! j)) (d_errors_identified d))
                 (F64.maximum (F64.of_Z 60) <$> imap (fun j => adjusted_time
                    (list_times [1; 1; 0; 0]%Z (n / 4) !!! j)) (d_completion_time d))))
              Hft)
    as (p & Hp & Hall & Hne); try done.
  { lia. }
  { rewrite table_of_names. repeat (apply Forall_cons; split; [set_solver|]).
    by apply Forall_nil. }
  { apply list_elem_of_lookup. by exists 1. }
  exists p. split; [done|].
  assert (Hfloat : forall name c,
            column name (table_of n d) = Some c -> is_number c = true ->
            name ∉ ["ParticipantID"; "ErrorsIdentified"; "CompletionTime";
                     "Performance"; "Gender"; "ProgrammingExperience"] ->
            exists l, column name p = Some (FloatCol l) /\ length l = Z.to_nat n).
  { intros name c Hc Hnum Hname.
    assert (Hdrop : name ∉ ["ParticipantID"; "ErrorsIdentified"; "CompletionTime";
                             "Performance"]).
    { intros H. apply Hname. rewrite !elem_of_cons in H. rewrite !elem_of_cons.
      tauto. }
    assert (Hcols : name ∉ ["Gender"; "ProgrammingExperience"]).
    { intros H. apply Hname. rewrite !elem_of_cons in H. rewrite !elem_of_cons.
      tauto. }
    destruct (preprocess_data_stages _ p Hp) as (to_encode & scaled & perf & Hp' & Hlen).
    cbv zeta in Hp', Hlen.
    match type of Hlen with
    | _ = length (filter _ ?encoded) =>
        destruct (assign_numeric_column encoded scaled name c) as (v & _ & Hv);
          [|done|done|]
    end.
    - apply column_app_l. by rewrite !column_filter_labels.
    - exists v. assert (Hv' : column name p = Some (FloatCol v)).
      { rewrite Hp'. by apply column_app_l. }
      split; [done|]. apply (column_all_rows _ _ _ _ Hall Hv'). }
  apply Forall_cons. split.
  - apply preprocess_data_Ok_inv in Hp as (features & perf & -> & Hperf & Hnot).
    rewrite column_app_r by (apply Hnot; rewrite !elem_of_cons; tauto).
    simpl in Hperf. injection Hperf as <-. eexists. split; [reflexivity|].
    destruct Hw as (_ & _ & _ & _ & _ & Lerr & Lct & _).
    rewrite length_zip_with, !length_fmap, !length_imap, Lerr, Lct. lia.
  - unfold predictors.
    repeat (apply Forall_cons; split;
            [eapply Hfloat; [reflexivity| |not_a_label]|]); try apply Forall_nil.
    all: try apply np_array_is_number; done.
Qed.

End ScaledColumns.

Lemma preprocess_data_numeric_to_float_witness :
  exists v, column "LLMUsage" sample_processed = Some (FloatCol v).
Proof.
  apply (preprocess_data_numeric_to_float true (fun _ => "") toy_scaler
           sample_table sample_processed "LLMUsage" (IntCol [1; 1; 0; 0]%Z)).
  - exact sample_processed_computed.
  - reflexivity.
  - reflexivity.
  - not_a_label.
Defined.

Lemma preprocess_data_feeds_regression_witness :
  exists p, preprocess_data true (fun _ => "") toy_scaler sample_table = Ok p
    /\ Forall (fun name => exists l, column name p = Some (FloatCol l)
                                     /\ length l = Z.to_nat 4)
         ("Performance" :: predictors).
Proof.
  apply (preprocess_data_feeds_regression true (fun _ => "") toy_scaler
           counter_rng 4 42 0%Z sample_table).
  - exact toy_scaler_keeps_shape.
  - exact sample_table_generated.
  - reflexivity.
Defined.

(* ===================================================================== *)
(** * The two adapters: what a result looks like, what escapes           *)
(* ===================================================================== *)

Lemma se_bind_inv_Ok {S A B} (m : StateErr S A) (k : A -> StateErr S B)
    (s s'' : S) (b : B) :
  se_bind m k s = (Ok b, s'') -> exists a s', m s = (Ok a, s') /\ k a s' = (Ok b, s'').
Proof.
  unfold se_bind. destruct (m s) as [[a|e] s']; cbn [fst snd]; [eauto|done].
Qed.

Lemma lift_keeps {S A} (r : pyres A) (s : S) : (lift r s).2 = s.
Proof. reflexivity. Qed.

Lemma se_ret_keeps {S A} (a : A) (s : S) : (se_ret a s).2 = s.
Proof. reflexivity. Qed.

Lemma se_bind_keeps {S A B} (m : StateErr S A) (k : A -> StateErr S B) :
  (forall s, (m s).2 = s) -> (forall a s, (k a s).2 = s) ->
  forall s, (se_bind m k s).2 = s.
Proof.
  intros Hm Hk s. unfold se_bind. specialize (Hm s).
  destruct (m s) as [[a|e] s']; cbn [fst snd] in *; subst s'; [apply Hk|done].
Qed.

Ltac keeps_state :=
  repeat first [ apply se_bind_keeps; [|intros ?] | apply lift_keeps
               | apply se_ret_keeps ].

(** A bare [except:] around steps that print nothing, with a handler that
    prints and returns: the block returns, and what was printed before
    stays. *)
Lemma try_except_catch_all {A} (m : Console A) (h : pyexn -> Console A)
    (out : list string) :
  (forall s, (m s).2 = s) ->
  (forall e s, exists a l, h e s = (Ok a, (s ++ l)%list)) ->
  exists a t, try_except catch_all m h out = (Ok a, t)
              /\ exists l, t = (out ++ l)%list.
Proof.
  intros Hm Hh. unfold try_except, catch_all. specialize (Hm out).
  destruct (m out) as [[a|e] s']; cbn [fst snd] in *; subst s'.
  - exists a, out. split; [done|]. exists []. by rewrite app_nil_r.
  - destruct (Hh e out) as (a & l & ->). eauto.
Qed.

Section IPMAFacts.

Context (B : RBridge).

(** One turn of the loop of lines 81-87 either stores an entry for the
    column or lets through an exception that is no [IndexError]. *)
Lemma effect_sizes_loop_cons (results : robj B) (i : nat) (x_col : string)
    (rest : list (nat * string)) (sizes0 : gmap string (option (robj B)))
    (out : list string) :
  (exists v out1,
     effect_sizes_loop B results ((i, x_col) :: rest) sizes0 out
     = effect_sizes_loop B results rest (<[x_col := v]> sizes0) out1
     /\ (out1 = out \/ (v = None /\ out1 = (out ++ [effect_size_warning x_col])%list)))
  \/ (exists e, effect_sizes_loop B results ((i, x_col) :: rest) sizes0 out
                = (Raise e, out)
                /\ exn_cls e <> IndexError).
Proof.
  cbn [effect_sizes_loop].
  unfold se_bind at 1. unfold try_except, se_bind, lift, se_ret, print, catch_IndexError.
  cbn [fst snd].
  destruct (r_getitem B results 0) as [r0|e] eqn:E0; cbn [fst snd].
  - destruct (r_getitem B r0 i) as [v|e] eqn:E1; cbn [fst snd].
    + left. exists (Some v), out. split; [done|by left].
    + destruct (exn_cls e) eqn:Ec; cbn [fst snd];
        try (right; exists e; split; [done|congruence]).
      left. exists None, (out ++ [effect_size_warning x_col])%list.
      split; [done|by right].
  - destruct (exn_cls e) eqn:Ec; cbn [fst snd];
      try (right; exists e; split; [done|congruence]).
    left. exists None, (out ++ [effect_size_warning x_col])%list.
    split; [done|by right].
Qed.

Lemma effect_sizes_loop_dom (results : robj B) (cols : list (nat * string))
    (sizes0 sizes : gmap string (option (robj B))) (out out' : list string) :
  effect_sizes_loop B results cols sizes0 out = (Ok sizes, out') ->
  dom sizes = dom sizes0 ∪ list_to_set cols.*2.
Proof.
  revert sizes0 out. induction cols as [|[i x] cols IH]; intros sizes0 out.
  - cbn. intros [= <- _]. by rewrite (right_id_L ∅ (∪)).
  - destruct (effect_sizes_loop_cons results i x cols sizes0 out)
      as [(v & out1 & -> & _)|(e & -> & _)]; [|done].
    intros H. apply IH in H. rewrite H, dom_insert_L. cbn.
    by rewrite (comm_L (∪) {[x]}), <- (assoc_L (∪)).
Qed.

Lemma imap_pair_snd (l : list string) : (imap (fun i x => (i, x)) l).*2 = l.
Proof.
  apply list_eq. intros i.
  rewrite list_lookup_fmap, list_lookup_imap. by destruct (l !! i).
Qed.

(** When the first component of the R result cannot be indexed, every
    column gets [None] and one warning is printed per column, in order. *)
Lemma effect_sizes_loop_unavailable (results : robj B) (e : pyexn)
    (cols : list (nat * string)) (sizes0 : gmap string (option (robj B)))
    (out : list string) :
  r_getitem B results 0 = Raise e -> exn_cls e = IndexError ->
  exists sizes,
    effect_sizes_loop B results cols sizes0 out
    = (Ok sizes, (out ++ (effect_size_warning <$> cols.*2))%list)
    /\ forall x, x ∈ cols.*2 -> sizes !! x = Some None.
Proof.
  intros E0 Ec. revert sizes0 out.
  assert (Hkeep : forall cols sizes0 out sizes out' x,
            effect_sizes_loop B results cols sizes0 out = (Ok sizes, out') ->
            sizes0 !! x = Some None -> sizes !! x = Some None).
  { clear cols. induction cols as [|[i y] cols IH]; intros sizes0 out sizes out' x.
    - cbn. by intros [= <- _].
    - cbn [effect_sizes_loop].
      unfold se_bind at 1. unfold try_except, se_bind, lift, se_ret, print,
        catch_IndexError. cbn [fst snd]. rewrite E0. cbn [fst snd].
      rewrite Ec. cbn [fst snd]. intros H Hx. eapply IH; [exact H|].
      destruct (decide (y = x)) as [->|Hne].
      + by rewrite lookup_insert_eq.
      + by rewrite lookup_insert_ne. }
  induction cols as [|[i x] cols IH]; intros sizes0 out.
  - exists sizes0. cbn. rewrite app_nil_r. split; [done|].
    intros x Hx. by apply elem_of_nil in Hx.
  - cbn [effect_sizes_loop].
    unfold se_bind at 1. unfold try_except, se_bind, lift, se_ret, print,
      catch_IndexError. cbn [fst snd]. rewrite E0. cbn [fst snd].
    rewrite Ec. cbn [fst snd].
    destruct (IH (<[x := None]> sizes0)
                 (out ++ [("Warning: Could not retrieve effect size for " ++ x
                          ++ " using direct indexing.")%string])%list)
      as (sizes & Hloop & Hall).
    exists sizes. split.
    + rewrite Hloop. cbn [fmap list_fmap snd]. unfold effect_size_warning at 2.
      by rewrite <- app_assoc.
    + intros y Hy. cbn in Hy. apply elem_of_cons in Hy as [->|Hy].
      * eapply Hkeep; [exact Hloop|]. by rewrite lookup_insert_eq.
      * by apply Hall.
Qed.

Lemma effect_sizes_loop_read (results : robj B) (cols : list (nat * string))
    (sizes0 sizes : gmap string (option (robj B))) (out out' : list string) :
  effect_sizes_loop B results cols sizes0 out = (Ok sizes, out') ->
  forall x v, sizes !! x = Some v ->
    sizes0 !! x = Some v
    \/ exists i, (i, x) ∈ cols /\ effect_size_at B results i v.
Proof.
  revert sizes0 out. induction cols as [|[i y] cols IH]; intros sizes0 out.
  - cbn. intros [= <- _] x v Hx. by left.
  - cbn [effect_sizes_loop]. intros H x v Hx.
    apply se_bind_inv_Ok in H as (sizes1 & out1 & Hstep & H).
    assert (Hread : exists w, sizes1 = <[y := w]> sizes0
                              /\ effect_size_at B results i w).
    { revert Hstep.
      unfold try_except, se_bind, lift, se_ret, print, catch_IndexError.
      cbn [fst snd].
      destruct (r_getitem B results 0) as [r0|e] eqn:E0; cbn [fst snd].
      - destruct (r_getitem B r0 i) as [r|e] eqn:E1; cbn [fst snd].
        + intros [= <- _]. exists (Some r). split; [done|]. by exists r0.
        + destruct (exn_cls e) eqn:Ec; cbn [fst snd]; try done.
          intros [= <- _]. exists None. split; [done|].
          exists e. split; [done|]. right. by exists r0.
      - destruct (exn_cls e) eqn:Ec; cbn [fst snd]; try done.
        intros [= <- _]. exists None. split; [done|].
        exists e. split; [done|]. by left. }
    destruct Hread as (w & -> & Hw).
    destruct (IH _ _ H x v Hx) as [H1|(j & Hj & Hv)].
    + destruct (decide (y = x)) as [->|Hne].
      * rewrite lookup_insert_eq in H1. injection H1 as <-.
        right. exists i. split; [apply elem_of_cons; by left|done].
      * rewrite lookup_insert_ne in H1 by done. by left.
    + right. exists j. split; [apply elem_of_cons; by right|done].
Qed.

(** X14.  Whatever the R side does, a dict returned by [run_IPMA_in_r] is
    either empty or the complete result of the object the IPMA routine
    returned: it has the five keys; [effect_sizes] has exactly the
    predictors as its keys, each with the value read at one of its positions
    or [None] after an [IndexError]; [bottleneck_table] is the converted
    seventh component, or [None] when reading it raised; [x_ceiling] and
    [y_ceiling] are the two lists of the fifth component, or both [None]
    when reading either raised; and [raw_r_results] is the object itself. *)
Theorem run_IPMA_in_r_result_shape (IPMA_r : option (ipma_package B))
    (data : DataFrame) (x_columns : list string) (y_column : string)
    (out out' : list string) (res : gmap string (pyval B)) :
  run_IPMA_in_r B IPMA_r data x_columns y_column out = (Ok res, out') ->
  ipma_result_of B IPMA_r data x_columns y_column res.
Proof.
  unfold run_IPMA_in_r, ipma_result_of. destruct IPMA_r as [IPMA|].
  2: { cbn. intros [= <- _]. by left. }
  intros H.
  apply se_bind_inv_Ok in H as (r_data & s1 & Hconv & H).
  apply se_bind_inv_Ok in H as (ran & s2 & Hran & H).
  destruct ran as [results|]; [|left; by injection H as <- _].
  apply se_bind_inv_Ok in H as (sizes & s3 & Hloop & H).
  apply se_bind_inv_Ok in H as (table & s4 & Htable & H).
  apply se_bind_inv_Ok in H as (ceiling & s5 & Hceiling & H).
  injection H as <- _. right. exists IPMA, r_data, results.
  unfold lift in Hconv. injection Hconv as Hconv <-.
  split; [done|]. split; [done|]. split.
  { revert Hran. unfold try_except, se_bind, lift, se_ret, print. cbn [fst snd].
    destruct (IPMA r_data _) as [r|e]; cbn [fst snd]; [by intros [= -> _]|].
    destruct (catch_Exception e); cbn [fst snd]; by intros [= _]. }
  pose proof (effect_sizes_loop_read _ _ _ _ _ _ Hloop) as Hread.
  apply effect_sizes_loop_dom in Hloop. rewrite imap_pair_snd in Hloop.
  assert (Ht : opt_val B VFrame table
               = match read_bottleneck B results with
                 | Ok df => VFrame df
                 | Raise _ => VNone
                 end).
  { revert Htable. unfold read_bottleneck.
    unfold try_except, se_bind, lift, se_ret, print, catch_all. cbn [fst snd].
    destruct (r_getitem B results 6) as [r6|]; simpl;
      [|by intros [= <- _]].
    destruct (rpy2py B r6); simpl; by intros [= <- _]. }
  assert (Hc : (opt_val B VList ceiling.1, opt_val B VList ceiling.2)
               = match read_ceiling B results with
                 | Ok xy => (VList xy.1, VList xy.2)
                 | Raise _ => (VNone, VNone)
                 end).
  { revert Hceiling. unfold read_ceiling.
    unfold try_except, se_bind, lift, se_ret, print, catch_all. cbn [fst snd].
    destruct (r_getitem B results 4) as [c|]; simpl; [|by intros [= <- _]].
    destruct (r_getitem B c 0) as [cx|]; simpl; [|by intros [= <- _]].
    destruct (r_list B cx) as [xs|]; simpl; [|by intros [= <- _]].
    destruct (r_getitem B c 1) as [cy|]; simpl; [|by intros [= <- _]].
    destruct (r_list B cy) as [ys|]; simpl; by intros [= <- _]. }
  split; [|split; [|split; [|split; [|split]]]].
  - unfold ipma_keys. rewrite !dom_insert_L, dom_empty_L. cbn.
    by rewrite !(right_id_L ∅ (∪)).
  - exists sizes. split; [by rewrite lookup_insert_eq|]. split.
    + by rewrite Hloop, dom_empty_L, (left_id_L ∅ (∪)).
    + intros x v Hx. destruct (Hread x v Hx) as [H0|(i & Hi & Hv)].
      * by rewrite lookup_empty in H0.
      * exists i. split; [|done].
        apply list_elem_of_lookup in Hi as [j Hj].
        rewrite list_lookup_imap in Hj.
        destruct (x_columns !! j) as [x'|] eqn:Ej; [|done].
        cbn in Hj. by injection Hj as <- <-.
  - rewrite lookup_insert_ne by done. rewrite lookup_insert_eq. by rewrite Ht.
  - do 2 (rewrite lookup_insert_ne by done). rewrite lookup_insert_eq.
    f_equal. destruct (read_ceiling B results); by injection Hc.
  - do 3 (rewrite lookup_insert_ne by done). rewrite lookup_insert_eq.
    f_equal. destruct (read_ceiling B results); by injection Hc.
  - do 4 (rewrite lookup_insert_ne by done). by rewrite lookup_insert_eq.
Qed.

(** X15.  Not every failure degrades: when the routine has returned and reading
    its first component raises anything but an [IndexError], the exception
    leaves [run_IPMA_in_r], with nothing printed. *)
Theorem run_IPMA_in_r_effect_size_error_escapes (IPMA : ipma_package B)
    (data : DataFrame) (x_col : string) (x_columns : list string)
    (y_column : string) (r_data results : robj B) (e : pyexn) (out : list string) :
  py2rpy B data = Ok r_data ->
  IPMA r_data (y_column ++ " ~ " ++ String.concat "+" (x_col :: x_columns))
  = Ok results ->
  r_getitem B results 0 = Raise e -> exn_cls e <> IndexError ->
  run_IPMA_in_r B (Some IPMA) data (x_col :: x_columns) y_column out
  = (Raise e, out).
Proof.
  intros Hconv Hcall Hget He. unfold run_IPMA_in_r.
  erewrite se_bind_Ok by (apply lift_Ok; exact Hconv).
  erewrite se_bind_Ok; cycle 1.
  { unfold try_except, se_bind, lift. cbn [fst snd]. rewrite Hcall. reflexivity. }
  cbv beta iota.
  erewrite se_bind_Raise; [done|].
  cbn [imap effect_sizes_loop].
  erewrite se_bind_Raise; [done|].
  unfold try_except, se_bind, lift, catch_IndexError. cbn [fst snd].
  rewrite Hget. cbn [fst snd]. by destruct (exn_cls e).
Qed.

(** X16.  When the routine has returned an object whose first component cannot be
    read ([IndexError]), the call still returns a complete dict: every
    predictor's effect size is [None], and one warning per predictor is
    printed, in the order of [x_columns], before anything else. *)
Theorem run_IPMA_in_r_effect_sizes_unavailable (IPMA : ipma_package B)
    (data : DataFrame) (x_columns : list string) (y_column : string)
    (r_data results : robj B) (e : pyexn) (out : list string) :
  py2rpy B data = Ok r_data ->
  IPMA r_data (y_column ++ " ~ " ++ String.concat "+" x_columns) = Ok results ->
  r_getitem B results 0 = Raise e -> exn_cls e = IndexError ->
  exists res sizes later,
    run_IPMA_in_r B (Some IPMA) data x_columns y_column out
    = (Ok res, (out ++ (effect_size_warning <$> x_columns) ++ later)%list)
    /\ res !! "effect_sizes" = Some (VEffects sizes)
    /\ forall x, x ∈ x_columns -> sizes !! x = Some None.
Proof.
  intros Hconv Hcall Hget He. unfold run_IPMA_in_r.
  erewrite se_bind_Ok by (apply lift_Ok; exact Hconv).
  erewrite se_bind_Ok; cycle 1.
  { unfold try_except, se_bind, lift. cbn [fst snd]. rewrite Hcall. reflexivity. }
  cbv beta iota.
  destruct (effect_sizes_loop_unavailable results e
              (imap (fun i x => (i, x)) x_columns) ∅ out Hget He)
    as (sizes & Hloop & Hall).
  rewrite imap_pair_snd in Hloop, Hall.
  erewrite se_bind_Ok by exact Hloop.
  set (out1 := (out ++ (effect_size_warning <$> x_columns))%list).
  match goal with
  | |- context [se_bind (try_except catch_all ?m ?h) ?k] =>
      destruct (try_except_catch_all m h out1 ltac:(keeps_state)
                  ltac:(intros; eexists _, _; reflexivity))
        as (table & t1 & Htable & Ht1);
      erewrite (se_bind_Ok (try_except catch_all m h) k) by exact Htable
  end.
  destruct Ht1 as [l1 ->].
  match goal with
  | |- context [se_bind (try_except catch_all ?m ?h) ?k] =>
      destruct (try_except_catch_all m h (out1 ++ l1)%list ltac:(keeps_state)
                  ltac:(intros; eexists _, _; reflexivity))
        as (ceiling & t2 & Hceiling & Ht2);
      erewrite (se_bind_Ok (try_except catch_all m h) k) by exact Hceiling
  end.
  destruct Ht2 as [l2 ->].
  eexists _, sizes, (l1 ++ l2)%list. split; [|split; [|done]].
  - unfold se_ret, out1. by rewrite <- !app_assoc.
  - by rewrite lookup_insert_eq.
Qed.

End IPMAFacts.

Lemma run_IPMA_in_r_result_shape_witness :
  ipma_result_of no_r_bridge (Some hollow_ipma) sample_table ["LLMUsage"]
    "Performance" hollow_result.
Proof.
  apply (run_IPMA_in_r_result_shape no_r_bridge (Some hollow_ipma) sample_table
           ["LLMUsage"] "Performance" []
           ["Warning: Could not retrieve effect size for LLMUsage using direct indexing.";
            "Warning: Could not retrieve bottleneck table using direct indexing.";
            "Warning: Could not retrieve ceiling coordinates using direct indexing."]
           hollow_result).
  reflexivity.
Defined.

Lemma run_IPMA_in_r_effect_size_error_escapes_witness :
  run_IPMA_in_r null_r_bridge (Some (fun _ _ => Ok tt)) sample_table
    ["LLMUsage"; "HerbalBlend"] "Performance" []
  = (Raise (PyExn TypeError "object is not subscriptable"), []).
Proof.
  apply (run_IPMA_in_r_effect_size_error_escapes null_r_bridge (fun _ _ => Ok tt)
           sample_table "LLMUsage" ["HerbalBlend"] "Performance" tt tt
           (PyExn TypeError "object is not subscriptable") []).
  - reflexivity.
  - reflexivity.
  - reflexivity.
  - discriminate.
Defined.

Lemma run_IPMA_in_r_effect_sizes_unavailable_witness :
  exists res sizes later,
    run_IPMA_in_r no_r_bridge (Some hollow_ipma) sample_table
      ["LLMUsage"; "HerbalBlend"] "Performance" []
    = (Ok res, ([] ++ (effect_size_warning <$> ["LLMUsage"; "HerbalBlend"])
                ++ later)%list)
    /\ res !! "effect_sizes" = Some (VEffects sizes)
    /\ forall x, x ∈ ["LLMUsage"; "HerbalBlend"] -> sizes !! x = Some None.
Proof.
  apply (run_IPMA_in_r_effect_sizes_unavailable no_r_bridge hollow_ipma
           sample_table ["LLMUsage"; "HerbalBlend"] "Performance" tt tt
           (PyExn IndexError "index out of range") []).
  - reflexivity.
  - reflexivity.
  - reflexivity.
  - reflexivity.
Defined.

(** X17.  [perform_sem_ipma] returns in exactly three ways: the fitted model with
    its IPMA table and nothing printed; the fitted model with [None] and one
    "IPMA Error" line; or [(None, None)] with one "SEM Fit Error" line.  An
    IPMA table never comes without the model. *)
Theorem perform_sem_ipma_outcomes (E : SemEngine) (data : DataFrame)
    (model_specification : string) (out out' : list string)
    (res : option (sem_model E) * option (sem_table E)) :
  perform_sem_ipma E data model_specification out = (Ok res, out') ->
  sem_outcome E data model_specification out res out'.
Proof.
  unfold perform_sem_ipma, sem_outcome, se_bind, try_except, lift, se_ret, print,
    catch_Exception.
  cbn [fst snd].
  destruct (sem_Model E model_specification) as [model|]; cbn [fst snd]; [|done].
  destruct (sem_fit E model data) as [fitted|e] eqn:Hfit; cbn [fst snd].
  - destruct (sem_inspect_ipma E fitted) as [table|e] eqn:Hins; cbn [fst snd].
    + intros [= <- <-]. exists model. split; [done|]. left. by exists fitted, table.
    + destruct (is_Exception e) eqn:He; cbn [fst snd]; [|done].
      intros [= <- <-]. exists model. split; [done|]. right. left.
      by exists fitted, e.
  - destruct (is_Exception e) eqn:He; cbn [fst snd]; [|done].
    intros [= <- <-]. exists model. split; [done|]. right. right. by exists e.
Qed.

Lemma perform_sem_ipma_outcomes_witness :
  sem_outcome semopy_without_ipma sample_table "Performance ~ LLMUsage" []
    (Some "Performance ~ LLMUsage", None)
    ["IPMA Error: unknown inspection: ipma"].
Proof.
  apply (perform_sem_ipma_outcomes semopy_without_ipma sample_table
           "Performance ~ LLMUsage" [] ["IPMA Error: unknown inspection: ipma"]
           (Some "Performance ~ LLMUsage", None)).
  reflexivity.
Defined.

(** X18.  The module is left with [IPMA_r = None] in one case only: the first
    import raised an [Exception], the installation returned, and the second
    import raised an [Exception] too.  In particular a failing installation
    is not caught. *)
Theorem setup_IPMA_r_None_iff (B : RBridge) (first_import : pyres (ipma_package B))
    (install : pyres unit) (second_import : pyres (ipma_package B))
    (out : list string) :
  (setup_IPMA_r B first_import install second_import out).1 = Ok None
  <-> exists e1 e2,
        first_import = Raise e1 /\ is_Exception e1 = true
        /\ install = Ok tt
        /\ second_import = Raise e2 /\ is_Exception e2 = true.
Proof.
  unfold setup_IPMA_r, se_bind, try_except, lift, se_ret, print, catch_Exception.
  cbn [fst snd].
  destruct first_import as [pkg|e1]; cbn [fst snd].
  { split; [done|]. by intros (? & ? & ? & _). }
  destruct (is_Exception e1) eqn:H1; cbn [fst snd].
  2: { split; [done|]. intros (? & ? & [= <-] & ? & _). congruence. }
  destruct install as [[]|e]; cbn [fst snd].
  2: { split; [done|]. by intros (? & ? & _ & _ & ? & _). }
  destruct second_import as [pkg|e2]; cbn [fst snd].
  { split; [done|]. by intros (? & ? & _ & _ & _ & ? & _). }
  destruct (is_Exception e2) eqn:H2; cbn [fst snd].
  - split; [|done]. intros _. by exists e1, e2.
  - split; [done|]. intros (? & ? & _ & _ & _ & [= <-] & ?). congruence.
Qed.

(* ===================================================================== *)
(** * The group comparisons                                              *)
(* ===================================================================== *)

Lemma series_eq_int_np_array (l : list Z) (k : Z) :
  series_eq_int (np_array l) k = (fun z => Z.eqb z k) <$> l.
Proof. by destruct l. Qed.

Lemma column_df_mask (mask : list bool) (name : string) (df : DataFrame) :
  column name (df_mask mask df) = series_mask mask <$> column name df.
Proof.
  induction df as [|[k c] df IH]; simpl; [done|].
  by destruct (String.eqb k name).
Qed.

Lemma mask_list_length {A} (mask : list bool) (l : list A) :
  length mask = length l ->
  length (mask_list mask l) = length (filter (fun b : bool => b = true) mask).
Proof.
  unfold mask_list. rewrite length_fmap. revert l.
  induction mask as [|b mask IH]; intros [|x l]; simpl; try done.
  intros [= Hl]. rewrite !filter_cons. simpl.
  destruct (decide (b = true)); simpl; by rewrite IH.
Qed.

Lemma filter_list_times {A} (P : A -> Prop) `{!forall x, Decision (P x)}
    (l : list A) (k : Z) :
  length (filter P (list_times l k)) = Z.to_nat k * length (filter P l).
Proof.
  unfold list_times. induction (Z.to_nat k) as [|j IH]; simpl; [done|].
  rewrite filter_app, length_app, IH. lia.
Qed.

Lemma fmap_list_times {A B} (f : A -> B) (l : list A) (k : Z) :
  f <$> list_times l k = list_times (f <$> l) k.
Proof.
  unfold list_times. induction (Z.to_nat k) as [|j IH]; simpl; [done|].
  by rewrite fmap_app, IH.
Qed.

(** Half of the usage flags are 1 and half are 0. *)
Lemma usage_mask_count (n flag : Z) :
  (0 <= n)%Z -> (n mod 4 = 0)%Z -> flag = 1%Z \/ flag = 0%Z ->
  length (filter (fun b : bool => b = true)
            ((fun z => Z.eqb z flag) <$> list_times [1; 1; 0; 0]%Z (n / 4)))
  = Z.to_nat n / 2.
Proof.
  intros Hn Hm Hflag. rewrite fmap_list_times, filter_list_times.
  assert (length (filter (fun b : bool => b = true)
                    ((fun z => Z.eqb z flag) <$> [1; 1; 0; 0]%Z)) = 2) as ->.
  { by destruct Hflag as [-> | ->]. }
  assert (Z.to_nat n = 4 * Z.to_nat (n / 4)) as ->.
  { pose proof (Z.div_mod n 4 ltac:(lia)). lia. }
  replace (4 * Z.to_nat (n / 4)) with (Z.to_nat (n / 4) * 2 * 2) by lia.
  by rewrite Nat.div_mul.
Qed.

Lemma group_table_of (n : Z) (d : raw_draws) (flag : Z) (variable : string)
    (l : list F64.t) :
  (0 <= n)%Z -> (n mod 4 = 0)%Z -> flag = 1%Z \/ flag = 0%Z ->
  column variable (table_of n d) = Some (FloatCol l) ->
  length l = Z.to_nat n ->
  exists g, group (table_of n d) flag variable = Ok (FloatCol g)
            /\ length g = Z.to_nat n / 2.
Proof.
  intros Hn Hm Hflag Hcol Hlen. unfold group.
  assert (df_getitem "LLMUsage" (table_of n d)
          = Ok (np_array (list_times [1; 1; 0; 0]%Z (n / 4)))) as -> by reflexivity.
  rewrite bind_Ok, series_eq_int_np_array.
  unfold df_getitem. rewrite column_df_mask, Hcol. simpl.
  eexists. split; [reflexivity|].
  rewrite mask_list_length.
  - by apply usage_mask_count.
  - rewrite length_fmap, Hlen. by apply flags_length.
Qed.

(** X19.  In every generated table, each of the three t-tests compares the
    [float64] values of the [n/2] LLM users with those of the [n/2] others:
    the two samples always have the same size. *)
Theorem simulate_data_groups_halve (R : RandomState) (n seed : Z)
    (g : rng_state R) (t : DataFrame) :
  (simulate_data R n seed g).1 = Ok t -> groups_halve (Z.to_nat n) t.
Proof.
  intros Ht. apply simulate_data_Ok_inv in Ht as (_ & Hn & Hm & d & -> & Hw & _).
  pose proof (table_of_all_rows n d Hn Hm Hw) as Hrows.
  assert (Hvar : forall variable l,
            column variable (table_of n d) = Some (FloatCol l) ->
            exists llm no_llm,
              group (table_of n d) 1 variable = Ok (FloatCol llm)
              /\ group (table_of n d) 0 variable = Ok (FloatCol no_llm)
              /\ length llm = Z.to_nat n / 2 /\ length no_llm = Z.to_nat n / 2).
  { intros variable l Hcol.
    pose proof (column_all_rows _ _ _ _ Hrows Hcol) as Hlen. simpl in Hlen.
    destruct (group_table_of n d 1 variable l Hn Hm ltac:(by left) Hcol Hlen)
      as (g1 & Hg1 & L1).
    destruct (group_table_of n d 0 variable l Hn Hm ltac:(by right) Hcol Hlen)
      as (g0 & Hg0 & L0).
    by exists g1, g0. }
  intros variable Hin. unfold compared_variables in Hin.
  repeat (apply elem_of_cons in Hin as [->|Hin]; [eapply Hvar; reflexivity|]).
  by apply elem_of_nil in Hin.
Qed.

Lemma simulate_data_groups_halve_witness : groups_halve 4 sample_table.
Proof.
  apply (simulate_data_groups_halve counter_rng 4 42 0%Z sample_table).
  exact sample_table_generated.
Defined.

Lemma df_select_returns (labels : list string) (df : DataFrame) :
  Forall (fun l => l ∈ column_names df) labels -> returns (df_select labels df).
Proof.
  induction labels as [|l labels IH]; intros H; [by eexists|].
  apply Forall_cons in H as [Hl H]. destruct (IH H) as [sub Hsub]. simpl.
  destruct (column l df) as [c|] eqn:E.
  - rewrite Hsub. by eexists.
  - apply column_is_None in E. done.
Qed.

Lemma df_select_missing (labels : list string) (df : DataFrame) (l : string) :
  l ∈ labels -> l ∉ column_names df -> raises KeyError (df_select labels df).
Proof.
  intros Hl Hdf. induction labels as [|k labels IH]; [by apply elem_of_nil in Hl|].
  simpl. destruct (column k df) as [c|] eqn:E; [|by eexists].
  apply elem_of_cons in Hl as [->|Hl].
  - apply column_None in Hdf. congruence.
  - destruct (IH Hl) as (e & -> & He). by exists e.
Qed.

(** X20.  On a generated table the analysis goes through whenever the three
    library calls do, and its third result lists the three outcome
    variables in the order of the loop. *)
Theorem perform_statistical_analysis_generated (L : StatsLib) (R : RandomState)
    (n seed : Z) (g : rng_state R) (t : DataFrame) :
  (forall df, returns (describe L df)) -> (forall df, returns (corr L df)) ->
  (forall a b, returns (ttest_ind L a b)) ->
  (simulate_data R n seed g).1 = Ok t ->
  exists stats matrix comparisons,
    perform_statistical_analysis L t = Ok (stats, matrix, comparisons)
    /\ comparisons.*1 = compared_variables.
Proof.
  intros Hd Hc Ht Hsim.
  apply simulate_data_Ok_inv in Hsim as (_ & Hn & Hm & d & -> & Hw & _).
  pose proof (table_of_all_rows n d Hn Hm Hw) as Hrows.
  assert (Hvar : forall variable l,
            column variable (table_of n d) = Some (FloatCol l) ->
            exists tp, compare_groups L (table_of n d) variable = Ok (variable, tp)).
  { intros variable l Hcol.
    pose proof (column_all_rows _ _ _ _ Hrows Hcol) as Hlen. simpl in Hlen.
    destruct (group_table_of n d 1 variable l Hn Hm ltac:(by left) Hcol Hlen)
      as (g1 & Hg1 & _).
    destruct (group_table_of n d 0 variable l Hn Hm ltac:(by right) Hcol Hlen)
      as (g0 & Hg0 & _).
    unfold compare_groups. rewrite Hg1, bind_Ok, Hg0, bind_Ok.
    destruct (Ht (FloatCol g1) (FloatCol g0)) as [tp ->]. by exists tp. }
  unfold perform_statistical_analysis.
  destruct (Hd (table_of n d)) as [stats ->]. rewrite bind_Ok.
  destruct (df_select_returns compared_variables (table_of n d)) as [sel ->].
  { rewrite table_of_names. unfold compared_variables.
    repeat (apply Forall_cons; split; [rewrite !elem_of_cons; tauto|]).
    by apply Forall_nil. }
  rewrite bind_Ok. destruct (Hc sel) as [matrix ->]. rewrite bind_Ok.
  unfold compared_variables. cbn [mapM].
  destruct (Hvar "FinalSelfEfficacy" _ eq_refl) as [tp1 ->].
  destruct (Hvar "FinalAnxiety" _ eq_refl) as [tp2 ->].
  destruct (Hvar "Performance" _ eq_refl) as [tp3 ->].
  by eexists _, _, _.
Qed.

Lemma perform_statistical_analysis_generated_witness :
  exists stats matrix comparisons,
    perform_statistical_analysis toy_stats sample_table
    = Ok (stats, matrix, comparisons)
    /\ comparisons.*1 = compared_variables.
Proof.
  apply (perform_statistical_analysis_generated toy_stats counter_rng 4 42 0%Z
           sample_table).
  - intros df. by eexists.
  - intros df. by eexists.
  - intros a b. by eexists.
  - exact sample_table_generated.
Defined.

(** X21.  A table that lacks [LLMUsage] or one of the three outcome variables is
    refused with a [KeyError], provided [describe] and [corr] return. *)
Theorem perform_statistical_analysis_missing_column (L : StatsLib)
    (data : DataFrame) (label : string) :
  returns (describe L data) -> (forall df, returns (corr L df)) ->
  label ∈ "LLMUsage" :: compared_variables ->
  label ∉ column_names data ->
  raises KeyError (perform_statistical_analysis L data).
Proof.
  intros [stats Hd] Hc Hl Hmiss. unfold perform_statistical_analysis.
  rewrite Hd, bind_Ok.
  destruct (decide (label ∈ compared_variables)) as [Hin|Hout].
  { destruct (df_select_missing compared_variables data label Hin Hmiss)
      as (e & -> & He). by exists e. }
  apply elem_of_cons in Hl as [->|Hl]; [|done].
  destruct (df_select compared_variables data) as [sel|e] eqn:Hsel.
  2: { exists e. split; [done|]. revert Hsel. unfold compared_variables. simpl.
       repeat match goal with
              | |- context [column ?k data] => destruct (column k data); simpl
              end; intros [= <-]; done. }
  rewrite bind_Ok. destruct (Hc sel) as [matrix ->]. rewrite bind_Ok.
  unfold compared_variables. cbn [mapM].
  assert (compare_groups L data "FinalSelfEfficacy"
          = Raise (PyExn KeyError "LLMUsage")) as ->.
  { unfold compare_groups, group, df_getitem. by rewrite (column_None _ _ Hmiss). }
  by eexists.
Qed.

Lemma perform_statistical_analysis_missing_column_witness :
  raises KeyError (perform_statistical_analysis toy_stats sample_without_usage).
Proof.
  apply (perform_statistical_analysis_missing_column toy_stats
           sample_without_usage "LLMUsage").
  - by eexists.
  - intros df. by eexists.
  - apply elem_of_cons. by left.
  - intros H. apply filter_names_not_in in H as [_ H]. apply H.
    apply elem_of_cons. by left.
Defined.

(* ===================================================================== *)
(** * The simulated prompts and their keywords                           *)
(* ===================================================================== *)

Section QualitativeFacts.

Context (P : PyRandom).

Lemma prompt_row_Ok (data : DataFrame) (i : nat) (prompts prompts' : list string)
    (s s' : py_state P) :
  prompt_row P data i prompts s = (Ok prompts', s') ->
  exists p, prompts' = (prompts ++ [p])%list /\ prompt_of_row data i p.
Proof.
  unfold prompt_row. intros H.
  apply se_bind_inv_Ok in H as (usage & s1 & Hu & H).
  apply se_bind_inv_Ok in H as (b & s2 & Hb & H).
  unfold lift in Hu, Hb. injection Hu as Hu <-. injection Hb as Hb <-.
  destruct b.
  - apply se_bind_inv_Ok in H as (pt & s3 & _ & H).
    destruct (String.eqb pt "debug"); [|destruct (String.eqb pt "explain")];
      injection H as <- _; eexists; (split; [reflexivity|]);
      exists usage, true; eexists; (repeat split; [done..|]);
      rewrite !elem_of_cons; tauto.
  - injection H as <- _. eexists. split; [reflexivity|].
    by exists usage, false, general_prompt.
Qed.

Lemma for_rows_prompts (data : DataFrame) (idx : list nat)
    (prompts0 prompts : list string) (s s' : py_state P) :
  for_rows P (prompt_row P data) idx prompts0 s = (Ok prompts, s') ->
  exists new, prompts = (prompts0 ++ new)%list
              /\ Forall2 (prompt_of_row data) idx new.
Proof.
  revert prompts0 s. induction idx as [|i idx IH]; intros prompts0 s.
  - cbn. intros [= <- _]. exists []. by rewrite app_nil_r.
  - cbn [for_rows]. intros H.
    apply se_bind_inv_Ok in H as (prompts1 & s1 & Hrow & H).
    apply prompt_row_Ok in Hrow as (p & -> & Hp).
    apply IH in H as (new & -> & Hnew).
    exists (p :: new). split; [by rewrite <- app_assoc|by constructor].
Qed.

Lemma range_of_nat (n : nat) : range (Z.of_nat n) = seq 0 n.
Proof. unfold range. by rewrite Nat2Z.id. Qed.

(** X22.  Whenever [analyze_prompts] returns, it has made one prompt per row, in
    row order, each labelled with the row's number from 1; the rows whose
    usage flag is 1 ask one of the three specific questions and all others
    the general one. *)
Theorem analyze_prompts_one_per_row (data : DataFrame) (s s' : py_state P)
    (res : prompt_analysis) :
  analyze_prompts P data s = (Ok res, s') ->
  one_prompt_per_row data (pa_prompts res).
Proof.
  unfold analyze_prompts. intros H.
  apply se_bind_inv_Ok in H as (prompts & s1 & Hloop & H).
  injection H as <- _. cbn [pa_prompts].
  apply for_rows_prompts in Hloop as (new & -> & Hnew). cbn [app].
  rewrite range_of_nat in Hnew. split.
  - apply Forall2_length in Hnew. by rewrite length_seq in Hnew.
  - intros i p Hp.
    destruct (Forall2_lookup_r _ _ _ _ _ Hnew Hp) as (j & Hj & Hrow).
    apply lookup_seq in Hj as [-> _]. done.
Qed.

End QualitativeFacts.

(** ** The keyword counts are word frequencies *)

Lemma foldl_skip_common (counts : list (string * Z)) (words : list string) :
  foldl (fun counts word =>
           if bool_decide (word ∈ common_words) then counts
           else count_word word counts) counts words
  = foldl (fun counts word => count_word word counts) counts
      (filter (fun word => word ∉ common_words) words).
Proof.
  revert counts. induction words as [|w words IH]; intros counts; [done|].
  rewrite filter_cons. cbn [foldl]. rewrite IH.
  destruct (decide (w ∉ common_words)) as [Hw|Hw].
  - by rewrite bool_decide_eq_false_2.
  - rewrite bool_decide_eq_true_2; [done|].
    by destruct (decide (w ∈ common_words)).
Qed.

Lemma keyword_counts_fold (prompts : list string) (counts : list (string * Z)) :
  foldl (fun counts p =>
           foldl (fun counts word =>
                    if bool_decide (word ∈ common_words) then counts
                    else count_word word counts)
                 counts (py_split (py_lower p)))
        counts prompts
  = foldl (fun counts word => count_word word counts) counts
      (filter (fun word => word ∉ common_words)
         (mjoin ((fun p => py_split (py_lower p)) <$> prompts))).
Proof.
  revert counts. induction prompts as [|p prompts IH]; intros counts; [done|].
  cbn [foldl fmap list_fmap mjoin list_join]. rewrite IH, filter_app, foldl_app.
  by rewrite foldl_skip_common.
Qed.

Lemma keyword_counts_counted (prompts : list string) :
  keyword_counts prompts
  = foldl (fun counts word => count_word word counts) [] (counted_words prompts).
Proof. apply keyword_counts_fold. Qed.

Lemma count_word_elem (word : string) (counts : list (string * Z)) (w : string)
    (c : Z) :
  NoDup counts.*1 ->
  (w, c) ∈ count_word word counts
  <-> (w <> word /\ (w, c) ∈ counts)
      \/ (w = word /\ ((exists c0, (word, c0) ∈ counts /\ c = (c0 + 1)%Z)
                       \/ ((word ∉ counts.*1) /\ c = 1%Z))).
Proof.
  induction counts as [|[k c0] counts IH]; intros Hnd.
  - cbn. rewrite list_elem_of_singleton. split.
    + intros [= -> ->]. right. split; [done|]. right. split; [|done].
      apply not_elem_of_nil.
    + intros [[_ H]|[-> [(c0 & H & _)|[_ ->]]]]; try done;
        by apply elem_of_nil in H.
  - cbn [fmap list_fmap fst] in Hnd. apply NoDup_cons in Hnd as [Hk Hnd].
    cbn [count_word]. destruct (String.eqb_spec k word) as [->|Hne].
    + rewrite !elem_of_cons. split.
      * intros [[= -> ->]|H].
        -- right. split; [done|]. left. exists c0. split; [|done].
           apply elem_of_cons. by left.
        -- left. split; [|by right]. intros ->. apply Hk.
           apply list_elem_of_fmap. by exists (word, c).
      * intros [[Hw [[= -> ->]|H]]|[-> [(c1 & H & ->)|[H _]]]]; try done.
        -- by right.
        -- apply elem_of_cons in H as [[= ->]|H]; [by left|].
           exfalso. apply Hk. apply list_elem_of_fmap. by exists (word, c1).
        -- exfalso. apply H. cbn. apply elem_of_cons. by left.
    + rewrite !elem_of_cons, (IH Hnd). cbn [fmap list_fmap fst].
      rewrite not_elem_of_cons. split.
      * intros [[= -> ->]|[[Hw H]|[-> [(c1 & H & ->)|[H ->]]]]].
        -- left. split; [done|by left].
        -- left. split; [done|by right].
        -- right. split; [done|]. left. exists c1. split; [|done].
           apply elem_of_cons. by right.
        -- right. split; [done|]. by right.
      * intros [[Hw [[= -> ->]|H]]|[-> [(c1 & H & ->)|[[_ H] ->]]]].
        -- by left.
        -- right. left. done.
        -- apply elem_of_cons in H as [[= -> _]|H]; [done|].
           right. right. split; [done|]. left. by exists c1.
        -- right. right. split; [done|]. by right.
Qed.

Lemma count_word_keys (word : string) (counts : list (string * Z)) (w : string) :
  w ∈ (count_word word counts).*1 <-> w = word \/ w ∈ counts.*1.
Proof.
  induction counts as [|[k c0] counts IH]; cbn [count_word].
  - cbn. rewrite list_elem_of_singleton. split; [by left|].
    intros [->|H]; [done|by apply elem_of_nil in H].
  - destruct (String.eqb_spec k word) as [->|Hne]; cbn [fmap list_fmap fst];
      rewrite !elem_of_cons; [tauto|].
    fold (fmap (M := list) (@fst string Z) (count_word word counts)).
    fold (fmap (M := list) (@fst string Z) counts).
    rewrite IH. tauto.
Qed.

Lemma count_word_NoDup (word : string) (counts : list (string * Z)) :
  NoDup counts.*1 -> NoDup (count_word word counts).*1.
Proof.
  induction counts as [|[k c0] counts IH]; intros Hnd; cbn [count_word].
  - cbn. apply NoDup_singleton.
  - cbn [fmap list_fmap fst] in Hnd. apply NoDup_cons in Hnd as [Hk Hnd].
    destruct (String.eqb_spec k word) as [->|Hne]; cbn [fmap list_fmap fst].
    + by apply NoDup_cons.
    + apply NoDup_cons. split; [|by apply IH].
      fold (fmap (M := list) (@fst string Z) (count_word word counts)).
      rewrite count_word_keys. intros [->|H]; done.
Qed.

Lemma occurrences_snoc (w word : string) (words : list string) :
  occurrences w (words ++ [word])
  = (occurrences w words + if decide (word = w) then 1 else 0)%Z.
Proof.
  unfold occurrences. rewrite filter_app, length_app, filter_cons, filter_nil.
  destruct (decide (word = w)); simpl; lia.
Qed.

Lemma occurrences_pos (w : string) (words : list string) :
  w ∈ words <-> (1 <= occurrences w words)%Z.
Proof.
  unfold occurrences. induction words as [|x words IH].
  - cbn. split; [intros H; by apply elem_of_nil in H|lia].
  - rewrite filter_cons, elem_of_cons.
    destruct (decide (x = w)) as [->|Hne]; cbn [length].
    + split; [lia|by left].
    + rewrite IH. split; [intros [->|H]; [done|lia]|by right].
Qed.

(** After the words have been counted, the dict has one entry per word that
    occurred, holding how often it did. *)
Lemma count_words_spec (words : list string) :
  let counts := foldl (fun counts word => count_word word counts) [] words in
  NoDup counts.*1
  /\ forall w c, (w, c) ∈ counts <-> w ∈ words /\ c = occurrences w words.
Proof.
  induction words as [|word words IH] using rev_ind.
  - cbn. split; [apply NoDup_nil_2|]. intros w c. split.
    + intros H. by apply elem_of_nil in H.
    + intros [H _]. by apply elem_of_nil in H.
  - rewrite foldl_app. cbn [foldl]. cbv zeta in *.
    destruct IH as [Hnd IH]. split; [by apply count_word_NoDup|].
    intros w c. rewrite (count_word_elem _ _ _ _ Hnd), elem_of_app,
      list_elem_of_singleton, occurrences_snoc.
    split.
    + intros [[Hw H]|[-> [(c0 & H & ->)|[H ->]]]].
      * apply IH in H as [H ->]. split; [by left|].
        destruct (decide (word = w)); [congruence|lia].
      * apply IH in H as [H ->]. split; [by left|].
        destruct (decide (word = word)); [lia|done].
      * split; [by right|]. destruct (decide (word = word)); [|done].
        assert (occurrences word words = 0)%Z as ->; [|done].
        destruct (decide (1 <= occurrences word words)%Z) as [Hpos|Hz].
        -- apply occurrences_pos in Hpos. exfalso. apply H.
           apply list_elem_of_fmap. exists (word, occurrences word words).
           split; [done|]. by apply IH.
        -- unfold occurrences in *. lia.
    + intros [Hin ->]. destruct (decide (word = w)) as [->|Hne].
      * right. split; [done|].
        destruct (decide (w ∈ words)) as [Hw|Hw].
        -- left. exists (occurrences w words). split; [by apply IH|done].
        -- right. split.
           ++ intros H. apply list_elem_of_fmap in H as ([k c0] & -> & H).
              by apply IH in H as [H _].
           ++ assert (occurrences w words = 0)%Z as ->; [|done].
              destruct (decide (1 <= occurrences w words)%Z) as [Hpos|Hz].
              ** by apply occurrences_pos in Hpos.
              ** unfold occurrences in *. lia.
      * left. split; [done|]. apply IH. split; [|lia].
        destruct Hin as [Hin| ->]; done.
Qed.

(** ** The ranking *)

Lemma insert_by_count_perm (x : string * Z) (l : list (string * Z)) :
  insert_by_count x l ≡ₚ x :: l.
Proof.
  induction l as [|y l IH]; cbn [insert_by_count]; [done|].
  destruct (x.2 <? y.2)%Z; [|done]. rewrite IH. apply Permutation_swap.
Qed.

Lemma sorted_by_count_perm (l : list (string * Z)) : sorted_by_count l ≡ₚ l.
Proof.
  unfold sorted_by_count. induction l as [|x l IH]; cbn [foldr]; [done|].
  by rewrite insert_by_count_perm, IH.
Qed.

Lemma insert_by_count_sorted (x : string * Z) (l : list (string * Z)) :
  StronglySorted (fun a b : string * Z => (b.2 <= a.2)%Z) l ->
  StronglySorted (fun a b : string * Z => (b.2 <= a.2)%Z) (insert_by_count x l).
Proof.
  induction l as [|y l IH]; intros Hs; cbn [insert_by_count].
  - constructor; [constructor|by apply Forall_nil].
  - apply StronglySorted_inv in Hs as [Hl Hy].
    destruct (Z.ltb_spec x.2 y.2) as [Hlt|Hge].
    + constructor; [by apply IH|].
      rewrite insert_by_count_perm. apply Forall_cons. split; [lia|done].
    + constructor; [by constructor|].
      apply Forall_cons. split; [lia|].
      eapply Forall_impl; [exact Hy|]. intros z Hz. cbn in Hz. lia.
Qed.

Lemma sorted_by_count_sorted (l : list (string * Z)) :
  StronglySorted (fun a b : string * Z => (b.2 <= a.2)%Z) (sorted_by_count l).
Proof.
  unfold sorted_by_count. induction l as [|x l IH]; cbn [foldr].
  - constructor.
  - by apply insert_by_count_sorted.
Qed.

Lemma sorted_non_increasing (l : list (string * Z)) :
  StronglySorted (fun a b : string * Z => (b.2 <= a.2)%Z) l -> non_increasing l.
Proof.
  induction l as [|x l IH]; intros Hs i j a b Hij Ha Hb.
  - by rewrite lookup_nil in Ha.
  - apply StronglySorted_inv in Hs as [Hl Hx].
    destruct j as [|j]; [lia|]. cbn in Hb. destruct i as [|i].
    + injection Ha as <-. rewrite Forall_forall in Hx. apply Hx.
      by eapply list_elem_of_lookup_2.
    + cbn in Ha. apply (IH Hl i j a b); [lia|done..].
Qed.

(** The ranking computed from any list of prompts. *)
Lemma most_common_keywords_ranked (prompts : list string) :
  keywords_ranked prompts (take 5 (sorted_by_count (keyword_counts prompts))).
Proof.
  rewrite keyword_counts_counted.
  destruct (count_words_spec (counted_words prompts)) as [Hnd Hspec].
  cbv zeta in Hnd, Hspec.
  set (counts := foldl _ [] (counted_words prompts)) in *.
  pose proof (sorted_by_count_perm counts) as Hperm.
  pose proof (sorted_non_increasing _ (sorted_by_count_sorted counts)) as Hsorted.
  set (ranking := sorted_by_count counts) in *.
  assert (Hin : forall kc, kc ∈ take 5 ranking -> kc ∈ counts).
  { intros kc H. rewrite <- Hperm.
    apply list_elem_of_lookup in H as [i H].
    apply lookup_take_Some in H as [H _]. by eapply list_elem_of_lookup_2. }
  split; [|split; [|split; [|split]]].
  - rewrite length_take. lia.
  - rewrite fmap_take. eapply sublist_NoDup; [|apply sublist_take].
    by rewrite Hperm.
  - intros word c H. apply Hin, Hspec in H as [Hw ->].
    split; [|split; [|done]].
    + unfold counted_words in Hw. by apply list_elem_of_filter in Hw as [Hw _].
    + by apply occurrences_pos.
  - intros i j a b Hij Ha Hb.
    apply lookup_take_Some in Ha as [Ha _]. apply lookup_take_Some in Hb as [Hb _].
    by apply (Hsorted i j).
  - intros word Hword Hout.
    assert (Hc : (word, occurrences word (counted_words prompts)) ∈ ranking).
    { rewrite Hperm. by apply Hspec. }
    apply list_elem_of_lookup in Hc as [j Hj].
    assert (5 <= j) as Hfive.
    { destruct (decide (5 <= j)) as [|Hlt]; [done|]. exfalso. apply Hout.
      apply list_elem_of_fmap. eexists. split; [|eapply list_elem_of_lookup_2].
      2: { apply lookup_take_Some. split; [exact Hj|lia]. }
      done. }
    pose proof (lookup_lt_Some _ _ _ Hj) as Hlen.
    split; [rewrite length_take; lia|].
    intros kc Hkc. apply list_elem_of_lookup in Hkc as [i Hi].
    apply lookup_take_Some in Hi as [Hi Hi5].
    apply (Hsorted i j kc _ ltac:(lia) Hi Hj).
Qed.

Section PromptFacts.

Context (P : PyRandom).

(** X23.  Whatever the table and the random choices, the keywords reported are a
    ranking of true word frequencies: at most five different words, no
    common word among them, each with the number of its occurrences in the
    lowercased prompts, in order of decreasing count, and no word that was
    left out occurs more often than a listed one. *)
Theorem analyze_prompts_keywords_ranked (data : DataFrame) (s s' : py_state P)
    (res : prompt_analysis) :
  analyze_prompts P data s = (Ok res, s') ->
  keywords_ranked (pa_prompts res) (pa_most_common_keywords res).
Proof.
  unfold analyze_prompts. intros H.
  apply se_bind_inv_Ok in H as (prompts & s1 & _ & H).
  injection H as <- _. cbn [pa_prompts pa_most_common_keywords].
  apply most_common_keywords_ranked.
Qed.

(** X24.  Without an [LLMUsage] column the outcome depends on the rows alone.  A
    table without rows gives no prompts, the integer 0 as the average length
    (no division takes place) and no keywords: the column is never read.  A
    table with rows is refused with a [KeyError] at its first row.  In both
    cases the generator is left untouched. *)
Theorem analyze_prompts_missing_usage (data : DataFrame) (s : py_state P) :
  "LLMUsage" ∉ column_names data ->
  analyze_prompts P data s
  = if decide (nrows data = 0)
    then (Ok (PromptAnalysis [] (PyInt 0) []
                ["debug"; "explain"; "optimize"; "general help"]), s)
    else (Raise (PyExn KeyError "LLMUsage"), s).
Proof.
  intros Hmiss. unfold analyze_prompts. rewrite range_of_nat.
  destruct (decide (nrows data = 0)) as [->|Hn]; [done|].
  destruct (nrows data) as [|n]; [done|].
  apply se_bind_Raise. cbn [seq for_rows]. apply se_bind_Raise.
  unfold prompt_row. apply se_bind_Raise. apply lift_Raise.
  unfold df_getitem. by rewrite (column_None _ _ Hmiss).
Qed.

Lemma for_rows_returns {A} (body : nat -> A -> PyRand P A) (idx : list nat) :
  (forall i acc s, i ∈ idx -> exists acc' s', body i acc s = (Ok acc', s')) ->
  forall acc s, exists acc' s', for_rows P body idx acc s = (Ok acc', s').
Proof.
  induction idx as [|i idx IH]; intros Hbody acc s; [by eexists _, _|].
  cbn [for_rows].
  destruct (Hbody i acc s) as (acc1 & s1 & H1); [apply elem_of_cons; by left|].
  rewrite (se_bind_Ok _ _ _ _ _ H1). apply IH.
  intros j acc' s' Hj. apply Hbody. apply elem_of_cons. by right.
Qed.

Lemma prompt_row_returns (data : DataFrame) (usage : series) (b : bool) (i : nat)
    (prompts : list string) (s : py_state P) :
  df_getitem "LLMUsage" data = Ok usage -> cell_is usage i 1 = Ok b ->
  exists prompts' s', prompt_row P data i prompts s = (Ok prompts', s').
Proof.
  intros Hu Hb. unfold prompt_row.
  rewrite (se_bind_Ok _ _ _ _ _ (lift_Ok _ _ _ Hu)).
  rewrite (se_bind_Ok _ _ _ _ _ (lift_Ok _ _ _ Hb)).
  destruct b; [|by eexists _, _].
  erewrite se_bind_Ok by reflexivity.
  destruct (String.eqb _ "debug"); [|destruct (String.eqb _ "explain")];
    by eexists _, _.
Qed.

End PromptFacts.

Lemma lookup_list_times {A} (l : list A) (k : Z) (i : nat) :
  i < Z.to_nat k * length l -> list_times l k !! i = l !! (i mod length l).
Proof.
  unfold list_times. revert i.
  induction (Z.to_nat k) as [|j IH]; intros i Hi; [lia|].
  cbn [replicate mjoin list_join].
  destruct (decide (i < length l)) as [Hlt|Hge].
  - rewrite lookup_app_l by done. by rewrite Nat.mod_small.
  - rewrite lookup_app_r by lia. rewrite IH by lia. f_equal.
    assert (length l <> 0) as Hne by lia.
    replace i with ((i - length l) + 1 * length l) at 2 by lia.
    by rewrite Nat.Div0.mod_add.
Qed.

Lemma cell_is_table_of (n : Z) (d : raw_draws) (i : nat) :
  (0 <= n)%Z -> (n mod 4 = 0)%Z -> i < Z.to_nat n ->
  exists flag,
    [1; 1; 0; 0]%Z !! (i mod 4) = Some flag
    /\ cell_is (np_array (list_times [1; 1; 0; 0]%Z (n / 4))) i 1
       = Ok (Z.eqb flag 1).
Proof.
  intros Hn Hm Hi. unfold cell_is. rewrite series_eq_int_np_array.
  rewrite list_lookup_fmap, lookup_list_times.
  2: { cbn [length]. pose proof (Z.div_mod n 4 ltac:(lia)). lia. }
  cbn [length].
  pose proof (Nat.mod_upper_bound i 4 ltac:(lia)) as Hlt.
  destruct (lookup_lt_is_Some_2 [1; 1; 0; 0]%Z (i mod 4) Hlt) as [flag Hflag].
  exists flag. by rewrite Hflag.
Qed.

(** X25.  On a generated table [analyze_prompts] always returns, whatever the
    generator picks: one prompt per participant, and the participants
    without LLM (rows 2 and 3 of every block of four) ask the general
    question. *)
Theorem analyze_prompts_generated (P : PyRandom) (R : RandomState) (n seed : Z)
    (g : rng_state R) (t : DataFrame) (s : py_state P) :
  (simulate_data R n seed g).1 = Ok t ->
  exists res s', analyze_prompts P t s = (Ok res, s')
                 /\ prompts_of_generated (Z.to_nat n) res.
Proof.
  intros Ht. apply simulate_data_Ok_inv in Ht as (_ & Hn & Hm & d & -> & Hw & _).
  pose proof (table_of_all_rows n d Hn Hm Hw) as Hrows.
  assert (Hlen : nrows (table_of n d) = Z.to_nat n).
  { cbn [table_of nrows series_len]. apply participant_ids_length. }
  assert (Husage : df_getitem "LLMUsage" (table_of n d)
                   = Ok (np_array (list_times [1; 1; 0; 0]%Z (n / 4))))
    by reflexivity.
  unfold analyze_prompts. rewrite Hlen, range_of_nat.
  destruct (for_rows_returns P (prompt_row P (table_of n d)) (seq 0 (Z.to_nat n)))
    with (acc := @nil string) (s := s) as (prompts & s' & Hloop).
  { intros i acc s0 Hi. apply elem_of_seq in Hi.
    destruct (cell_is_table_of n d i Hn Hm ltac:(lia)) as (flag & _ & Hcell).
    eapply prompt_row_returns; [exact Husage|exact Hcell]. }
  rewrite (se_bind_Ok _ _ _ _ _ Hloop). eexists _, _. split; [reflexivity|].
  unfold prompts_of_generated. cbn [pa_prompts].
  apply for_rows_prompts in Hloop as (new & -> & Hnew). cbn [app].
  pose proof (Forall2_length _ _ _ Hnew) as Hl. rewrite length_seq in Hl.
  split; [done|]. intros i Hi Hmod.
  destruct (lookup_lt_is_Some_2 new i ltac:(lia)) as [p Hp].
  destruct (Forall2_lookup_r _ _ _ _ _ Hnew Hp) as (j & Hj & Hrow).
  apply lookup_seq in Hj as [-> _]. cbn [Nat.add] in Hrow.
  destruct Hrow as (usage & b & text & Hu & Hb & -> & Htext).
  rewrite Husage in Hu. injection Hu as <-.
  destruct (cell_is_table_of n d i Hn Hm Hi) as (flag & Hflag & Hcell).
  rewrite Hcell in Hb. injection Hb as <-.
  assert (flag = 0%Z) as ->.
  { pose proof (Nat.mod_upper_bound i 4 ltac:(lia)) as Hlt.
    destruct (i mod 4) as [|[|[|[|?]]]]; try lia; cbn in Hflag; congruence. }
  cbn in Htext. by rewrite Hp, Htext.
Qed.

Lemma sample_prompt_analysis_computed :
  analyze_prompts first_choice sample_table tt = (Ok sample_prompt_analysis, tt).
Proof. vm_compute. reflexivity. Qed.

Lemma analyze_prompts_one_per_row_witness :
  one_prompt_per_row sample_table (pa_prompts sample_prompt_analysis).
Proof.
  apply (analyze_prompts_one_per_row first_choice sample_table tt tt
           sample_prompt_analysis).
  exact sample_prompt_analysis_computed.
Defined.

Lemma analyze_prompts_keywords_ranked_witness :
  keywords_ranked (pa_prompts sample_prompt_analysis)
    (pa_most_common_keywords sample_prompt_analysis).
Proof.
  apply (analyze_prompts_keywords_ranked first_choice sample_table tt tt
           sample_prompt_analysis).
  exact sample_prompt_analysis_computed.
Defined.

Lemma analyze_prompts_missing_usage_witness :
  analyze_prompts first_choice sample_without_usage tt
  = if decide (nrows sample_without_usage = 0)
    then (Ok (PromptAnalysis [] (PyInt 0) []
                ["debug"; "explain"; "optimize"; "general help"]), tt)
    else (Raise (PyExn KeyError "LLMUsage"), tt).
Proof.
  apply (analyze_prompts_missing_usage first_choice sample_without_usage tt).
  intros H. apply filter_names_not_in in H as [_ H]. apply H.
  apply elem_of_cons. by left.
Defined.

Lemma analyze_prompts_generated_witness :
  exists res s', analyze_prompts first_choice sample_table tt = (Ok res, s')
                 /\ prompts_of_generated (Z.to_nat 4) res.
Proof.
  apply (analyze_prompts_generated first_choice counter_rng 4 42 0%Z
           sample_table tt).
  exact sample_table_generated.
Defined.

(* ===================================================================== *)
(** * The simulated interviews                                           *)
(* ===================================================================== *)

Section InterviewFacts.

Context (P : PyRandom) (R : RandomState).

Lemma random_choice_Ok (seq : list string) (s s' : py_state P) (x : string) :
  random_choice P seq s = (Ok x, s') -> x = (py_choice P seq s).1 /\ seq <> [].
Proof. unfold random_choice. destruct seq; [done|]. by intros [= <- _]. Qed.

Lemma feedback_row_Ok (data : DataFrame) (i : nat) (feedback feedback' : list string)
    (s s' : py_state P) :
  py_choice_is_element P ->
  feedback_row P data i feedback s = (Ok feedback', s') ->
  exists f, feedback' = (feedback ++ [f])%list /\ feedback_of_row data i f.
Proof.
  intros Hch. unfold feedback_row. intros H.
  apply se_bind_inv_Ok in H as (usage & s1 & Hu & H).
  apply se_bind_inv_Ok in H as (b & s2 & Hb & H).
  unfold lift in Hu, Hb. injection Hu as Hu <-. injection Hb as Hb <-.
  apply se_bind_inv_Ok in H as (text & s3 & Htext & H).
  injection H as <- _. eexists. split; [reflexivity|].
  exists usage, b, text. repeat split; [done..|].
  destruct b; apply random_choice_Ok in Htext as [-> Hne]; by apply Hch.
Qed.

Lemma for_rows_feedback (data : DataFrame) (idx : list nat)
    (feedback0 feedback : list string) (s s' : py_state P) :
  py_choice_is_element P ->
  for_rows P (feedback_row P data) idx feedback0 s = (Ok feedback, s') ->
  exists new, feedback = (feedback0 ++ new)%list
              /\ Forall2 (feedback_of_row data) idx new.
Proof.
  intros Hch. revert feedback0 s. induction idx as [|i idx IH]; intros feedback0 s.
  - cbn. intros [= <- _]. exists []. by rewrite app_nil_r.
  - cbn [for_rows]. intros H.
    apply se_bind_inv_Ok in H as (feedback1 & s1 & Hrow & H).
    apply (feedback_row_Ok _ _ _ _ _ _ Hch) in Hrow as (f & -> & Hf).
    apply IH in H as (new & -> & Hnew).
    exists (f :: new). split; [by rewrite <- app_assoc|by constructor].
Qed.

Lemma with_random_Ok {A} (m : PyRand P A) (s : py_state P * rng_state R) (a : A)
    (s' : py_state P * rng_state R) :
  with_random P R m s = (Ok a, s') -> m s.1 = (Ok a, s'.1) /\ s'.2 = s.2.
Proof.
  unfold with_random. destruct (m s.1) as [r p]. cbn [fst snd].
  by intros [= -> <-].
Qed.

(** X26.  Whenever [analyze_interviews] returns, it has recorded one sentence per
    row, in row order, labelled with the row's number from 1, and taken from
    the list that goes with the row's usage flag: no participant without
    the LLM is made to praise it. *)
Theorem analyze_interviews_one_per_row (data : DataFrame)
    (s s' : py_state P * rng_state R) (res : interview_analysis) :
  py_choice_is_element P ->
  analyze_interviews P R data s = (Ok res, s') ->
  one_feedback_per_row data (ia_qualitative_feedback res).
Proof.
  intros Hch. unfold analyze_interviews. intros H.
  apply se_bind_inv_Ok in H as (feedback & s1 & Hloop & H).
  apply se_bind_inv_Ok in H as (u1 & s2 & _ & H).
  apply se_bind_inv_Ok in H as (r1 & s3 & _ & H).
  apply se_bind_inv_Ok in H as (u2 & s4 & _ & H).
  apply se_bind_inv_Ok in H as (r2 & s5 & _ & H).
  apply se_bind_inv_Ok in H as (u3 & s6 & _ & H).
  apply se_bind_inv_Ok in H as (r3 & s7 & _ & H).
  injection H as <- _. cbn [ia_qualitative_feedback].
  apply with_random_Ok in Hloop as [Hloop _].
  apply (for_rows_feedback _ _ _ _ _ _ Hch) in Hloop as (new & -> & Hnew).
  cbn [app]. rewrite range_of_nat in Hnew. split.
  - apply Forall2_length in Hnew. by rewrite length_seq in Hnew.
  - intros i f Hf.
    destruct (Forall2_lookup_r _ _ _ _ _ Hnew Hf) as (j & Hj & Hrow).
    apply lookup_seq in Hj as [-> _]. done.
Qed.

Lemma feedback_row_returns (data : DataFrame) (usage : series) (b : bool) (i : nat)
    (feedback : list string) (s : py_state P) :
  df_getitem "LLMUsage" data = Ok usage -> cell_is usage i 1 = Ok b ->
  exists feedback' s', feedback_row P data i feedback s = (Ok feedback', s').
Proof.
  intros Hu Hb. unfold feedback_row.
  rewrite (se_bind_Ok _ _ _ _ _ (lift_Ok _ _ _ Hu)).
  rewrite (se_bind_Ok _ _ _ _ _ (lift_Ok _ _ _ Hb)).
  destruct b; (erewrite se_bind_Ok by reflexivity); by eexists _, _.
Qed.

(** X27.  A table without an [LLMUsage] column is refused with a [KeyError] even
    when it has no rows: unlike [analyze_prompts], this function reads the
    column after the loop as well. *)
Theorem analyze_interviews_missing_usage (data : DataFrame)
    (s : py_state P * rng_state R) :
  "LLMUsage" ∉ column_names data ->
  analyze_interviews P R data s = (Raise (PyExn KeyError "LLMUsage"), s).
Proof.
  intros Hmiss. unfold analyze_interviews. rewrite range_of_nat.
  assert (Hget : df_getitem "LLMUsage" data = Raise (PyExn KeyError "LLMUsage")).
  { unfold df_getitem. by rewrite (column_None _ _ Hmiss). }
  destruct (nrows data) as [|n].
  - erewrite se_bind_Ok; cycle 1.
    { unfold with_random. cbn [seq for_rows se_ret fst snd]. by destruct s. }
    apply se_bind_Raise. by apply lift_Raise.
  - apply se_bind_Raise. unfold with_random. cbn [seq for_rows].
    erewrite se_bind_Raise; cycle 1.
    { unfold feedback_row. apply se_bind_Raise. by apply lift_Raise. }
    cbn [fst snd]. by destruct s.
Qed.

End InterviewFacts.

Lemma series_any_flags (pattern : list Z) (k : Z) :
  (0 < k)%Z -> list_find (fun z => z <> 0%Z) pattern <> None ->
  series_any (np_array (list_times pattern k)) = true.
Proof.
  intros Hk Hp.
  destruct (list_find (fun z => z <> 0%Z) pattern) as [[i z]|] eqn:E; [|done].
  apply list_find_Some in E as (Hi & Hz & _).
  assert (Hin : z ∈ list_times pattern k).
  { unfold list_times. destruct (Z.to_nat k) as [|j] eqn:Ek; [lia|].
    cbn. apply elem_of_app. left. by eapply list_elem_of_lookup_2. }
  destruct (list_times pattern k) as [|x l] eqn:El; [by apply elem_of_nil in Hin|].
  cbn [np_array series_any]. apply existsb_exists. exists z.
  split; [by apply list_elem_of_In|]. by destruct (Z.eqb_spec z 0).
Qed.

Lemma for_rows_feedback_length (P : PyRandom) (data : DataFrame) (idx : list nat)
    (acc feedback : list string) (s s' : py_state P) :
  for_rows P (feedback_row P data) idx acc s = (Ok feedback, s') ->
  length feedback = length acc + length idx.
Proof.
  revert acc s. induction idx as [|i idx IH]; intros acc s.
  - cbn. intros [= <- _]. lia.
  - cbn [for_rows]. intros H.
    apply se_bind_inv_Ok in H as (fb1 & s1 & Hrow & H).
    apply IH in H. rewrite H. cbn [length].
    unfold feedback_row in Hrow.
    apply se_bind_inv_Ok in Hrow as (? & ? & _ & Hrow).
    apply se_bind_inv_Ok in Hrow as (? & ? & _ & Hrow).
    apply se_bind_inv_Ok in Hrow as (? & ? & _ & Hrow).
    injection Hrow as <- _. rewrite length_app. cbn. lia.
Qed.

(** X28.  On a generated table with participants [analyze_interviews] always
    returns; it records one sentence per participant, and the three ratings
    are drawn from the upper ranges - uniform(3, 5), uniform(1, 3),
    uniform(1, 3), in this order - because both treatment columns contain a
    1. *)
Theorem analyze_interviews_generated (P : PyRandom) (R : RandomState) (n seed : Z)
    (g : rng_state R) (t : DataFrame) (s : py_state P) (g' : rng_state R) :
  (simulate_data R n seed g).1 = Ok t -> (0 < n)%Z ->
  exists res s', analyze_interviews P R t (s, g') = (Ok res, s')
    /\ length (ia_qualitative_feedback res) = Z.to_nat n
    /\ ratings_from_upper_ranges R g' res.
Proof.
  intros Ht Hpos.
  apply simulate_data_Ok_inv in Ht as (_ & Hn & Hm & d & -> & Hw & _).
  assert (Hlen : nrows (table_of n d) = Z.to_nat n).
  { cbn [table_of nrows series_len]. apply participant_ids_length. }
  assert (Husage : df_getitem "LLMUsage" (table_of n d)
                   = Ok (np_array (list_times [1; 1; 0; 0]%Z (n / 4))))
    by reflexivity.
  assert (Hherbal : df_getitem "HerbalBlend" (table_of n d)
                    = Ok (np_array (list_times [1; 0; 1; 0]%Z (n / 4))))
    by reflexivity.
  assert (Hk : (0 < n / 4)%Z).
  { pose proof (Z.div_mod n 4 ltac:(lia)). lia. }
  unfold analyze_interviews. rewrite Hlen, range_of_nat.
  destruct (for_rows_returns P (feedback_row P (table_of n d)) (seq 0 (Z.to_nat n)))
    with (acc := @nil string) (s := s) as (feedback & s' & Hloop).
  { intros i acc s0 Hi. apply elem_of_seq in Hi.
    destruct (cell_is_table_of n d i Hn Hm ltac:(lia)) as (flag & _ & Hcell).
    eapply feedback_row_returns; [exact Husage|exact Hcell]. }
  erewrite se_bind_Ok; cycle 1.
  { unfold with_random. cbn [fst snd]. rewrite Hloop. reflexivity. }
  cbn [fst snd].
  rewrite (se_bind_Ok _ _ _ _ _ (lift_Ok _ _ _ Husage)).
  rewrite (series_any_flags [1; 1; 0; 0]%Z (n / 4) Hk ltac:(done)).
  erewrite se_bind_Ok by reflexivity.
  rewrite (se_bind_Ok _ _ _ _ _ (lift_Ok _ _ _ Husage)).
  rewrite (series_any_flags [1; 1; 0; 0]%Z (n / 4) Hk ltac:(done)).
  erewrite se_bind_Ok by reflexivity.
  rewrite (se_bind_Ok _ _ _ _ _ (lift_Ok _ _ _ Hherbal)).
  rewrite (series_any_flags [1; 0; 1; 0]%Z (n / 4) Hk ltac:(done)).
  erewrite se_bind_Ok by reflexivity.
  eexists _, _. split; [reflexivity|]. cbn [ia_qualitative_feedback].
  split; [|done].
  apply for_rows_feedback_length in Hloop. by rewrite Hloop, length_seq.
Qed.

Lemma sample_interview_analysis_computed :
  analyze_interviews first_choice counter_rng sample_table (tt, 0%Z)
  = (Ok sample_interview_analysis, (tt, 3%Z)).
Proof. vm_compute. reflexivity. Qed.

Lemma first_choice_is_element : py_choice_is_element first_choice.
Proof.
  intros seq s Hne. destruct seq as [|x seq]; [done|]. cbn.
  apply elem_of_cons. by left.
Qed.

Lemma analyze_interviews_one_per_row_witness :
  one_feedback_per_row sample_table
    (ia_qualitative_feedback sample_interview_analysis).
Proof.
  apply (analyze_interviews_one_per_row first_choice counter_rng sample_table
           (tt, 0%Z) (tt, 3%Z) sample_interview_analysis).
  - exact first_choice_is_element.
  - exact sample_interview_analysis_computed.
Defined.

Lemma analyze_interviews_missing_usage_witness :
  analyze_interviews first_choice counter_rng [] (tt, 0%Z)
  = (Raise (PyExn KeyError "LLMUsage"), (tt, 0%Z)).
Proof.
  apply (analyze_interviews_missing_usage first_choice counter_rng [] (tt, 0%Z)).
  apply not_elem_of_nil.
Defined.

Lemma analyze_interviews_generated_witness :
  exists res s',
    analyze_interviews first_choice counter_rng sample_table (tt, 0%Z)
    = (Ok res, s')
    /\ length (ia_qualitative_feedback res) = Z.to_nat 4
    /\ ratings_from_upper_ranges counter_rng 0%Z res.
Proof.
  apply (analyze_interviews_generated first_choice counter_rng 4 42 0%Z
           sample_table tt 0%Z).
  - exact sample_table_generated.
  - reflexivity.
Defined.

(* ===================================================================== *)
(** * The caller of [run_IPMA_in_r]                                      *)
(* ===================================================================== *)

(** X29.  The empty dict that [run_IPMA_in_r] returns when the IPMA routine fails
    is not what its caller expects: with a selection made, the click handler
    prints the cause and the headline and then stops with
    [KeyError: 'effect_sizes'], before any result line or figure. *)
Theorem run_IPMA_on_click_after_failure (B : RBridge)
    (show_results : list string -> string -> pyval B -> gmap string (pyval B)
                    -> Console unit)
    (IPMA_r : option (ipma_package B)) (data : DataFrame) (x_vars : list string)
    (y_var cause : string) (shown : list string) :
  ipma_routine_fails B IPMA_r data x_vars y_var cause ->
  x_vars <> [] -> y_var <> "" ->
  run_IPMA_on_click_output B show_results IPMA_r data x_vars (Some y_var) shown
  = (Raise (PyExn KeyError "effect_sizes"),
     [cause;
      "IPMA Results (R): " ++ String.concat ", " x_vars ++ " vs. " ++ y_var]).
Proof.
  intros Hfail Hx Hy. unfold run_IPMA_on_click_output.
  erewrite se_bind_Ok by reflexivity.
  destruct x_vars as [|x x_vars]; [done|]. destruct y_var as [|a y_var]; [done|].
  assert (Hrun : run_IPMA_in_r B IPMA_r data (x :: x_vars) (String a y_var) []
                 = (Ok ∅, [cause])).
  { destruct Hfail as [[-> ->]|(IPMA & r_data & e & -> & Hconv & Hcall & Hexn & ->)].
    - reflexivity.
    - unfold run_IPMA_in_r.
      erewrite se_bind_Ok by (apply lift_Ok; exact Hconv).
      erewrite se_bind_Ok; cycle 1.
      { unfold try_except, se_bind, lift, catch_Exception. cbn [fst snd].
        rewrite Hcall. cbn [fst snd]. rewrite Hexn. reflexivity. }
      reflexivity. }
  erewrite se_bind_Ok by exact Hrun.
  erewrite se_bind_Ok by reflexivity.
  apply se_bind_Raise. reflexivity.
Qed.

Lemma run_IPMA_on_click_after_failure_witness :
  run_IPMA_on_click_output no_r_bridge (fun _ _ _ _ => se_ret tt)
    (Some failing_ipma) sample_table ["LLMUsage"] (Some "Performance") []
  = (Raise (PyExn KeyError "effect_sizes"),
     ["Error running IPMA in R: could not find function";
      "IPMA Results (R): " ++ String.concat ", " ["LLMUsage"] ++ " vs. "
      ++ "Performance"]).
Proof.
  apply (run_IPMA_on_click_after_failure no_r_bridge (fun _ _ _ _ => se_ret tt)
           (Some failing_ipma) sample_table ["LLMUsage"] "Performance"
           "Error running IPMA in R: could not find function" []).
  - right. exists failing_ipma, tt, (PyExn RRuntimeError "could not find function").
    repeat split; reflexivity.
  - done.
  - done.
Defined.

(* ===================================================================== *)
(** * Preprocessing: rows and scaled columns                             *)
(* ===================================================================== *)



Section ScalingFacts.

Variable pandas2 : bool.
Variable repr_float : F64.t -> string.
Variable fit_transform : nat -> list (list F64.t) -> pyres (list (list F64.t)).


End ScalingFacts.




(** A constant column comes out of [standard_scaler] as zeros: its standard
    deviation after scaling is 0, not 1. *)
Lemma standard_scaler_constant_column :
  standard_scaler 4 [F64.of_Z <$> [18; 18; 18; 18]%Z]
  = Ok [F64.of_Z <$> [0; 0; 0; 0]%Z].
Proof. vm_compute. reflexivity. Qed.

(** So it is in a generated table whose ages happen to be equal: the scaled
    [Age] column is all zeros. *)
Lemma preprocess_data_constant_age :
  exists t p,
    (simulate_data steady_rng 4 42 tt).1 = Ok t
    /\ column "Age" t = Some (IntCol [18; 18; 18; 18]%Z)
    /\ preprocess_data true (fun _ => "") standard_scaler t = Ok p
    /\ column "Age" p = Some (FloatCol (F64.of_Z <$> [0; 0; 0; 0]%Z)).
Proof.
  eexists _, _. split; [vm_compute; reflexivity|].
  split; [reflexivity|]. split; [vm_compute; reflexivity|reflexivity].
Qed.
